(** * go-formist: form definitions, schema projection and validation

    A shallow embedding of the packages [types], [form], [schema], [router],
    [storage] and [formist] of go-formist, and the properties of the
    validation engine, the schema projector, the struct mapper and the
    registry that the specification states about them.

    Conventions of the embedding.
    - A Go [string] is a [string] of bytes; [len] is [String.length].
    - A Go [interface{}] is a [value]: the dynamic types that reach the code
      (JSON decoding, Go literals in form definitions) each have a
      constructor.
    - A Go [error] is an [option error]; [None] is [nil].
    - A Go [map[string]T] is a [gmap string T]; a nil map is the empty map.
    - [int] is 64 bits wide.
    - Calls into the Go standard library whose result is not determined by
      this repository ([strconv.ParseFloat], [regexp.Compile], the Unicode
      case tables) are the fields of the class [GoRuntime]. *)

From Stdlib Require Import ZArith NArith String Ascii List Bool.
From Stdlib Require Import Floats.SpecFloat.
From stdpp Require Import base option list strings gmap fin_maps.

Set Warnings "-register-all".
Local Open Scope string_scope.

(** ** The parts of the Go standard library the code calls *)

Module golib.

Definition byte (c : ascii) : N := N_of_ascii c.

Definition inRange (lo hi : N) (c : ascii) : bool :=
  ((lo <=? byte c) && (byte c <=? hi))%N.

Definition isByte (n : N) (c : ascii) : bool := (byte c =? n)%N.

(** *** package strings *)

(** [unicode.IsSpace] on the UTF-8 encodings of the white-space runes:
    TAB, LF, VT, FF, CR and SPACE in one byte, U+0085 and U+00A0 in two,
    U+1680, U+2000..U+200A, U+2028, U+2029, U+202F, U+205F and U+3000 in
    three. *)
Definition asciiSpace (c : ascii) : bool := inRange 9 13 c || isByte 32 c.

Definition space2 (c1 c2 : ascii) : bool :=
  isByte 0xC2 c1 && (isByte 0x85 c2 || isByte 0xA0 c2).

Definition space3 (c1 c2 c3 : ascii) : bool :=
  (isByte 0xE1 c1 && isByte 0x9A c2 && isByte 0x80 c3)
  || (isByte 0xE2 c1 && isByte 0x80 c2
      && (inRange 0x80 0x8A c3 || isByte 0xA8 c3 || isByte 0xA9 c3 || isByte 0xAF c3))
  || (isByte 0xE2 c1 && isByte 0x81 c2 && isByte 0x9F c3)
  || (isByte 0xE3 c1 && isByte 0x80 c2 && isByte 0x80 c3).

(** [strings.TrimLeftFunc(s, unicode.IsSpace)]. *)
Fixpoint TrimLeftSpace (s : string) : string :=
  match s with
  | EmptyString => EmptyString
  | String c1 r1 =>
      if asciiSpace c1 then TrimLeftSpace r1
      else match r1 with
           | String c2 r2 =>
               if space2 c1 c2 then TrimLeftSpace r2
               else match r2 with
                    | String c3 r3 =>
                        if space3 c1 c2 c3 then TrimLeftSpace r3 else s
                    | EmptyString => s
                    end
           | EmptyString => s
           end
  end.

Fixpoint revOnto (s acc : string) : string :=
  match s with
  | EmptyString => acc
  | String c r => revOnto r (String c acc)
  end.

Definition reverse (s : string) : string := revOnto s EmptyString.

(** The same scan from the end of the string, on the reversed bytes: the
    last rune is a white-space rune exactly when the string ends with one
    of the encodings above. *)
Fixpoint TrimLeftSpaceRev (s : string) : string :=
  match s with
  | EmptyString => EmptyString
  | String c1 r1 =>
      if asciiSpace c1 then TrimLeftSpaceRev r1
      else match r1 with
           | String c2 r2 =>
               if space2 c2 c1 then TrimLeftSpaceRev r2
               else match r2 with
                    | String c3 r3 =>
                        if space3 c3 c2 c1 then TrimLeftSpaceRev r3 else s
                    | EmptyString => s
                    end
           | EmptyString => s
           end
  end.

Definition TrimRightSpace (s : string) : string :=
  reverse (TrimLeftSpaceRev (reverse s)).

(** [strings.TrimSpace]. *)
Definition TrimSpace (s : string) : string :=
  TrimRightSpace (TrimLeftSpace s).

Fixpoint HasPrefix (s prefix : string) : bool :=
  match prefix, s with
  | EmptyString, _ => true
  | String p pr, String c r => Ascii.eqb p c && HasPrefix r pr
  | String _ _, EmptyString => false
  end.

(** [strings.Contains]. *)
Fixpoint Contains (s substr : string) : bool :=
  HasPrefix s substr
  || match s with
     | EmptyString => false
     | String _ r => Contains r substr
     end.

Definition isASCII (s : string) : bool :=
  forallb (fun c => (byte c <? 128)%N) (list_ascii_of_string s).

Definition lowerByte (c : ascii) : ascii :=
  if inRange 65 90 c then ascii_of_N (byte c + 32) else c.

Fixpoint lowerASCII (s : string) : string :=
  match s with
  | EmptyString => EmptyString
  | String c r => String (lowerByte c) (lowerASCII r)
  end.

(** *** package regexp, for a pattern given as a syntax tree.

    Matching is by derivatives, byte by byte.  A pattern whose classes hold
    ASCII bytes only and which is anchored at both ends matches a string
    of runes exactly when it matches its bytes. *)
Inductive regex : Type :=
| Void
| Eps
| Class (p : ascii -> bool)
| Cat (r1 r2 : regex)
| Alt (r1 r2 : regex)
| Star (r : regex).

Definition Plus (r : regex) : regex := Cat r (Star r).

Fixpoint nullable (r : regex) : bool :=
  match r with
  | Void => false
  | Eps => true
  | Class _ => false
  | Cat r1 r2 => nullable r1 && nullable r2
  | Alt r1 r2 => nullable r1 || nullable r2
  | Star _ => true
  end.

Fixpoint deriv (c : ascii) (r : regex) : regex :=
  match r with
  | Void => Void
  | Eps => Void
  | Class p => if p c then Eps else Void
  | Cat r1 r2 =>
      if nullable r1 then Alt (Cat (deriv c r1) r2) (deriv c r2)
      else Cat (deriv c r1) r2
  | Alt r1 r2 => Alt (deriv c r1) (deriv c r2)
  | Star r1 => Cat (deriv c r1) (Star r1)
  end.

(** [Regexp.MatchString] for a pattern of the shape [^r$]. *)
Fixpoint MatchString (r : regex) (s : string) : bool :=
  match s with
  | EmptyString => nullable r
  | String c rest => MatchString (deriv c r) rest
  end.

(** *** package strconv *)

Definition isDigit (c : ascii) : bool := inRange 48 57 c.

Definition digitVal (c : ascii) : Z := Z.of_N (byte c) - 48.

(** The value of a string of decimal digits; [None] when the string is
    empty or holds another byte. *)
Fixpoint digits (s : string) (acc : Z) : option Z :=
  match s with
  | EmptyString => Some acc
  | String c r => if isDigit c then digits r (acc * 10 + digitVal c)%Z else None
  end.

Definition unsignedDecimal (s : string) : option Z :=
  match s with
  | EmptyString => None
  | _ => digits s 0%Z
  end.

Definition maxInt : Z := 9223372036854775807.
Definition minInt : Z := -9223372036854775808.

Inductive atoiResult :=
| AtoiOk (n : Z)
| AtoiSyntax
| AtoiRange.

(** [strconv.Atoi]: an optional sign and decimal digits, in the range of
    [int]. *)
Definition Atoi (s : string) : atoiResult :=
  let '(neg, body) :=
    match s with
    | String "-" r => (true, r)
    | String "+" r => (false, r)
    | _ => (false, s)
    end in
  match unsignedDecimal body with
  | None => AtoiSyntax
  | Some n =>
      let v := (if neg then - n else n)%Z in
      if ((minInt <=? v) && (v <=? maxInt))%Z then AtoiOk v else AtoiRange
  end.

(** *** float64 *)

Definition float64 : Type := spec_float.

Definition prec : Z := 53.
Definition emax : Z := 1024.

(** [float64(n)] for an integer [n]: the nearest float, ties to even. *)
Definition float64_of_int (n : Z) : float64 :=
  match n with
  | Z0 => S754_zero false
  | Zpos p => binary_normalize prec emax (Zpos p) 0 false
  | Zneg p => binary_normalize prec emax (Zneg p) 0 false
  end.

(** [a < b] on float64: false when either side is NaN. *)
Definition float64_lt (a b : float64) : bool := SFltb a b.

(** The integer part of a finite float. *)
Definition truncate (f : float64) : option Z :=
  match f with
  | S754_zero _ => Some 0%Z
  | S754_finite s m e =>
      let a := (if (0 <=? e)%Z then Zpos m * 2 ^ e
                else Zpos m / 2 ^ (- e))%Z in
      Some (if s then - a else a)%Z
  | S754_infinity _ | S754_nan => None
  end.

End golib.

(** ** package types *)

Module types.

Import golib.

(** [type FieldType string] and its constants. *)
Definition FieldType : Type := string.

Definition FieldTypeText : FieldType := "text".
Definition FieldTypeEmail : FieldType := "email".
Definition FieldTypePassword : FieldType := "password".
Definition FieldTypeNumber : FieldType := "number".
Definition FieldTypeTextarea : FieldType := "textarea".
Definition FieldTypeSelect : FieldType := "select".
Definition FieldTypeRadio : FieldType := "radio".
Definition FieldTypeCheckbox : FieldType := "checkbox".
Definition FieldTypeDate : FieldType := "date".
Definition FieldTypeTime : FieldType := "time".
Definition FieldTypeFile : FieldType := "file".
Definition FieldTypeHidden : FieldType := "hidden".
Definition FieldTypeTable : FieldType := "table".

Record SelectOption : Type := mkSelectOption {
  Value : string;
  Label : string;
  Disabled : bool
}.

Record TableColumn : Type := mkTableColumn {
  Key : string;
  ColTitle : string;
  ColType : FieldType;
  ColSortable : bool;
  ColFilterable : bool;
  Width : string;
  Align : string;
  ColOptions : list SelectOption;
  ColMultiple : bool
}.

(** The dynamic values of type [interface{}].  A [float32] is held as the
    float64 it converts to.  [VOther] stands for a value of any dynamic
    type the code has no case for; it carries the name of that type. *)
Inductive value : Type :=
| VNil
| VString (s : string)
| VFloat64 (f : float64)
| VFloat32 (f : float64)
| VInt (n : Z)
| VInt32 (n : Z)
| VInt64 (n : Z)
| VBool (b : bool)
| VList (l : list value)                  (* []interface{} *)
| VMap (m : gmap string value)            (* map[string]interface{} *)
| VStrings (l : list string)              (* []string *)
| VMaps (l : list (gmap string value))    (* []map[string]interface{} *)
| VColumns (l : list TableColumn)         (* []types.TableColumn *)
| VStringMap (m : gmap string string)     (* map[string]string *)
| VOther (dynamicType : string).

(** Error values.  [fmt.Errorf] keeps its format and its operands; an
    operand is a value or an error. *)
Inductive error : Type :=
| errors_New (text : string)
| fmt_Errorf (format : string) (args : list (value + error))
| NumError (func num : string) (err : error)
| ErrSyntax
| ErrRange
| regexp_Error (code expr : string).

Record ValidationRule : Type := mkValidationRule {
  Type_ : string;
  RuleValue : value;
  Message : string
}.

(** A func value is carried as a reference; none of the modelled code
    calls one. *)
Definition FuncRef : Type := string.

Record TableConfig : Type := mkTableConfig {
  Columns : list TableColumn;
  Pagination : bool;
  PageSize : Z;
  Sortable : bool;
  Filterable : bool;
  Selectable : bool;
  Editable : bool;
  TableOnGet : option FuncRef
}.

Record Field : Type := mkField {
  Name : string;
  FType : FieldType;
  FLabel : string;
  Required : bool;
  Placeholder : string;
  DefaultValue : value;
  Options : list SelectOption;
  Multiple : bool;
  Validation : list ValidationRule;
  Group : string;
  Description : string;
  FDisabled : bool;
  Config : gmap string value;
  FTableConfig : option TableConfig
}.

Record FieldGroup : Type := mkFieldGroup {
  GroupName : string;
  GroupTitle : string;
  GroupDescription : string;
  GroupFields : list string
}.

Record Form : Type := mkForm {
  FormName : string;
  FormTitle : string;
  FormDescription : string;
  Fields : list Field;
  Groups : list FieldGroup;
  OnPost : option FuncRef;
  OnGet : option FuncRef
}.

Record Page : Type := mkPage {
  PageName : string;
  PageTitle : string;
  Content : string;
  Handler : option FuncRef
}.

(** The zero value of [Field], as a composite literal leaves the members
    it does not name. *)
Definition zeroField : Field :=
  {| Name := ""; FType := ""; FLabel := ""; Required := false;
     Placeholder := ""; DefaultValue := VNil; Options := [];
     Multiple := false; Validation := []; Group := ""; Description := "";
     FDisabled := false; Config := ∅; FTableConfig := None |}.

End types.

(** ** What the Go runtime decides *)

Class GoRuntime : Type := {
  (** [strconv.ParseFloat(s, 64)] *)
  ParseFloat : string -> golib.float64 + types.error;
  (** [regexp.Compile(p)]: the compiled pattern is its [MatchString]. *)
  regexp_Compile : string -> (string -> bool) + types.error;
  (** [strings.Map(unicode.ToLower, s)], which [strings.ToLower] runs on a
      string that holds a byte outside ASCII. *)
  ToLowerUnicode : string -> string;
  (** [int(f)] for a float64 whose integer part is not an [int], which the
      language leaves to the implementation. *)
  intOfUnrepresentable : golib.float64 -> Z
}.

Module gostd.

Import golib types.

Section WithRuntime.
Context {rt : GoRuntime}.

(** [strings.ToLower]. *)
Definition ToLower (s : string) : string :=
  if isASCII s then lowerASCII s else ToLowerUnicode s.

(** [int(f)] for a float64: the fraction is discarded. *)
Definition int_of_float64 (f : float64) : Z :=
  match truncate f with
  | Some n => if ((minInt <=? n) && (n <=? maxInt))%Z then n
              else intOfUnrepresentable f
  | None => intOfUnrepresentable f
  end.

End WithRuntime.

(** [strconv.Atoi] with its error value. *)
Definition strconv_Atoi (s : string) : Z + error :=
  match Atoi s with
  | AtoiOk n => inl n
  | AtoiSyntax => inr (NumError "Atoi" s ErrSyntax)
  | AtoiRange => inr (NumError "Atoi" s ErrRange)
  end.

End gostd.

(** Early return on an error, as [if err != nil { return err }]. *)
Notation "'try' x ':=' e 'in' k" :=
  (match e with
   | inl x => k
   | inr err => Some err
   end)
  (at level 10, x name, e at level 100, k at level 200, only parsing).

(** ** package reflect, as far as [FromStruct] looks *)

Module reflect.

Inductive Kind : Type :=
| Invalid | Bool
| Int | Int8 | Int16 | Int32 | Int64
| Uint | Uint8 | Uint16 | Uint32 | Uint64 | Uintptr
| Float32 | Float64 | Complex64 | Complex128
| Array | Chan | Func | Interface | Map | Pointer | Slice
| String | Struct | UnsafePointer.

(** A struct tag, as the sequence of its [key:"value"] pairs. *)
Definition StructTag : Type := list (string * string).

(** [StructTag.Get]: the value of the first pair with that key, the empty
    string when there is none. *)
Fixpoint Get (tag : StructTag) (key : string) : string :=
  match tag with
  | [] => ""
  | (k, v) :: rest => if String.eqb k key then v else Get rest key
  end.

Record StructField : Type := mkStructField {
  Name : string;
  PkgPath : string;
  (** [field.Type.Kind()] *)
  TypeKind : Kind;
  Tag : StructTag
}.

(** [StructField.IsExported]. *)
Definition IsExported (f : StructField) : bool := String.eqb (PkgPath f) "".

Inductive rtype : Type :=
| StructOf (fields : list StructField)
| PointerTo (elem : rtype)
| OfKind (k : Kind).

Definition kindOf (t : rtype) : Kind :=
  match t with
  | StructOf _ => Struct
  | PointerTo _ => Pointer
  | OfKind k => k
  end.

End reflect.

(** ** package form *)

Module form.

Import golib types gostd.

Record FormBuilder : Type := mkFormBuilder { form : Form }.

Definition NewForm (name title : string) : FormBuilder :=
  {| form := {| FormName := name; FormTitle := title; FormDescription := "";
                Fields := []; Groups := []; OnPost := None; OnGet := None |} |}.

Definition AddField (fb : FormBuilder) (field : Field) : FormBuilder :=
  let f := form fb in
  {| form := {| FormName := FormName f; FormTitle := FormTitle f;
                FormDescription := FormDescription f;
                Fields := Fields f ++ [field]; Groups := Groups f;
                OnPost := OnPost f; OnGet := OnGet f |} |}.

(** [emailRegex], the pattern
    [^[a-zA-Z0-9._%+-]+@[a-zA-Z0-9.-]+\.[a-zA-Z]{2,}$] of [validateEmail]. *)
Definition isAlpha (c : ascii) : bool := inRange 97 122 c || inRange 65 90 c.
Definition isAlnum (c : ascii) : bool := isAlpha c || inRange 48 57 c.
Definition isLocalChar (c : ascii) : bool :=
  isAlnum c || isByte 46 c || isByte 95 c || isByte 37 c || isByte 43 c || isByte 45 c.
Definition isDomainChar (c : ascii) : bool :=
  isAlnum c || isByte 46 c || isByte 45 c.

Definition emailRegex : regex :=
  Cat (Plus (Class isLocalChar))
    (Cat (Class (isByte 64))
       (Cat (Plus (Class isDomainChar))
          (Cat (Class (isByte 46))
             (Cat (Class isAlpha) (Cat (Class isAlpha) (Star (Class isAlpha))))))).

(** [isEmpty]. *)
Definition isEmpty (value : value) : bool :=
  match value with
  | VNil => true
  | VString v => String.eqb (TrimSpace v) ""
  | VList v => Nat.eqb (length v) 0
  | _ => false
  end.

Section WithRuntime.
Context {rt : GoRuntime}.

(** [getFieldName]. *)
Definition getFieldName (field : reflect.StructField) : string :=
  let name := reflect.Get (reflect.Tag field) "form" in
  if negb (String.eqb name "") then name
  else ToLower (reflect.Name field).

(** [getFieldLabel]. *)
Definition getFieldLabel (field : reflect.StructField) : string :=
  let label := reflect.Get (reflect.Tag field) "label" in
  if negb (String.eqb label "") then label
  else reflect.Name field.

Definition typeOfTag (fieldType : string) : option FieldType :=
  if String.eqb fieldType "email" then Some FieldTypeEmail
  else if String.eqb fieldType "password" then Some FieldTypePassword
  else if String.eqb fieldType "textarea" then Some FieldTypeTextarea
  else if String.eqb fieldType "select" then Some FieldTypeSelect
  else if String.eqb fieldType "radio" then Some FieldTypeRadio
  else if String.eqb fieldType "checkbox" then Some FieldTypeCheckbox
  else if String.eqb fieldType "date" then Some FieldTypeDate
  else if String.eqb fieldType "time" then Some FieldTypeTime
  else if String.eqb fieldType "file" then Some FieldTypeFile
  else if String.eqb fieldType "hidden" then Some FieldTypeHidden
  else if String.eqb fieldType "number" then Some FieldTypeNumber
  else None.

Definition typeOfKind (field : reflect.StructField) : FieldType :=
  match reflect.TypeKind field with
  | reflect.Bool => FieldTypeCheckbox
  | reflect.Int | reflect.Int8 | reflect.Int16 | reflect.Int32 | reflect.Int64
  | reflect.Uint | reflect.Uint8 | reflect.Uint16 | reflect.Uint32 | reflect.Uint64
  | reflect.Float32 | reflect.Float64 => FieldTypeNumber
  | reflect.String =>
      let fieldName := ToLower (reflect.Name field) in
      if Contains fieldName "email" then FieldTypeEmail
      else if Contains fieldName "password" then FieldTypePassword
      else FieldTypeText
  | _ => FieldTypeText
  end.

(** [getFieldType]: the [type] tag through its table, else the Go type
    of the member. *)
Definition getFieldType (field : reflect.StructField) : FieldType :=
  match typeOfTag (reflect.Get (reflect.Tag field) "type") with
  | Some t => t
  | None => typeOfKind field
  end.

(** [getFieldRequired]. *)
Definition getFieldRequired (field : reflect.StructField) : bool :=
  let required := reflect.Get (reflect.Tag field) "required" in
  String.eqb required "true" || String.eqb required "1".

(** [createFieldFromStructField]. *)
Definition createFieldFromStructField (field : reflect.StructField) : Field :=
  let formField :=
    {| Name := getFieldName field; FType := getFieldType field;
       FLabel := getFieldLabel field; Required := getFieldRequired field;
       Placeholder := ""; DefaultValue := VNil; Options := [];
       Multiple := false; Validation := []; Group := ""; Description := "";
       FDisabled := false; Config := ∅; FTableConfig := None |} in
  if String.eqb (FType formField) FieldTypeEmail then
    {| Name := Name formField; FType := FType formField;
       FLabel := FLabel formField; Required := Required formField;
       Placeholder := Placeholder formField;
       DefaultValue := DefaultValue formField; Options := Options formField;
       Multiple := Multiple formField;
       Validation := Validation formField ++
         [ {| Type_ := "email"; RuleValue := VNil;
              Message := "Введите корректный email" |} ];
       Group := Group formField; Description := Description formField;
       FDisabled := FDisabled formField; Config := Config formField;
       FTableConfig := FTableConfig formField |}
  else formField.

(** The loop of [FromStruct] over the members of the struct. *)
Fixpoint addStructFields (fb : FormBuilder) (fields : list reflect.StructField)
  : FormBuilder :=
  match fields with
  | [] => fb
  | field :: rest =>
      if negb (reflect.IsExported field) then addStructFields fb rest
      else
        let formField := createFieldFromStructField field in
        if negb (String.eqb (Name formField) "")
        then addStructFields (AddField fb formField) rest
        else addStructFields fb rest
  end.

(** [FromStruct], on [reflect.TypeOf(structType)]. *)
Definition FromStruct (name title : string) (structType : reflect.rtype)
  : FormBuilder :=
  let fb := NewForm name title in
  let t := match structType with
           | reflect.PointerTo elem => elem
           | _ => structType
           end in
  match t with
  | reflect.StructOf fields => addStructFields fb fields
  | _ => fb
  end.

(** [toFloat64]. *)
Definition toFloat64 (value : value) : float64 + error :=
  match value with
  | VFloat64 v => inl v
  | VFloat32 v => inl v
  | VInt v => inl (float64_of_int v)
  | VInt32 v => inl (float64_of_int v)
  | VInt64 v => inl (float64_of_int v)
  | VString v => ParseFloat v
  | _ => inr (fmt_Errorf "не удается конвертировать %T в число" [inl value])
  end.

(** [toInt]. *)
Definition toInt (value : value) : Z + error :=
  match value with
  | VInt v => inl v
  | VInt32 v => inl v
  | VInt64 v => inl v
  | VFloat64 v => inl (int_of_float64 v)
  | VFloat32 v => inl (int_of_float64 v)
  | VString v => strconv_Atoi v
  | _ => inr (fmt_Errorf "не удается конвертировать %T в целое число" [inl value])
  end.

(** [validateEmail]. *)
Definition validateEmail (value : value) (message : string) : option error :=
  match value with
  | VString str =>
      if negb (MatchString emailRegex str) then
        if negb (String.eqb message "") then Some (errors_New message)
        else Some (errors_New "некорректный email адрес")
      else None
  | _ => Some (errors_New "значение должно быть строкой")
  end.

(** [validateMin]. *)
Definition validateMin (value minValue : value) (message : string) : option error :=
  try num := toFloat64 value in
  try min := toFloat64 minValue in
  if float64_lt num min then
    if negb (String.eqb message "") then Some (errors_New message)
    else Some (fmt_Errorf "значение должно быть не менее %v" [inl (VFloat64 min)])
  else None.

(** [validateMax]. *)
Definition validateMax (value maxValue : value) (message : string) : option error :=
  try num := toFloat64 value in
  try max := toFloat64 maxValue in
  if float64_lt max num then
    if negb (String.eqb message "") then Some (errors_New message)
    else Some (fmt_Errorf "значение должно быть не более %v" [inl (VFloat64 max)])
  else None.

(** [validateMinLength]. *)
Definition validateMinLength (value minLength : value) (message : string)
  : option error :=
  match value with
  | VString str =>
      try min := toInt minLength in
      if (Z.of_nat (String.length str) <? min)%Z then
        if negb (String.eqb message "") then Some (errors_New message)
        else Some (fmt_Errorf "длина должна быть не менее %d символов" [inl (VInt min)])
      else None
  | _ => Some (errors_New "значение должно быть строкой")
  end.

(** [validateMaxLength]. *)
Definition validateMaxLength (value maxLength : value) (message : string)
  : option error :=
  match value with
  | VString str =>
      try max := toInt maxLength in
      if (max <? Z.of_nat (String.length str))%Z then
        if negb (String.eqb message "") then Some (errors_New message)
        else Some (fmt_Errorf "длина должна быть не более %d символов" [inl (VInt max)])
      else None
  | _ => Some (errors_New "значение должно быть строкой")
  end.

(** [validatePattern]. *)
Definition validatePattern (value pattern : value) (message : string)
  : option error :=
  match value with
  | VString str =>
      match pattern with
      | VString patternStr =>
          match regexp_Compile patternStr with
          | inr err =>
              Some (fmt_Errorf "некорректное регулярное выражение: %v" [inr err])
          | inl regex =>
              if negb (regex str) then
                if negb (String.eqb message "") then Some (errors_New message)
                else Some (errors_New "значение не соответствует требуемому формату")
              else None
          end
      | _ => Some (errors_New "паттерн должен быть строкой")
      end
  | _ => Some (errors_New "значение должно быть строкой")
  end.

(** [validateRule]. *)
Definition validateRule (value : value) (rule : ValidationRule) : option error :=
  if String.eqb (Type_ rule) "email" then
    validateEmail value (Message rule)
  else if String.eqb (Type_ rule) "min" then
    validateMin value (RuleValue rule) (Message rule)
  else if String.eqb (Type_ rule) "max" then
    validateMax value (RuleValue rule) (Message rule)
  else if String.eqb (Type_ rule) "minLength" then
    validateMinLength value (RuleValue rule) (Message rule)
  else if String.eqb (Type_ rule) "maxLength" then
    validateMaxLength value (RuleValue rule) (Message rule)
  else if String.eqb (Type_ rule) "pattern" then
    validatePattern value (RuleValue rule) (Message rule)
  else None.

(** The loop of [ValidateField] over [field.Validation]. *)
Fixpoint applyRules (value : value) (rules : list ValidationRule) : option error :=
  match rules with
  | [] => None
  | rule :: rest =>
      match validateRule value rule with
      | Some err => Some err
      | None => applyRules value rest
      end
  end.

(** [ValidateField]. *)
Definition ValidateField (field : Field) (value : value) : option error :=
  if Required field && isEmpty value then
    Some (errors_New "поле обязательно для заполнения")
  else if isEmpty value then None
  else applyRules value (Validation field).

End WithRuntime.

End form.

(** ** package schema *)

Module schema.

Import golib types gostd.

Record JSONSchema : Type := mkJSONSchema {
  Schema : string;
  SType : string;
  Title : string;
  SDescription : string;
  Properties : gmap string value;
  SRequired : list string;
  Definitions : gmap string value
}.

(** [schema.Properties[name] = fieldSchema]. *)
Definition setProperty (schema : JSONSchema) (name : string) (fieldSchema : value)
  : JSONSchema :=
  {| Schema := Schema schema; SType := SType schema; Title := Title schema;
     SDescription := SDescription schema;
     Properties := <[name := fieldSchema]> (Properties schema);
     SRequired := SRequired schema; Definitions := Definitions schema |}.

(** [schema.Required = append(schema.Required, name)]. *)
Definition appendRequired (schema : JSONSchema) (name : string) : JSONSchema :=
  {| Schema := Schema schema; SType := SType schema; Title := Title schema;
     SDescription := SDescription schema; Properties := Properties schema;
     SRequired := SRequired schema ++ [name];
     Definitions := Definitions schema |}.

(** [getOptionValues]. *)
Definition getOptionValues (options : list SelectOption) : list string :=
  map Value options.

(** [convertOptionsToEnumOptions]. *)
Definition convertOptionsToEnumOptions (options : list SelectOption)
  : list (gmap string value) :=
  map (fun option =>
         <["label" := VString (Label option)]>
           (<["value" := VString (Value option)]> ∅)) options.

Definition typeOnly (t : string) : value :=
  VMap (<["type" := VString t]> ∅).

(** [generateTableColumnSchema]. *)
Definition generateTableColumnSchema : gmap string value :=
  <["properties" := VMap (
      <["align" := typeOnly "string"]> (
      <["width" := typeOnly "string"]> (
      <["filterable" := typeOnly "boolean"]> (
      <["sortable" := typeOnly "boolean"]> (
      <["type" := typeOnly "string"]> (
      <["title" := typeOnly "string"]> (
      <["key" := typeOnly "string"]> ∅)))))))]> (
  <["type" := VString "object"]> ∅).

(** [generateTableSchema]. *)
Definition generateTableSchema (config : TableConfig) : gmap string value :=
  <["properties" := VMap (
      <["limit" := typeOnly "integer"]> (
      <["page" := typeOnly "integer"]> (
      <["total" := typeOnly "integer"]> (
      <["rows" := VMap (<["items" := typeOnly "object"]>
                         (<["type" := VString "array"]> ∅))]> (
      <["columns" := VMap (<["items" := VMap generateTableColumnSchema]>
                            (<["type" := VString "array"]> ∅))]> ∅)))))]> (
  <["title" := VString "Таблица"]> (
  <["type" := VString "object"]> ∅)).

(** [generateTableUIOptions]. *)
Definition generateTableUIOptions (config : TableConfig) : gmap string value :=
  <["columns" := VColumns (Columns config)]> (
  <["editable" := VBool (Editable config)]> (
  <["selectable" := VBool (Selectable config)]> (
  <["filterable" := VBool (Filterable config)]> (
  <["sortable" := VBool (Sortable config)]> (
  <["pageSize" := VInt (PageSize config)]> (
  <["pagination" := VBool (Pagination config)]> ∅)))))).

Section WithRuntime.
Context {rt : GoRuntime}.

(** The [switch field.Type] of [generateFieldSchema], from the map that
    holds the title and the description. *)
Definition typeSchema (field : Field) : gmap string value :=
  let fieldSchema : gmap string value :=
    <["description" := VString (Description field)]>
      (<["title" := VString (FLabel field)]> ∅) in
  let t := FType field in
  if String.eqb t FieldTypeText then
    let fieldSchema := <["type" := VString "string"]> fieldSchema in
    if negb (String.eqb (Placeholder field) "")
    then <["examples" := VStrings [Placeholder field]]> fieldSchema
    else fieldSchema
  else if String.eqb t FieldTypeEmail then
    <["format" := VString "email"]> (<["type" := VString "string"]> fieldSchema)
  else if String.eqb t FieldTypePassword then
    <["format" := VString "password"]> (<["type" := VString "string"]> fieldSchema)
  else if String.eqb t FieldTypeNumber then
    <["type" := VString "number"]> fieldSchema
  else if String.eqb t FieldTypeTextarea then
    <["type" := VString "string"]> fieldSchema
  else if String.eqb t FieldTypeDate then
    <["format" := VString "date"]> (<["type" := VString "string"]> fieldSchema)
  else if String.eqb t FieldTypeTime then
    <["format" := VString "time"]> (<["type" := VString "string"]> fieldSchema)
  else if String.eqb t FieldTypeFile then
    <["format" := VString "data-url"]> (<["type" := VString "string"]> fieldSchema)
  else if String.eqb t FieldTypeCheckbox then
    <["type" := VString "boolean"]> fieldSchema
  else if String.eqb t FieldTypeRadio || String.eqb t FieldTypeSelect then
    if Multiple field then
      <["uniqueItems" := VBool true]> (
      <["items" := VMap (<["enum" := VStrings (getOptionValues (Options field))]>
                          (<["type" := VString "string"]> ∅))]> (
      <["type" := VString "array"]> fieldSchema))
    else
      <["enum" := VStrings (getOptionValues (Options field))]>
        (<["type" := VString "string"]> fieldSchema)
  else if String.eqb t FieldTypeTable then
    match FTableConfig field with
    | Some config => generateTableSchema config
    | None => <["type" := VString "object"]> fieldSchema
    end
  else <["type" := VString "string"]> fieldSchema.

(** One turn of the loop over [field.Validation] in
    [generateFieldSchema]. *)
Definition projectRule (fieldSchema : gmap string value) (rule : ValidationRule)
  : gmap string value :=
  if String.eqb (Type_ rule) "min" then
    match RuleValue rule with
    | VFloat64 num => <["minimum" := VFloat64 num]> fieldSchema
    | _ => fieldSchema
    end
  else if String.eqb (Type_ rule) "max" then
    match RuleValue rule with
    | VFloat64 num => <["maximum" := VFloat64 num]> fieldSchema
    | _ => fieldSchema
    end
  else if String.eqb (Type_ rule) "minLength" then
    match RuleValue rule with
    | VFloat64 num => <["minLength" := VInt (int_of_float64 num)]> fieldSchema
    | _ => fieldSchema
    end
  else if String.eqb (Type_ rule) "maxLength" then
    match RuleValue rule with
    | VFloat64 num => <["maxLength" := VInt (int_of_float64 num)]> fieldSchema
    | _ => fieldSchema
    end
  else if String.eqb (Type_ rule) "pattern" then
    match RuleValue rule with
    | VString pattern => <["pattern" := VString pattern]> fieldSchema
    | _ => fieldSchema
    end
  else fieldSchema.

(** [generateFieldSchema]. *)
Definition generateFieldSchema (field : Field) : gmap string value + error :=
  let fieldSchema := typeSchema field in
  let fieldSchema :=
    match DefaultValue field with
    | VNil => fieldSchema
    | v => <["default" := v]> fieldSchema
    end in
  let fieldSchema := fold_left projectRule (Validation field) fieldSchema in
  inl fieldSchema.

(** The loop of [GenerateJSONSchema] over [form.Fields]. *)
Fixpoint schemaFields (fields : list Field) (schema : JSONSchema)
  : JSONSchema + error :=
  match fields with
  | [] => inl schema
  | field :: rest =>
      if String.eqb (FType field) FieldTypeHidden then schemaFields rest schema
      else
        match generateFieldSchema field with
        | inr err =>
            inr (fmt_Errorf "ошибка генерации схемы для поля %s: %w"
                   [inl (VString (Name field)); inr err])
        | inl fieldSchema =>
            let schema := setProperty schema (Name field) (VMap fieldSchema) in
            let schema :=
              if Required field then appendRequired schema (Name field)
              else schema in
            schemaFields rest schema
        end
  end.

(** [GenerateJSONSchema]. *)
Definition GenerateJSONSchema (form : Form) : JSONSchema + error :=
  schemaFields (Fields form)
    {| Schema := "https://json-schema.org/draft/2020-12/schema";
       SType := "object";
       Title := FormTitle form;
       SDescription := FormDescription form;
       Properties := ∅;
       SRequired := [];
       Definitions := ∅ |}.

End WithRuntime.

(** The [switch field.Type] of [generateFieldUISchema]: the widget and the
    options the projector derives. *)
Definition widgetHints (field : Field) : gmap string value :=
  let uiSchema : gmap string value := ∅ in
  let t := FType field in
  if String.eqb t FieldTypePassword then
    <["ui:widget" := VString "password"]> uiSchema
  else if String.eqb t FieldTypeTextarea then
    <["ui:options" := VMap (<["rows" := VInt 4]> ∅)]>
      (<["ui:widget" := VString "textarea"]> uiSchema)
  else if String.eqb t FieldTypeFile then
    <["ui:widget" := VString "file"]> uiSchema
  else if String.eqb t FieldTypeCheckbox then
    <["ui:widget" := VString "checkbox"]> uiSchema
  else if String.eqb t FieldTypeRadio then
    let uiSchema := <["ui:widget" := VString "radio"]> uiSchema in
    if (0 <? length (Options field))%nat then
      <["ui:options" := VMap (<["enumOptions" :=
           VMaps (convertOptionsToEnumOptions (Options field))]> ∅)]> uiSchema
    else uiSchema
  else if String.eqb t FieldTypeSelect then
    let uiSchema :=
      if Multiple field then <["ui:widget" := VString "checkboxes"]> uiSchema
      else <["ui:widget" := VString "select"]> uiSchema in
    if (0 <? length (Options field))%nat then
      <["ui:options" := VMap (<["enumOptions" :=
           VMaps (convertOptionsToEnumOptions (Options field))]> ∅)]> uiSchema
    else uiSchema
  else if String.eqb t FieldTypeTable then
    let uiSchema := <["ui:widget" := VString "table"]> uiSchema in
    match FTableConfig field with
    | Some config => <["ui:options" := VMap (generateTableUIOptions config)]> uiSchema
    | None => uiSchema
    end
  else if String.eqb t FieldTypeHidden then
    <["ui:widget" := VString "hidden"]> uiSchema
  else uiSchema.

(** The placeholder, disabled and group hints of [generateFieldUISchema]. *)
Definition fieldHints (field : Field) (uiSchema : gmap string value)
  : gmap string value :=
  let uiSchema :=
    if negb (String.eqb (Placeholder field) "")
    then <["ui:placeholder" := VString (Placeholder field)]> uiSchema
    else uiSchema in
  let uiSchema :=
    if FDisabled field then <["ui:disabled" := VBool true]> uiSchema
    else uiSchema in
  if negb (String.eqb (Group field) "")
  then <["ui:group" := VString (Group field)]> uiSchema
  else uiSchema.

(** [for key, value := range field.Config { optionsMap[key] = value }]. *)
Definition assignAll (config optionsMap : gmap string value) : gmap string value :=
  map_fold (fun key value optionsMap => <[key := value]> optionsMap)
    optionsMap config.

(** The last block of [generateFieldUISchema]: the settings of
    [field.Config]. *)
Definition mergeConfig (field : Field) (uiSchema : gmap string value)
  : gmap string value :=
  if (0 <? size (Config field))%nat then
    match uiSchema !! "ui:options" with
    | Some uiOptions =>
        match uiOptions with
        | VMap optionsMap =>
            <["ui:options" := VMap (assignAll (Config field) optionsMap)]> uiSchema
        | _ => uiSchema
        end
    | None => <["ui:options" := VMap (Config field)]> uiSchema
    end
  else uiSchema.

(** [generateFieldUISchema]. *)
Definition generateFieldUISchema (field : Field) : gmap string value :=
  mergeConfig field (fieldHints field (widgetHints field)).

(** The first loop of [GenerateUISchema]: the order of the fields. *)
Fixpoint fieldOrder (fields : list Field) (order : list string) : list string :=
  match fields with
  | [] => order
  | field :: rest =>
      if negb (String.eqb (FType field) FieldTypeHidden)
      then fieldOrder rest (order ++ [Name field])
      else fieldOrder rest order
  end.

(** The second loop: the hints of each field. *)
Fixpoint fieldsUI (fields : list Field) (uiSchema : gmap string value)
  : gmap string value :=
  match fields with
  | [] => uiSchema
  | field :: rest =>
      let fieldUI := generateFieldUISchema field in
      if (0 <? size fieldUI)%nat
      then fieldsUI rest (<[Name field := VMap fieldUI]> uiSchema)
      else fieldsUI rest uiSchema
  end.

Definition groupUI (group : FieldGroup) : gmap string value :=
  <["ui:fields" := VStrings (GroupFields group)]> (
  <["ui:description" := VString (GroupDescription group)]> (
  <["ui:title" := VString (GroupTitle group)]> ∅)).

(** [GenerateUISchema]. *)
Definition GenerateUISchema (form : Form) : gmap string value :=
  let uiSchema : gmap string value := ∅ in
  let order := fieldOrder (Fields form) [] in
  let uiSchema := <["ui:order" := VStrings order]> uiSchema in
  let uiSchema := fieldsUI (Fields form) uiSchema in
  if (0 <? length (Groups form))%nat
  then <["ui:groups" := VMaps (map groupUI (Groups form))]> uiSchema
  else uiSchema.

End schema.

(** ** package router *)

Module router.

Import golib types gostd.

Record Router : Type := mkRouter {
  forms : gmap string Form;
  pages : gmap string Page;
  title : string;
  authEnabled : bool;
  corsEnabled : bool;
  corsOrigins : list string;
  middlewares : list FuncRef;
  storageHandlers : option (gmap string FuncRef)
}.

(** [NewRouter], without the mux. *)
Definition NewRouter : Router :=
  {| forms := ∅; pages := ∅; title := "Admin Panel"; authEnabled := false;
     corsEnabled := false; corsOrigins := ["*"]; middlewares := [];
     storageHandlers := None |}.

(** [RegisterForm]: [r.forms[form.Name] = form]. *)
Definition RegisterForm (r : Router) (form : Form) : Router :=
  {| forms := <[FormName form := form]> (forms r); pages := pages r;
     title := title r; authEnabled := authEnabled r;
     corsEnabled := corsEnabled r; corsOrigins := corsOrigins r;
     middlewares := middlewares r; storageHandlers := storageHandlers r |}.

(** [RegisterPage]: [r.pages[page.Name] = page]. *)
Definition RegisterPage (r : Router) (page : Page) : Router :=
  {| forms := forms r; pages := <[PageName page := page]> (pages r);
     title := title r; authEnabled := authEnabled r;
     corsEnabled := corsEnabled r; corsOrigins := corsOrigins r;
     middlewares := middlewares r; storageHandlers := storageHandlers r |}.

Record APIResponse : Type := mkAPIResponse {
  Success : bool;
  Data : value;
  Error : string;
  RMessage : string
}.

(** The map that [handleFormsList] builds from [r.forms]. *)
Definition formsMap (r : Router) : gmap string string :=
  map_fold (fun name form formsMap => <[name := FormTitle form]> formsMap)
    ∅ (forms r).

(** [handleFormsList]: the response it sends. *)
Definition handleFormsList (r : Router) : APIResponse :=
  {| Success := true; Data := VStringMap (formsMap r); Error := "";
     RMessage := "" |}.

(** [isEmpty]. *)
Definition isEmpty (value : value) : bool :=
  match value with
  | VNil => true
  | VString v => String.eqb (TrimSpace v) ""
  | VList v => Nat.eqb (length v) 0
  | _ => false
  end.

Section WithRuntime.
Context {rt : GoRuntime}.

(** [toFloat64]. *)
Definition toFloat64 (value : value) : float64 + error :=
  match value with
  | VFloat64 v => inl v
  | VFloat32 v => inl v
  | VInt v => inl (float64_of_int v)
  | VInt32 v => inl (float64_of_int v)
  | VInt64 v => inl (float64_of_int v)
  | VString v => ParseFloat v
  | _ => inr (fmt_Errorf "не удается конвертировать %T в число" [inl value])
  end.

(** [toInt]. *)
Definition toInt (value : value) : Z + error :=
  match value with
  | VInt v => inl v
  | VInt32 v => inl v
  | VInt64 v => inl v
  | VFloat64 v => inl (int_of_float64 v)
  | VFloat32 v => inl (int_of_float64 v)
  | VString v => strconv_Atoi v
  | _ => inr (fmt_Errorf "не удается конвертировать %T в целое число" [inl value])
  end.

(** [validateEmail]. *)
Definition validateEmail (value : value) (message : string) : option error :=
  match value with
  | VString str =>
      if negb (Contains str "@") || negb (Contains str ".") then
        if negb (String.eqb message "")
        then Some (fmt_Errorf "%s" [inl (VString message)])
        else Some (fmt_Errorf "некорректный email адрес" [])
      else None
  | _ => Some (fmt_Errorf "значение должно быть строкой" [])
  end.

(** [validateMin]. *)
Definition validateMin (value minValue : value) (message : string) : option error :=
  try num := toFloat64 value in
  try min := toFloat64 minValue in
  if float64_lt num min then
    if negb (String.eqb message "")
    then Some (fmt_Errorf "%s" [inl (VString message)])
    else Some (fmt_Errorf "значение должно быть не менее %v" [inl (VFloat64 min)])
  else None.

(** [validateMax]. *)
Definition validateMax (value maxValue : value) (message : string) : option error :=
  try num := toFloat64 value in
  try max := toFloat64 maxValue in
  if float64_lt max num then
    if negb (String.eqb message "")
    then Some (fmt_Errorf "%s" [inl (VString message)])
    else Some (fmt_Errorf "значение должно быть не более %v" [inl (VFloat64 max)])
  else None.

(** [validateMinLength]. *)
Definition validateMinLength (value minLength : value) (message : string)
  : option error :=
  match value with
  | VString str =>
      try min := toInt minLength in
      if (Z.of_nat (String.length str) <? min)%Z then
        if negb (String.eqb message "")
        then Some (fmt_Errorf "%s" [inl (VString message)])
        else Some (fmt_Errorf "длина должна быть не менее %d символов" [inl (VInt min)])
      else None
  | _ => Some (fmt_Errorf "значение должно быть строкой" [])
  end.

(** [validateMaxLength]. *)
Definition validateMaxLength (value maxLength : value) (message : string)
  : option error :=
  match value with
  | VString str =>
      try max := toInt maxLength in
      if (max <? Z.of_nat (String.length str))%Z then
        if negb (String.eqb message "")
        then Some (fmt_Errorf "%s" [inl (VString message)])
        else Some (fmt_Errorf "длина должна быть не более %d символов" [inl (VInt max)])
      else None
  | _ => Some (fmt_Errorf "значение должно быть строкой" [])
  end.

(** [validateRule]. *)
Definition validateRule (value : value) (rule : ValidationRule) : option error :=
  if String.eqb (Type_ rule) "email" then
    validateEmail value (Message rule)
  else if String.eqb (Type_ rule) "min" then
    validateMin value (RuleValue rule) (Message rule)
  else if String.eqb (Type_ rule) "max" then
    validateMax value (RuleValue rule) (Message rule)
  else if String.eqb (Type_ rule) "minLength" then
    validateMinLength value (RuleValue rule) (Message rule)
  else if String.eqb (Type_ rule) "maxLength" then
    validateMaxLength value (RuleValue rule) (Message rule)
  else None.

(** The inner loop of [validateFormData] over [field.Validation]. *)
Fixpoint applyRules (field : Field) (value : value) (rules : list ValidationRule)
  : option error :=
  match rules with
  | [] => None
  | rule :: rest =>
      match validateRule value rule with
      | Some err =>
          Some (fmt_Errorf "поле '%s': %v" [inl (VString (FLabel field)); inr err])
      | None => applyRules field value rest
      end
  end.

(** The loop of [validateFormData] over [form.Fields]. *)
Fixpoint validateFields (fields : list Field) (data : gmap string value)
  : option error :=
  match fields with
  | [] => None
  | field :: rest =>
      let present := data !! Name field in
      let missing :=
        match present with
        | Some value => isEmpty value
        | None => true
        end in
      if Required field && missing then
        Some (fmt_Errorf "поле '%s' обязательно для заполнения"
                [inl (VString (FLabel field))])
      else if missing then validateFields rest data
      else
        match applyRules field (default VNil present) (Validation field) with
        | Some err => Some err
        | None => validateFields rest data
        end
  end.

(** [validateFormData]. *)
Definition validateFormData (form : Form) (data : gmap string value)
  : option error :=
  validateFields (Fields form) data.

End WithRuntime.

End router.

(** ** package storage *)

Module storage.

Import types.

Record Route : Type := mkRoute {
  ID : string;
  Name : string;
  Path : string;
  Title : string;
  Description : string;
  Icon : string;
  RType : string;
  (** [time.Time], as seconds; the zero time is 0 *)
  CreatedAt : Z;
  UpdatedAt : Z
}.

(** The interface [Storage] over a store of state [S]: every method takes
    the state of the store and gives the state it leaves. *)
Record Storage (S : Type) : Type := mkStorage {
  SaveRoute : Route -> S -> option error * S;
  GetRoutes : S -> (list Route + error) * S;
  DeleteRoute : string -> S -> option error * S;
  Close : S -> option error * S
}.

Arguments SaveRoute {S}.
Arguments GetRoutes {S}.
Arguments DeleteRoute {S}.
Arguments Close {S}.

End storage.

(** ** package formist *)

Module formist.

Import types.

Section WithStore.
Variable S : Type.

(** [Admin]; [storage] is [None] when no store is attached. *)
Record Admin : Type := mkAdmin {
  router : router.Router;
  storage : option (storage.Storage S)
}.

(** [New]. *)
Definition New : Admin :=
  {| router := router.NewRouter; storage := None |}.

(** [WithStorage]. *)
Definition WithStorage (a : Admin) (s : storage.Storage S) : Admin :=
  {| router := router a; storage := Some s |}.

(** [RegisterForm]: the admin it returns and the state it leaves the
    store in. *)
Definition RegisterForm (a : Admin) (form : Form) (store : S) : Admin * S :=
  let a := {| router := router.RegisterForm (router a) form;
              storage := storage a |} in
  match storage a with
  | Some s =>
      let route :=
        {| storage.ID := ""; storage.Name := FormName form;
           storage.Path := "/admin/forms/" +:+ FormName form;
           storage.Title := FormTitle form; storage.Description := "";
           storage.Icon := ""; storage.RType := "form";
         storage.CreatedAt := 0; storage.UpdatedAt := 0 |} in
      let route :=
        if negb (String.eqb (FormDescription form) "") then
          {| storage.ID := storage.ID route; storage.Name := storage.Name route;
             storage.Path := storage.Path route;
             storage.Title := storage.Title route;
             storage.Description := FormDescription form;
             storage.Icon := storage.Icon route;
             storage.RType := storage.RType route;
           storage.CreatedAt := storage.CreatedAt route;
           storage.UpdatedAt := storage.UpdatedAt route |}
        else route in
      let '(_, store) := storage.SaveRoute s route store in
      (a, store)
  | None => (a, store)
  end.

(** [RegisterPage]. *)
Definition RegisterPage (a : Admin) (page : Page) (store : S) : Admin * S :=
  let a := {| router := router.RegisterPage (router a) page;
              storage := storage a |} in
  match storage a with
  | Some s =>
      let route :=
        {| storage.ID := ""; storage.Name := PageName page;
           storage.Path := "/admin/pages/" +:+ PageName page;
           storage.Title := PageTitle page; storage.Description := "";
           storage.Icon := ""; storage.RType := "page";
         storage.CreatedAt := 0; storage.UpdatedAt := 0 |} in
      let '(_, store) := storage.SaveRoute s route store in
      (a, store)
  | None => (a, store)
  end.

End WithStore.

Arguments router {S}.
Arguments storage {S}.
Arguments RegisterForm {S}.
Arguments RegisterPage {S}.
Arguments WithStorage {S}.

End formist.

(** ** package form: the builders *)

Module builder.

Import golib types gostd.

(** The form of the builder with other members; a method of the builder
    assigns to one member of [fb.form] and returns [fb]. *)
Definition setForm (fb : form.FormBuilder) (f : Form) : form.FormBuilder :=
  {| form.form := f |}.

(** [WithDescription]. *)
Definition WithDescription (fb : form.FormBuilder) (description : string)
  : form.FormBuilder :=
  let f := form.form fb in
  setForm fb {| FormName := FormName f; FormTitle := FormTitle f;
                FormDescription := description; Fields := Fields f;
                Groups := Groups f; OnPost := OnPost f; OnGet := OnGet f |}.

(** [AddTextField]. *)
Definition AddTextField (fb : form.FormBuilder) (name label : string)
  : form.FormBuilder :=
  form.AddField fb
    {| Name := name; FType := FieldTypeText; FLabel := label; Required := false;
       Placeholder := ""; DefaultValue := VNil; Options := []; Multiple := false;
       Validation := []; Group := ""; Description := ""; FDisabled := false;
       Config := ∅; FTableConfig := None |}.

(** [AddEmailField]. *)
Definition AddEmailField (fb : form.FormBuilder) (name label : string)
  : form.FormBuilder :=
  form.AddField fb
    {| Name := name; FType := FieldTypeEmail; FLabel := label; Required := false;
       Placeholder := ""; DefaultValue := VNil; Options := []; Multiple := false;
       Validation := [ {| Type_ := "email"; RuleValue := VNil;
                          Message := "Введите корректный email" |} ];
       Group := ""; Description := ""; FDisabled := false;
       Config := ∅; FTableConfig := None |}.

(** [AddPasswordField]. *)
Definition AddPasswordField (fb : form.FormBuilder) (name label : string)
  : form.FormBuilder :=
  form.AddField fb
    {| Name := name; FType := FieldTypePassword; FLabel := label; Required := false;
       Placeholder := ""; DefaultValue := VNil; Options := []; Multiple := false;
       Validation := []; Group := ""; Description := ""; FDisabled := false;
       Config := ∅; FTableConfig := None |}.

(** [AddNumberField]. *)
Definition AddNumberField (fb : form.FormBuilder) (name label : string)
  : form.FormBuilder :=
  form.AddField fb
    {| Name := name; FType := FieldTypeNumber; FLabel := label; Required := false;
       Placeholder := ""; DefaultValue := VNil; Options := []; Multiple := false;
       Validation := []; Group := ""; Description := ""; FDisabled := false;
       Config := ∅; FTableConfig := None |}.

(** [AddSelectField]. *)
Definition AddSelectField (fb : form.FormBuilder) (name label : string)
  (options : list SelectOption) : form.FormBuilder :=
  form.AddField fb
    {| Name := name; FType := FieldTypeSelect; FLabel := label; Required := false;
       Placeholder := ""; DefaultValue := VNil; Options := options;
       Multiple := false; Validation := []; Group := ""; Description := "";
       FDisabled := false; Config := ∅; FTableConfig := None |}.

(** [AddMultiSelectField]. *)
Definition AddMultiSelectField (fb : form.FormBuilder) (name label : string)
  (options : list SelectOption) : form.FormBuilder :=
  form.AddField fb
    {| Name := name; FType := FieldTypeSelect; FLabel := label; Required := false;
       Placeholder := ""; DefaultValue := VNil; Options := options;
       Multiple := true; Validation := []; Group := ""; Description := "";
       FDisabled := false; Config := ∅; FTableConfig := None |}.

(** [AddCheckboxField]. *)
Definition AddCheckboxField (fb : form.FormBuilder) (name label : string)
  : form.FormBuilder :=
  form.AddField fb
    {| Name := name; FType := FieldTypeCheckbox; FLabel := label; Required := false;
       Placeholder := ""; DefaultValue := VNil; Options := []; Multiple := false;
       Validation := []; Group := ""; Description := ""; FDisabled := false;
       Config := ∅; FTableConfig := None |}.

(** [AddTextareaField]. *)
Definition AddTextareaField (fb : form.FormBuilder) (name label : string)
  : form.FormBuilder :=
  form.AddField fb
    {| Name := name; FType := FieldTypeTextarea; FLabel := label; Required := false;
       Placeholder := ""; DefaultValue := VNil; Options := []; Multiple := false;
       Validation := []; Group := ""; Description := ""; FDisabled := false;
       Config := ∅; FTableConfig := None |}.

(** [AddDateField]. *)
Definition AddDateField (fb : form.FormBuilder) (name label : string)
  : form.FormBuilder :=
  form.AddField fb
    {| Name := name; FType := FieldTypeDate; FLabel := label; Required := false;
       Placeholder := ""; DefaultValue := VNil; Options := []; Multiple := false;
       Validation := []; Group := ""; Description := ""; FDisabled := false;
       Config := ∅; FTableConfig := None |}.

(** [AddFileField]. *)
Definition AddFileField (fb : form.FormBuilder) (name label : string)
  : form.FormBuilder :=
  form.AddField fb
    {| Name := name; FType := FieldTypeFile; FLabel := label; Required := false;
       Placeholder := ""; DefaultValue := VNil; Options := []; Multiple := false;
       Validation := []; Group := ""; Description := ""; FDisabled := false;
       Config := ∅; FTableConfig := None |}.

(** [AddHiddenField]. *)
Definition AddHiddenField (fb : form.FormBuilder) (name : string) (value : value)
  : form.FormBuilder :=
  form.AddField fb
    {| Name := name; FType := FieldTypeHidden; FLabel := ""; Required := false;
       Placeholder := ""; DefaultValue := value; Options := []; Multiple := false;
       Validation := []; Group := ""; Description := ""; FDisabled := false;
       Config := ∅; FTableConfig := None |}.

(** [AddGroup]. *)
Definition AddGroup (fb : form.FormBuilder) (name title : string)
  (fields : list string) : form.FormBuilder :=
  let f := form.form fb in
  let group := {| GroupName := name; GroupTitle := title; GroupDescription := "";
                  GroupFields := fields |} in
  setForm fb {| FormName := FormName f; FormTitle := FormTitle f;
                FormDescription := FormDescription f; Fields := Fields f;
                Groups := Groups f ++ [group]; OnPost := OnPost f;
                OnGet := OnGet f |}.

(** [FormBuilder.Build]. *)
Definition Build (fb : form.FormBuilder) : Form := form.form fb.

(** [TableFieldBuilder]: the field it points to and the table
    configuration that the field points to, which is never nil. *)
Record TableFieldBuilder : Type := mkTableFieldBuilder {
  field : Field;
  config : TableConfig
}.

(** [AddTableField]; the form of the builder is not touched. *)
Definition AddTableField (fb : form.FormBuilder) (name label : string)
  : TableFieldBuilder :=
  {| field :=
       {| Name := name; FType := FieldTypeTable; FLabel := label;
          Required := false; Placeholder := ""; DefaultValue := VNil;
          Options := []; Multiple := false; Validation := []; Group := "";
          Description := ""; FDisabled := false; Config := ∅;
          FTableConfig := None |};
     config :=
       {| Columns := []; Pagination := true; PageSize := 10; Sortable := true;
          Filterable := true; Selectable := false; Editable := false;
          TableOnGet := None |} |}.

(** [tfb.field.TableConfig.Columns = columns]. *)
Definition setColumns (tfb : TableFieldBuilder) (columns : list TableColumn)
  : TableFieldBuilder :=
  let c := config tfb in
  {| field := field tfb;
     config := {| Columns := columns; Pagination := Pagination c;
                  PageSize := PageSize c; Sortable := Sortable c;
                  Filterable := Filterable c; Selectable := Selectable c;
                  Editable := Editable c; TableOnGet := TableOnGet c |} |}.

(** [AddColumn]. *)
Definition AddColumn (tfb : TableFieldBuilder) (column : TableColumn)
  : TableFieldBuilder :=
  setColumns tfb (Columns (config tfb) ++ [column]).

Definition column (key title : string) (type : FieldType)
  (options : list SelectOption) (multiple : bool) : TableColumn :=
  {| Key := key; ColTitle := title; ColType := type; ColSortable := false;
     ColFilterable := false; Width := ""; Align := ""; ColOptions := options;
     ColMultiple := multiple |}.

(** [AddTextColumn]. *)
Definition AddTextColumn (tfb : TableFieldBuilder) (key title : string)
  : TableFieldBuilder :=
  AddColumn tfb (column key title FieldTypeText [] false).

(** [AddEmailColumn]. *)
Definition AddEmailColumn (tfb : TableFieldBuilder) (key title : string)
  : TableFieldBuilder :=
  AddColumn tfb (column key title FieldTypeEmail [] false).

(** [AddNumberColumn]. *)
Definition AddNumberColumn (tfb : TableFieldBuilder) (key title : string)
  : TableFieldBuilder :=
  AddColumn tfb (column key title FieldTypeNumber [] false).

(** [AddSelectColumn]. *)
Definition AddSelectColumn (tfb : TableFieldBuilder) (key title : string)
  (options : list SelectOption) : TableFieldBuilder :=
  AddColumn tfb (column key title FieldTypeSelect options false).

(** [AddMultiSelectColumn]. *)
Definition AddMultiSelectColumn (tfb : TableFieldBuilder) (key title : string)
  (options : list SelectOption) : TableFieldBuilder :=
  AddColumn tfb (column key title FieldTypeSelect options true).

(** [AddCheckboxColumn]. *)
Definition AddCheckboxColumn (tfb : TableFieldBuilder) (key title : string)
  : TableFieldBuilder :=
  AddColumn tfb (column key title FieldTypeCheckbox [] false).

(** [AddDateColumn]. *)
Definition AddDateColumn (tfb : TableFieldBuilder) (key title : string)
  : TableFieldBuilder :=
  AddColumn tfb (column key title FieldTypeDate [] false).

(** [if len(columns) > 0 { columns[len(columns)-1] = change(...) }]. *)
Definition changeLast (change : TableColumn -> TableColumn)
  (tfb : TableFieldBuilder) : TableFieldBuilder :=
  let columns := Columns (config tfb) in
  if (0 <? length columns)%nat then
    let lastIdx := (length columns - 1)%nat in
    setColumns tfb (alter change lastIdx columns)
  else tfb.

(** [WithSortable]. *)
Definition WithSortable (tfb : TableFieldBuilder) : TableFieldBuilder :=
  changeLast
    (fun c => {| Key := Key c; ColTitle := ColTitle c; ColType := ColType c;
                 ColSortable := true; ColFilterable := ColFilterable c;
                 Width := Width c; Align := Align c; ColOptions := ColOptions c;
                 ColMultiple := ColMultiple c |}) tfb.

(** [WithFilterable]. *)
Definition WithFilterable (tfb : TableFieldBuilder) : TableFieldBuilder :=
  changeLast
    (fun c => {| Key := Key c; ColTitle := ColTitle c; ColType := ColType c;
                 ColSortable := ColSortable c; ColFilterable := true;
                 Width := Width c; Align := Align c; ColOptions := ColOptions c;
                 ColMultiple := ColMultiple c |}) tfb.

(** [WithWidth]. *)
Definition WithWidth (tfb : TableFieldBuilder) (width : string) : TableFieldBuilder :=
  changeLast
    (fun c => {| Key := Key c; ColTitle := ColTitle c; ColType := ColType c;
                 ColSortable := ColSortable c; ColFilterable := ColFilterable c;
                 Width := width; Align := Align c; ColOptions := ColOptions c;
                 ColMultiple := ColMultiple c |}) tfb.

(** [WithAlign]. *)
Definition WithAlign (tfb : TableFieldBuilder) (align : string) : TableFieldBuilder :=
  changeLast
    (fun c => {| Key := Key c; ColTitle := ColTitle c; ColType := ColType c;
                 ColSortable := ColSortable c; ColFilterable := ColFilterable c;
                 Width := Width c; Align := align; ColOptions := ColOptions c;
                 ColMultiple := ColMultiple c |}) tfb.

(** [WithPagination]. *)
Definition WithPagination (tfb : TableFieldBuilder) (enabled : bool)
  : TableFieldBuilder :=
  let c := config tfb in
  {| field := field tfb;
     config := {| Columns := Columns c; Pagination := enabled;
                  PageSize := PageSize c; Sortable := Sortable c;
                  Filterable := Filterable c; Selectable := Selectable c;
                  Editable := Editable c; TableOnGet := TableOnGet c |} |}.

(** [WithPageSize]. *)
Definition WithPageSize (tfb : TableFieldBuilder) (size : Z) : TableFieldBuilder :=
  let c := config tfb in
  {| field := field tfb;
     config := {| Columns := Columns c; Pagination := Pagination c;
                  PageSize := size; Sortable := Sortable c;
                  Filterable := Filterable c; Selectable := Selectable c;
                  Editable := Editable c; TableOnGet := TableOnGet c |} |}.

(** [WithSelectable]. *)
Definition WithSelectable (tfb : TableFieldBuilder) (enabled : bool)
  : TableFieldBuilder :=
  let c := config tfb in
  {| field := field tfb;
     config := {| Columns := Columns c; Pagination := Pagination c;
                  PageSize := PageSize c; Sortable := Sortable c;
                  Filterable := Filterable c; Selectable := enabled;
                  Editable := Editable c; TableOnGet := TableOnGet c |} |}.

(** [WithEditable]. *)
Definition WithEditable (tfb : TableFieldBuilder) (enabled : bool)
  : TableFieldBuilder :=
  let c := config tfb in
  {| field := field tfb;
     config := {| Columns := Columns c; Pagination := Pagination c;
                  PageSize := PageSize c; Sortable := Sortable c;
                  Filterable := Filterable c; Selectable := Selectable c;
                  Editable := enabled; TableOnGet := TableOnGet c |} |}.

(** [TableFieldBuilder.OnGet]. *)
Definition TableOnGet (tfb : TableFieldBuilder) (handler : option FuncRef)
  : TableFieldBuilder :=
  let c := config tfb in
  {| field := field tfb;
     config := {| Columns := Columns c; Pagination := Pagination c;
                  PageSize := PageSize c; Sortable := Sortable c;
                  Filterable := Filterable c; Selectable := Selectable c;
                  Editable := Editable c; types.TableOnGet := handler |} |}.

(** The field that the table builder points to, with its configuration. *)
Definition tableField (tfb : TableFieldBuilder) : Field :=
  let f := field tfb in
  {| Name := Name f; FType := FType f; FLabel := FLabel f;
     Required := Required f; Placeholder := Placeholder f;
     DefaultValue := DefaultValue f; Options := Options f;
     Multiple := Multiple f; Validation := Validation f; Group := Group f;
     Description := Description f; FDisabled := FDisabled f;
     Config := Config f; FTableConfig := Some (config tfb) |}.

(** [TableFieldBuilder.Build]: the field goes into the form of the builder
    that is given. *)
Definition BuildTable (tfb : TableFieldBuilder) (fb : form.FormBuilder)
  : form.FormBuilder :=
  form.AddField fb (tableField tfb).

(** [PageBuilder]. *)
Record PageBuilder : Type := mkPageBuilder { page : Page }.

(** [NewPage]. *)
Definition NewPage (name title : string) : PageBuilder :=
  {| page := {| PageName := name; PageTitle := title; Content := "";
                Handler := None |} |}.

(** [WithContent]. *)
Definition WithContent (pb : PageBuilder) (content : string) : PageBuilder :=
  {| page := {| PageName := PageName (page pb); PageTitle := PageTitle (page pb);
                Content := content; Handler := Handler (page pb) |} |}.

(** [PageBuilder.Build]. *)
Definition BuildPage (pb : PageBuilder) : Page := page pb.

(** [FormBuilder.OnPost]. *)
Definition OnPost (fb : form.FormBuilder) (handler : option FuncRef)
  : form.FormBuilder :=
  let f := form.form fb in
  setForm fb {| FormName := FormName f; FormTitle := FormTitle f;
                FormDescription := FormDescription f; Fields := Fields f;
                Groups := Groups f; types.OnPost := handler;
                types.OnGet := types.OnGet f |}.

(** [FormBuilder.OnGet]. *)
Definition OnGet (fb : form.FormBuilder) (handler : option FuncRef)
  : form.FormBuilder :=
  let f := form.form fb in
  setForm fb {| FormName := FormName f; FormTitle := FormTitle f;
                FormDescription := FormDescription f; Fields := Fields f;
                Groups := Groups f; types.OnPost := types.OnPost f;
                types.OnGet := handler |}.

End builder.

(** ** package router: the mux and the handlers *)

Module serving.

Import golib types gostd.

(** What [mux.Use] is given.  The CORS handler is built from
    [r.corsOrigins] and constants. *)
Inductive middleware : Type :=
| Logger
| Recoverer
| RequestID
| CORS (origins : list string)
| Custom (mw : FuncRef).

(** The handlers that [setupRoutes] registers; [Api key] is the closure
    that looks [key] up in [r.storageHandlers]. *)
Inductive handler : Type :=
| HandleConfig
| HandleFormsList
| HandleFormGet
| HandleFormPost
| HandlePageGet
| HandleLogin
| HandleLogout
| Api (key : string).

Record Route : Type := mkRoute {
  Method : string;
  Pattern : string;
  RouteHandler : handler
}.

(** A chi mux, as what was registered on it, in the order of the calls. *)
Record Mux : Type := mkMux {
  Uses : list middleware;
  Routes : list Route
}.

(** [chi.NewRouter()]. *)
Definition newMux : Mux := {| Uses := []; Routes := [] |}.

Definition use (m : Mux) (mw : middleware) : Mux :=
  {| Uses := Uses m ++ [mw]; Routes := Routes m |}.

Definition handle (m : Mux) (method pattern : string) (h : handler) : Mux :=
  {| Uses := Uses m;
     Routes := Routes m ++ [ {| Method := method; Pattern := pattern;
                                RouteHandler := h |} ] |}.

(** [Router]: the members of [router.Router] and the mux. *)
Record Router : Type := mkRouter {
  state : router.Router;
  mux : Mux
}.

(** [setupMiddleware]. *)
Definition setupMiddleware (r : router.Router) (m : Mux) : Mux :=
  let m := use m Logger in
  let m := use m Recoverer in
  let m := use m RequestID in
  let m := if router.corsEnabled r then use m (CORS (router.corsOrigins r)) else m in
  fold_left (fun m mw => use m (Custom mw)) (router.middlewares r) m.

(** [setupRoutes]. *)
Definition setupRoutes (r : router.Router) (m : Mux) : Mux :=
  let m := handle m "GET" "/admin/config" HandleConfig in
  let m := handle m "GET" "/admin/forms/" HandleFormsList in
  let m := handle m "GET" "/admin/forms/{name}" HandleFormGet in
  let m := handle m "POST" "/admin/forms/{name}" HandleFormPost in
  let m := handle m "GET" "/admin/pages/{name}" HandlePageGet in
  let m :=
    if router.authEnabled r then
      handle (handle m "POST" "/admin/login" HandleLogin)
        "POST" "/admin/logout" HandleLogout
    else m in
  let m := handle m "GET" "/api/routes/" (Api "getRoutes") in
  let m := handle m "GET" "/api/routes/{id}" (Api "getRoute") in
  let m := handle m "POST" "/api/routes/" (Api "createRoute") in
  let m := handle m "PUT" "/api/routes/{id}" (Api "updateRoute") in
  handle m "DELETE" "/api/routes/{id}" (Api "deleteRoute").

(** [NewRouter]. *)
Definition NewRouter : Router :=
  let r := router.NewRouter in
  {| state := r; mux := setupRoutes r (setupMiddleware r newMux) |}.

(** [SetTitle]. *)
Definition SetTitle (r : Router) (title : string) : Router :=
  let s := state r in
  {| state :=
       {| router.forms := router.forms s; router.pages := router.pages s;
          router.title := title; router.authEnabled := router.authEnabled s;
          router.corsEnabled := router.corsEnabled s;
          router.corsOrigins := router.corsOrigins s;
          router.middlewares := router.middlewares s;
          router.storageHandlers := router.storageHandlers s |};
     mux := mux r |}.

(** [EnableAuth]. *)
Definition EnableAuth (r : Router) (enabled : bool) : Router :=
  let s := state r in
  {| state :=
       {| router.forms := router.forms s; router.pages := router.pages s;
          router.title := router.title s; router.authEnabled := enabled;
          router.corsEnabled := router.corsEnabled s;
          router.corsOrigins := router.corsOrigins s;
          router.middlewares := router.middlewares s;
          router.storageHandlers := router.storageHandlers s |};
     mux := mux r |}.

(** [EnableCORS]. *)
Definition EnableCORS (r : Router) (enabled : bool) (origins : list string)
  : Router :=
  let s := state r in
  let s :=
    {| router.forms := router.forms s; router.pages := router.pages s;
       router.title := router.title s; router.authEnabled := router.authEnabled s;
       router.corsEnabled := enabled;
       router.corsOrigins :=
         if (0 <? length origins)%nat then origins else router.corsOrigins s;
       router.middlewares := router.middlewares s;
       router.storageHandlers := router.storageHandlers s |} in
  {| state := s; mux := setupRoutes s (setupMiddleware s newMux) |}.

(** [AddMiddleware]. *)
Definition AddMiddleware (r : Router) (middleware : FuncRef) : Router :=
  let s := state r in
  {| state :=
       {| router.forms := router.forms s; router.pages := router.pages s;
          router.title := router.title s; router.authEnabled := router.authEnabled s;
          router.corsEnabled := router.corsEnabled s;
          router.corsOrigins := router.corsOrigins s;
          router.middlewares := router.middlewares s ++ [middleware];
          router.storageHandlers := router.storageHandlers s |};
     mux := mux r |}.

(** [RegisterForm], with the mux. *)
Definition RegisterForm (r : Router) (form : Form) : Router :=
  {| state := router.RegisterForm (state r) form; mux := mux r |}.

(** [RegisterPage], with the mux. *)
Definition RegisterPage (r : Router) (page : Page) : Router :=
  {| state := router.RegisterPage (state r) page; mux := mux r |}.

(** [SetStorageHandlers]. *)
Definition SetStorageHandlers (s : router.Router) (handlers : gmap string FuncRef)
  : router.Router :=
  {| router.forms := router.forms s; router.pages := router.pages s;
     router.title := router.title s; router.authEnabled := router.authEnabled s;
     router.corsEnabled := router.corsEnabled s;
     router.corsOrigins := router.corsOrigins s;
     router.middlewares := router.middlewares s;
     router.storageHandlers := Some handlers |}.

(** A message that [fmt.Sprintf] or [err.Error()] builds, with its
    operands. *)
Inductive text : Type :=
| Literal (s : string)
| Sprintf (format : string) (args : list (value + error))
| ErrorText (err : error).

(** [types.ConfigResponse]. *)
Record ConfigResponse : Type := mkConfigResponse {
  CTitle : string;
  CAuthEnabled : bool;
  CForms : gmap string string;
  CPages : gmap string string
}.

(** [types.FormResponse]; [FData] is nil when the form has no [OnGet]. *)
Record FormResponse : Type := mkFormResponse {
  FSchema : schema.JSONSchema;
  FUISchema : gmap string value;
  FData : value
}.

(** The [Data] of a [types.APIResponse]. *)
Inductive payload : Type :=
| NoData
| DataValue (v : value)
| DataConfig (c : ConfigResponse)
| DataForm (f : FormResponse).

(** What a handler writes: [sendJSON] and [sendError] write a
    [types.APIResponse] with a status, [http.Error] writes a line of text,
    and a handler may hand the request to another one. *)
Inductive Reply : Type :=
| JSON (status : Z) (success : bool) (data : payload) (error : option text)
    (message : string)
| Plain (status : Z) (body : string)
| Delegated (handler : FuncRef).

(** [sendJSON] of a successful response. *)
Definition sendData (data : payload) : Reply := JSON 200 true data None "".

(** [sendError]. *)
Definition sendError (status : Z) (message : text) : Reply :=
  JSON status false NoData (Some message) "".

(** The map of the titles of the pages, as [handleConfig] builds it. *)
Definition pagesMap (r : router.Router) : gmap string string :=
  map_fold (fun name page pagesMap => <[name := PageTitle page]> pagesMap)
    ∅ (router.pages r).

(** [handleConfig]. *)
Definition handleConfig (r : router.Router) : Reply :=
  sendData (DataConfig {| CTitle := router.title r;
                          CAuthEnabled := router.authEnabled r;
                          CForms := router.formsMap r;
                          CPages := pagesMap r |}).

(** [handlePageGet]. *)
Definition handlePageGet (r : router.Router) (name : string) : Reply :=
  match router.pages r !! name with
  | None => sendError 404 (Literal "Страница не найдена")
  | Some page =>
      match Handler page with
      | Some handler => Delegated handler
      | None =>
          sendData (DataValue (VMap (<["content" := VString (Content page)]>
                                       (<["title" := VString (PageTitle page)]> ∅))))
      end
  end.

(** [handleLogin]. *)
Definition handleLogin : Reply := JSON 200 true NoData None "Авторизация успешна".

(** [handleLogout]. *)
Definition handleLogout : Reply := JSON 200 true NoData None "Выход выполнен".

(** The closures of [setupRoutes] under [/api/routes]. *)
Definition apiRoute (r : router.Router) (key : string) : Reply :=
  match router.storageHandlers r with
  | Some handlers =>
      match handlers !! key with
      | Some handler => Delegated handler
      | None => Plain 501 "Storage not configured"
      end
  | None => Plain 501 "Storage not configured"
  end.

Section WithHandlers.
Context {rt : GoRuntime}.

(** The func values of the application: what the [OnGet] and the [OnPost]
    of a form return when they are called. *)
Variable callGet : FuncRef -> value + error.
Variable callPost : FuncRef -> gmap string value -> value + error.

(** [handleFormGet]. *)
Definition handleFormGet (r : router.Router) (name : string) : Reply :=
  match router.forms r !! name with
  | None => sendError 404 (Literal "Форма не найдена")
  | Some form =>
      match schema.GenerateJSONSchema form with
      | inr err => sendError 500 (Sprintf "Ошибка генерации схемы: %v" [inr err])
      | inl jsonSchema =>
          let uiSchema := schema.GenerateUISchema form in
          match OnGet form with
          | Some onGet =>
              match callGet onGet with
              | inr err =>
                  sendError 500 (Sprintf "Ошибка получения данных: %v" [inr err])
              | inl data =>
                  sendData (DataForm {| FSchema := jsonSchema;
                                        FUISchema := uiSchema; FData := data |})
              end
          | None =>
              sendData (DataForm {| FSchema := jsonSchema;
                                    FUISchema := uiSchema; FData := VNil |})
          end
      end
  end.

(** [handleFormPost]; [body] is what decoding the request body into a map
    gives, [None] when it fails. *)
Definition handleFormPost (r : router.Router) (name : string)
  (body : option (gmap string value)) : Reply :=
  match router.forms r !! name with
  | None => sendError 404 (Literal "Форма не найдена")
  | Some form =>
      match OnPost form with
      | None => sendError 405 (Literal "POST не поддерживается для этой формы")
      | Some onPost =>
          match body with
          | None => sendError 400 (Literal "Некорректные данные JSON")
          | Some data =>
              match router.validateFormData form data with
              | Some err => sendError 400 (Sprintf "Ошибка валидации: %v" [inr err])
              | None =>
                  match callPost onPost data with
                  | inr err =>
                      sendError 500 (Sprintf "Ошибка обработки: %v" [inr err])
                  | inl result => sendData (DataValue result)
                  end
              end
          end
      end
  end.

End WithHandlers.

End serving.

(** ** package formist: the routes of the store *)

Module admin.

Import golib types.

Section WithStore.
Variable S : Type.

(** [Admin.GetRoutes]. *)
Definition GetRoutes (a : formist.Admin S) (store : S)
  : (list storage.Route + error) * S :=
  match formist.storage a with
  | None => (inr (fmt_Errorf "storage не подключен" []), store)
  | Some s => storage.GetRoutes s store
  end.

(** [Admin.DeleteRoute]. *)
Definition DeleteRoute (a : formist.Admin S) (id : string) (store : S)
  : option error * S :=
  match formist.storage a with
  | None => (Some (fmt_Errorf "storage не подключен" []), store)
  | Some s => storage.DeleteRoute s id store
  end.

(** The handlers that [Admin.Handler] gives to the router. *)
Definition storageHandlers : gmap string FuncRef :=
  <["deleteRoute" := "handleDeleteRoute"]> (
  <["updateRoute" := "handleUpdateRoute"]> (
  <["createRoute" := "handleCreateRoute"]> (
  <["getRoute" := "handleGetRoute"]> (
  <["getRoutes" := "handleGetRoutes"]> ∅)))).

(** [Admin.Handler]: the admin with the router it serves. *)
Definition Handler (a : formist.Admin S) : formist.Admin S :=
  match formist.storage a with
  | Some _ =>
      {| formist.router := serving.SetStorageHandlers (formist.router a) storageHandlers;
         formist.storage := formist.storage a |}
  | None => a
  end.

(** What the handlers of the admin write: the JSON object of [sendJSON] or
    of [sendError], with its status. *)
Inductive member : Type :=
| MBool (b : bool)
| MString (s : string)
| MText (t : serving.text)
| MRoutes (routes : list storage.Route).

Record Reply : Type := mkReply {
  Status : Z;
  Body : gmap string member
}.

(** [Admin.sendError]. *)
Definition sendError (status : Z) (message : serving.text) : Reply :=
  {| Status := status;
     Body := <["error" := MText message]> (<["success" := MBool false]> ∅) |}.

(** [handleGetRoutes]. *)
Definition handleGetRoutes (a : formist.Admin S) (store : S) : Reply * S :=
  match GetRoutes a store with
  | (inr err, store) => (sendError 500 (serving.ErrorText err), store)
  | (inl routes, store) =>
      ({| Status := 200;
          Body := <["routes" := MRoutes routes]> (<["success" := MBool true]> ∅) |},
       store)
  end.

(** [handleGetRoute]. *)
Definition handleGetRoute (id : string) : Reply :=
  if String.eqb id "" then sendError 400 (serving.Literal "ID is required")
  else sendError 501 (serving.Literal "Get route by ID not implemented yet").

(** [handleUpdateRoute]; [body] is what decoding the request body into a
    route gives, [None] when it fails. *)
Definition handleUpdateRoute (id : string) (body : option storage.Route) : Reply :=
  if String.eqb id "" then sendError 400 (serving.Literal "ID is required")
  else
    match body with
    | None => sendError 400 (serving.Literal "Invalid JSON")
    | Some _ => sendError 501 (serving.Literal "Update route not implemented yet")
    end.

(** [handleDeleteRoute]. *)
Definition handleDeleteRoute (a : formist.Admin S) (id : string) (store : S)
  : Reply * S :=
  if String.eqb id "" then (sendError 400 (serving.Literal "ID is required"), store)
  else
    match DeleteRoute a id store with
    | (Some err, store) => (sendError 500 (serving.ErrorText err), store)
    | (None, store) =>
        ({| Status := 200;
            Body := <["message" := MString "Route deleted successfully"]>
                      (<["success" := MBool true]> ∅) |},
         store)
    end.

End WithStore.

Arguments GetRoutes {S}.
Arguments DeleteRoute {S}.
Arguments Handler {S}.
Arguments handleGetRoutes {S}.
Arguments handleDeleteRoute {S}.

End admin.

(** ** A runtime for closed examples

    Every string is refused by the float parser and by the pattern
    compiler.  The closed examples below use it on inputs whose evaluation
    reaches neither call, so that they hold in every runtime. *)

Definition refusingRuntime : GoRuntime :=
  {| ParseFloat := fun s => inr (types.NumError "ParseFloat" s types.ErrSyntax);
     regexp_Compile := fun p => inr (types.regexp_Error "refused" p);
     ToLowerUnicode := fun s => s;
     intOfUnrepresentable := fun _ => golib.minInt |}.

(** ** The statements of the specification, in its words *)

Module spec.

Import golib types.

(** An empty value: null, an all-whitespace string, or an empty list. *)
Definition emptyValue (v : value) : Prop :=
  v = VNil \/ (exists s, v = VString s /\ TrimSpace s = "") \/ v = VList [].

Definition MissingRequiredField : error :=
  errors_New "поле обязательно для заполнения".

(** The rule kinds of the validation engine. *)
Definition ruleKinds : list string :=
  ["email"; "min"; "max"; "minLength"; "maxLength"; "pattern"].

(** The rule kinds with a schema constraint keyword, each with its
    keyword. *)
Definition constraintKeywords : list (string * string) :=
  [("min", "minimum"); ("max", "maximum"); ("minLength", "minLength");
   ("maxLength", "maxLength"); ("pattern", "pattern")].

(** A rule of that kind. *)
Definition rule (kind : string) (parameter : value) (message : string)
  : ValidationRule :=
  {| Type_ := kind; RuleValue := parameter; Message := message |}.

(** A field that has a name, a type and validation rules, and the zero
    value in every other member. *)
Definition field (name : string) (type : FieldType) (rules : list ValidationRule)
  : Field :=
  {| Name := name; FType := type; FLabel := ""; Required := false;
     Placeholder := ""; DefaultValue := VNil; Options := [];
     Multiple := false; Validation := rules; Group := ""; Description := "";
     FDisabled := false; Config := ∅; FTableConfig := None |}.


Section WithRuntime.
Context {rt : GoRuntime}.




End WithRuntime.

End spec.

(** ** Notions that the statements use *)

Section Notions.

Import golib types gostd.
Context {rt : GoRuntime}.

(** The evaluator rejects: its result is an error. *)
Definition rejects (result : option error) : bool :=
  match result with
  | Some _ => true
  | None => false
  end.

(** The rule that the mapper attaches to a field of type email. *)
Definition defaultEmailRule : ValidationRule :=
  {| Type_ := "email"; RuleValue := VNil; Message := "Введите корректный email" |}.

(** The options of the hint that the projector derives from the type of
    the field: the ones of [widgetHints], none when it sets no
    [ui:options]. *)
Definition derivedOptions (field : Field) : gmap string value :=
  match schema.widgetHints field !! "ui:options" with
  | Some (VMap options) => options
  | _ => ∅
  end.

(** The field with other settings in [Config]. *)
Definition withConfig (field : Field) (config : gmap string value) : Field :=
  {| Name := Name field; FType := FType field; FLabel := FLabel field;
     Required := Required field; Placeholder := Placeholder field;
     DefaultValue := DefaultValue field; Options := Options field;
     Multiple := Multiple field; Validation := Validation field;
     Group := Group field; Description := Description field;
     FDisabled := FDisabled field; Config := config;
     FTableConfig := FTableConfig field |}.

(** The field is not of type hidden. *)
Definition visible (field : Field) : bool :=
  negb (String.eqb (FType field) FieldTypeHidden).

(** A form that has fields and the zero value in every other member. *)
Definition formOf (name : string) (fields : list types.Field) : types.Form :=
  {| types.FormName := name; types.FormTitle := ""; types.FormDescription := "";
     types.Fields := fields; types.Groups := []; types.OnPost := None;
     types.OnGet := None |}.

(** The field, required. *)
Definition required (field : types.Field) : types.Field :=
  {| types.Name := types.Name field; types.FType := types.FType field;
     types.FLabel := types.FLabel field; types.Required := true;
     types.Placeholder := types.Placeholder field;
     types.DefaultValue := types.DefaultValue field;
     types.Options := types.Options field; types.Multiple := types.Multiple field;
     types.Validation := types.Validation field; types.Group := types.Group field;
     types.Description := types.Description field;
     types.FDisabled := types.FDisabled field; types.Config := types.Config field;
     types.FTableConfig := types.FTableConfig field |}.

(** A store that counts the calls of [SaveRoute] and fails each of them. *)
Definition failingStore : storage.Storage nat :=
  {| storage.SaveRoute := fun _ calls =>
       (Some (errors_New "не удалось сохранить роут"), Datatypes.S calls);
     storage.GetRoutes := fun calls => (inl [], calls);
     storage.DeleteRoute := fun _ calls => (None, calls);
     storage.Close := fun calls => (None, calls) |}.

(** The strings of a pattern. *)
Inductive lang : regex -> string -> Prop :=
| lang_Eps : lang Eps ""
| lang_Class (p : ascii -> bool) (c : ascii) :
    p c = true -> lang (Class p) (String c "")
| lang_Cat (r1 r2 : regex) (s1 s2 : string) :
    lang r1 s1 -> lang r2 s2 -> lang (Cat r1 r2) (s1 +:+ s2)
| lang_Alt_l (r1 r2 : regex) (s : string) : lang r1 s -> lang (Alt r1 r2) s
| lang_Alt_r (r1 r2 : regex) (s : string) : lang r2 s -> lang (Alt r1 r2) s
| lang_Star_nil (r : regex) : lang (Star r) ""
| lang_Star_cons (r : regex) (s1 s2 : string) :
    lang r s1 -> lang (Star r) s2 -> lang (Star r) (s1 +:+ s2).

(** The member is mapped and its field has a name. *)
Definition mapped (member : reflect.StructField) : bool :=
  reflect.IsExported member
  && negb (String.eqb (Name (form.createFieldFromStructField member)) "").

(** The keyword and the value that a rule writes into the schema of its
    field, if it writes one. *)
Definition constraintOf (rule : ValidationRule) : option (string * value) :=
  let kind := Type_ rule in
  match RuleValue rule with
  | VFloat64 num =>
      if String.eqb kind "min" then Some ("minimum", VFloat64 num)
      else if String.eqb kind "max" then Some ("maximum", VFloat64 num)
      else if String.eqb kind "minLength"
      then Some ("minLength", VInt (int_of_float64 num))
      else if String.eqb kind "maxLength"
      then Some ("maxLength", VInt (int_of_float64 num))
      else None
  | VString pattern =>
      if String.eqb kind "pattern" then Some ("pattern", VString pattern)
      else None
  | _ => None
  end.

(** The schema of the field before its rules are projected. *)
Definition baseSchema (field : Field) : gmap string value :=
  match DefaultValue field with
  | VNil => schema.typeSchema field
  | v => <["default" := v]> (schema.typeSchema field)
  end.

(** The schema of a field, with its rules projected. *)
Definition fieldSchemaOf (field : Field) : gmap string value :=
  fold_left schema.projectRule (Validation field) (baseSchema field).

(** One turn of the loop of [GenerateJSONSchema]. *)
Definition addFieldSchema (s : schema.JSONSchema) (field : Field) : schema.JSONSchema :=
  if visible field then
    let s := schema.setProperty s (Name field) (VMap (fieldSchemaOf field)) in
    if Required field then schema.appendRequired s (Name field) else s
  else s.

(** The value under a constraint keyword in the entry of a field in the
    presentation schema of a form. *)
Definition keywordOf (form : Form) (name keyword : string) : option value :=
  match schema.GenerateJSONSchema form with
  | inl s =>
      match schema.Properties s !! name with
      | Some (VMap fieldSchema) => fieldSchema !! keyword
      | _ => None
      end
  | inr _ => None
  end.

End Notions.

(** ** Notions of the further properties *)

Section FurtherNotions.

Import golib types gostd.
Context {rt : GoRuntime}.

(** The payload has no value for the field: the key is absent or its value
    is empty. *)
Definition missing (data : gmap string value) (field : Field) : bool :=
  match data !! Name field with
  | Some v => router.isEmpty v
  | None => true
  end.

(** The value of the payload under the name of the field, nil when the key
    is absent. *)
Definition submitted (data : gmap string value) (field : Field) : value :=
  default VNil (data !! Name field).

(** The field passes the validation of a payload: it is missing and not
    required, or it is there and every rule accepts it. *)
Definition fieldAccepted (data : gmap string value) (field : Field) : Prop :=
  if missing data field then Required field = false
  else forall rule, In rule (Validation field) ->
                    router.validateRule (submitted data field) rule = None.

(** The error of [validateFormData] for a required field that is missing. *)
Definition requiredError (field : Field) : error :=
  fmt_Errorf "поле '%s' обязательно для заполнения" [inl (VString (FLabel field))].

(** The error of [validateFormData] for a field one of whose rules
    fails. *)
Definition ruleError (field : Field) (inner : error) : error :=
  fmt_Errorf "поле '%s': %v" [inl (VString (FLabel field)); inr inner].

(** The values of the [type] tag that [getFieldType] has a case for. *)
Definition typeTags : list string :=
  ["email"; "password"; "textarea"; "select"; "radio"; "checkbox"; "date";
   "time"; "file"; "hidden"; "number"].

(** The column with one member set, as the modifiers of the table builder
    leave the last column. *)
Definition sortable (c : TableColumn) : TableColumn :=
  {| Key := Key c; ColTitle := ColTitle c; ColType := ColType c;
     ColSortable := true; ColFilterable := ColFilterable c; Width := Width c;
     Align := Align c; ColOptions := ColOptions c; ColMultiple := ColMultiple c |}.

Definition filterable (c : TableColumn) : TableColumn :=
  {| Key := Key c; ColTitle := ColTitle c; ColType := ColType c;
     ColSortable := ColSortable c; ColFilterable := true; Width := Width c;
     Align := Align c; ColOptions := ColOptions c; ColMultiple := ColMultiple c |}.

Definition withWidth (c : TableColumn) (width : string) : TableColumn :=
  {| Key := Key c; ColTitle := ColTitle c; ColType := ColType c;
     ColSortable := ColSortable c; ColFilterable := ColFilterable c;
     Width := width; Align := Align c; ColOptions := ColOptions c;
     ColMultiple := ColMultiple c |}.

Definition withAlign (c : TableColumn) (align : string) : TableColumn :=
  {| Key := Key c; ColTitle := ColTitle c; ColType := ColType c;
     ColSortable := ColSortable c; ColFilterable := ColFilterable c;
     Width := Width c; Align := align; ColOptions := ColOptions c;
     ColMultiple := ColMultiple c |}.

(** The field gives the UI schema nothing to say: its type has no widget
    of its own, and it has no placeholder, is not disabled, is in no group
    and has no settings. *)
Definition plain (field : Field) : bool :=
  forallb (fun t => negb (String.eqb (FType field) t))
    [FieldTypePassword; FieldTypeTextarea; FieldTypeFile; FieldTypeCheckbox;
     FieldTypeRadio; FieldTypeSelect; FieldTypeTable; FieldTypeHidden]
  && String.eqb (Placeholder field) ""
  && negb (FDisabled field)
  && String.eqb (Group field) ""
  && (size (Config field) =? 0)%nat.

(** The configuration of a table that [AddTableField] starts from, with
    the columns given. *)
Definition defaultTable (columns : list TableColumn) : TableConfig :=
  {| Columns := columns; Pagination := true; PageSize := 10; Sortable := true;
     Filterable := true; Selectable := false; Editable := false;
     TableOnGet := None |}.

(** The calls that configure a router after [NewRouter]. *)
Inductive call : Type :=
| CallSetTitle (title : string)
| CallEnableAuth (enabled : bool)
| CallEnableCORS (enabled : bool) (origins : list string)
| CallAddMiddleware (middleware : FuncRef)
| CallRegisterForm (form : Form)
| CallRegisterPage (page : Page).

Definition applyCall (r : serving.Router) (c : call) : serving.Router :=
  match c with
  | CallSetTitle title => serving.SetTitle r title
  | CallEnableAuth enabled => serving.EnableAuth r enabled
  | CallEnableCORS enabled origins => serving.EnableCORS r enabled origins
  | CallAddMiddleware middleware => serving.AddMiddleware r middleware
  | CallRegisterForm form => serving.RegisterForm r form
  | CallRegisterPage page => serving.RegisterPage r page
  end.

(** The router after the calls, one after the other. *)
Definition run (calls : list call) (r : serving.Router) : serving.Router :=
  fold_left applyCall calls r.

(** The call is one of [EnableCORS]. *)
Definition rebuilds (c : call) : bool :=
  match c with
  | CallEnableCORS _ _ => true
  | _ => false
  end.

(** The mux serves the login or the logout handler on some route. *)
Definition servesLogin (m : serving.Mux) : Prop :=
  exists route, In route (serving.Routes m)
                /\ (serving.RouteHandler route = serving.HandleLogin
                    \/ serving.RouteHandler route = serving.HandleLogout).

(** The mux serves the handler on some route. *)
Definition serves (m : serving.Mux) (h : serving.handler) : Prop :=
  exists route, In route (serving.Routes m) /\ serving.RouteHandler route = h.

End FurtherNotions.

(** ** Validation *)

Section Validation.

Import golib types gostd.
Context {rt : GoRuntime}.

Lemma isEmpty_same value : router.isEmpty value = form.isEmpty value.
Proof. reflexivity. Qed.

Lemma toFloat64_same value : router.toFloat64 value = form.toFloat64 value.
Proof. reflexivity. Qed.

Lemma toInt_same value : router.toInt value = form.toInt value.
Proof. reflexivity. Qed.

Lemma isEmpty_spec value : form.isEmpty value = true <-> spec.emptyValue value.
Proof.
  unfold spec.emptyValue. split.
  - destruct value as [ | s | | | | | | | l | | | | | | ]; simpl; try discriminate.
    + auto.
    + intros Hs. apply String.eqb_eq in Hs. right. left. eauto.
    + destruct l; [auto | discriminate].
  - intros [-> | [(s & -> & Hs) | ->]]; simpl; [reflexivity | | reflexivity].
    rewrite Hs. reflexivity.
Qed.

(** *** The two evaluators on the four bound rules *)

Lemma validateMin_same_outcome value bound message :
  rejects (router.validateMin value bound message)
  = rejects (form.validateMin value bound message).
Proof.
  unfold router.validateMin, form.validateMin.
  change (@router.toFloat64 rt) with (@form.toFloat64 rt).
  destruct (form.toFloat64 value); [ | reflexivity ].
  destruct (form.toFloat64 bound); [ | reflexivity ].
  destruct (float64_lt _ _); [ | reflexivity ].
  destruct (negb _); reflexivity.
Qed.

Lemma validateMax_same_outcome value bound message :
  rejects (router.validateMax value bound message)
  = rejects (form.validateMax value bound message).
Proof.
  unfold router.validateMax, form.validateMax.
  change (@router.toFloat64 rt) with (@form.toFloat64 rt).
  destruct (form.toFloat64 value); [ | reflexivity ].
  destruct (form.toFloat64 bound); [ | reflexivity ].
  destruct (float64_lt _ _); [ | reflexivity ].
  destruct (negb _); reflexivity.
Qed.

Lemma validateMinLength_same_outcome value bound message :
  rejects (router.validateMinLength value bound message)
  = rejects (form.validateMinLength value bound message).
Proof.
  unfold router.validateMinLength, form.validateMinLength.
  destruct value; try reflexivity.
  change (@router.toInt rt) with (@form.toInt rt).
  destruct (form.toInt bound); [ | reflexivity ].
  destruct (_ <? _)%Z; [ | reflexivity ].
  destruct (negb _); reflexivity.
Qed.

Lemma validateMaxLength_same_outcome value bound message :
  rejects (router.validateMaxLength value bound message)
  = rejects (form.validateMaxLength value bound message).
Proof.
  unfold router.validateMaxLength, form.validateMaxLength.
  destruct value; try reflexivity.
  change (@router.toInt rt) with (@form.toInt rt).
  destruct (form.toInt bound); [ | reflexivity ].
  destruct (_ <? _)%Z; [ | reflexivity ].
  destruct (negb _); reflexivity.
Qed.

(** On a rule whose kind is neither [email] nor [pattern] the two
    evaluators accept and reject together. *)
Lemma validateRule_same_outcome_on_bounds value rule :
  Type_ rule <> "email" -> Type_ rule <> "pattern" ->
  rejects (router.validateRule value rule) = rejects (form.validateRule value rule).
Proof.
  intros Hemail Hpattern. unfold router.validateRule, form.validateRule.
  apply String.eqb_neq in Hemail, Hpattern. rewrite Hemail, Hpattern.
  destruct (String.eqb (Type_ rule) "min"); [ apply validateMin_same_outcome | ].
  destruct (String.eqb (Type_ rule) "max"); [ apply validateMax_same_outcome | ].
  destruct (String.eqb (Type_ rule) "minLength");
    [ apply validateMinLength_same_outcome | ].
  destruct (String.eqb (Type_ rule) "maxLength");
    [ apply validateMaxLength_same_outcome | ].
  reflexivity.
Qed.

(** The request-payload evaluator has no case for [pattern]. *)
Lemma router_ignores_pattern value parameter message :
  router.validateRule value (spec.rule "pattern" parameter message) = None.
Proof. reflexivity. Qed.

(** C1.  The claim is that the standalone rule evaluator and the
    request-payload rule evaluator accept and reject the same values under
    every rule.  They do not: the address [user@example.c] fails the
    pattern of the standalone [email] rule and passes the request-payload
    one, which only looks for an at sign and a dot; and a [pattern] rule is
    evaluated by the standalone evaluator only, so a value that is not a
    string is rejected by one and accepted by the other. *)
Theorem C1_evaluators_disagree :
  (form.validateRule (VString "user@example.c") (spec.rule "email" VNil "")
     = Some (errors_New "некорректный email адрес")
   /\ router.validateRule (VString "user@example.c") (spec.rule "email" VNil "")
     = None)
  /\ (form.validateRule (VBool true) (spec.rule "pattern" (VString "^\d+$") "")
        = Some (errors_New "значение должно быть строкой")
      /\ router.validateRule (VBool true) (spec.rule "pattern" (VString "^\d+$") "")
        = None).
Proof. repeat split; reflexivity. Qed.

(** C5.  An empty value (null, an all-whitespace string, an empty list)
    of a required field fails standalone validation with the
    missing-required-field error, and an empty value of a field that is
    not required passes it, whatever rules the field carries: the result
    does not depend on [field.Validation]. *)
Theorem C5_empty_value_short_circuit (field : Field) (value : value) :
  spec.emptyValue value ->
  form.ValidateField field value
  = if Required field then Some spec.MissingRequiredField else None.
Proof.
  intros Hempty. apply isEmpty_spec in Hempty.
  unfold form.ValidateField. rewrite Hempty.
  destruct (Required field); reflexivity.
Qed.

(** C10.  A rule whose kind is none of email, min, max, minLength,
    maxLength and pattern is accepted by both rule evaluators, for every
    value. *)
Theorem C10_unknown_kind_accepted (value : value) (rule : ValidationRule) :
  ~ In (Type_ rule) spec.ruleKinds ->
  form.validateRule value rule = None /\ router.validateRule value rule = None.
Proof.
  intros Hkind. unfold form.validateRule, router.validateRule.
  assert (Hne : forall k, In k spec.ruleKinds -> String.eqb (Type_ rule) k = false).
  { intros k Hk. apply String.eqb_neq. intros Heq. apply Hkind. rewrite Heq. exact Hk. }
  rewrite !Hne by (simpl; tauto). split; reflexivity.
Qed.

(** *** The order of the rules *)

Lemma applyRules_None value rules :
  form.applyRules value rules = None
  <-> forall r, In r rules -> form.validateRule value r = None.
Proof.
  induction rules as [ | rule rest IH ]; simpl.
  - split; [ intros _ r [] | reflexivity ].
  - destruct (form.validateRule value rule) as [ err | ] eqn:Hrule.
    + split; [ discriminate | ].
      intros Hall. rewrite <- Hrule. apply Hall. left. reflexivity.
    + rewrite IH. split.
      * intros Hrest r [ <- | Hin ]; [ exact Hrule | apply Hrest; exact Hin ].
      * intros Hall r Hin. apply Hall. right. exact Hin.
Qed.


(** *** The error of a rule *)






End Validation.

(** ** The two [email] checks

    Every address that matches [emailRegex] holds an at sign and a dot, so
    that the request-payload evaluator accepts every value that the
    standalone evaluator accepts. *)

Section EmailChecks.

Import golib types gostd.
Context {rt : GoRuntime}.

Lemma nullable_lang (r : regex) : nullable r = true -> lang r "".
Proof.
  induction r as [ | | p | r1 IH1 r2 IH2 | r1 IH1 r2 IH2 | r IH ]; simpl;
    try discriminate.
  - intros _. constructor.
  - intros Hboth. apply andb_true_iff in Hboth as [ H1 H2 ].
    apply (lang_Cat r1 r2 EmptyString EmptyString); auto.
  - intros Heither. apply orb_true_iff in Heither as [ H1 | H2 ].
    + apply lang_Alt_l. auto.
    + apply lang_Alt_r. auto.
  - intros _. constructor.
Qed.

Lemma deriv_lang (c : ascii) (r : regex) (s : string) :
  lang (deriv c r) s -> lang r (String c s).
Proof.
  revert s.
  induction r as [ | | p | r1 IH1 r2 IH2 | r1 IH1 r2 IH2 | r IH ]; simpl; intros s Hs.
  - inversion Hs.
  - inversion Hs.
  - destruct (p c) eqn:Hp; inversion Hs; subst. constructor. exact Hp.
  - assert (Hcat : forall t, lang (Cat (deriv c r1) r2) t ->
                             lang (Cat r1 r2) (String c t)).
    { intros t Ht. inversion Ht as [ | | ? ? s1 s2 H1 H2 | | | | ]; subst.
      apply (lang_Cat r1 r2 (String c s1) s2); auto. }
    destruct (nullable r1) eqn:Hnull; [ | apply Hcat; exact Hs ].
    inversion Hs as [ | | | ? ? ? Hleft | ? ? ? Hright | | ]; subst.
    + apply Hcat. exact Hleft.
    + apply (lang_Cat r1 r2 EmptyString (String c s));
        [ apply nullable_lang; exact Hnull | auto ].
  - inversion Hs as [ | | | ? ? ? Hleft | ? ? ? Hright | | ]; subst.
    + apply lang_Alt_l. auto.
    + apply lang_Alt_r. auto.
  - inversion Hs as [ | | ? ? s1 s2 H1 H2 | | | | ]; subst.
    apply (lang_Star_cons r (String c s1) s2); auto.
Qed.

Lemma MatchString_lang (r : regex) (s : string) :
  MatchString r s = true -> lang r s.
Proof.
  revert r. induction s as [ | c s IH ]; simpl; intros r Hmatch.
  - apply nullable_lang. exact Hmatch.
  - apply deriv_lang. apply IH. exact Hmatch.
Qed.

Lemma HasPrefix_app (prefix rest : string) : HasPrefix (prefix +:+ rest) prefix = true.
Proof.
  induction prefix as [ | c prefix IH ]; simpl.
  - destruct rest; reflexivity.
  - rewrite Ascii.eqb_refl. exact IH.
Qed.

Lemma append_cons (c : ascii) (s1 s2 : string) :
  String c s1 +:+ s2 = String c (s1 +:+ s2).
Proof. reflexivity. Qed.

Lemma append_assoc (s1 s2 s3 : string) : s1 +:+ s2 +:+ s3 = (s1 +:+ s2) +:+ s3.
Proof.
  induction s1 as [ | c s1 IH ]; [ reflexivity | ].
  rewrite !append_cons, IH. reflexivity.
Qed.

Lemma Contains_HasPrefix (s substr : string) :
  HasPrefix s substr = true -> Contains s substr = true.
Proof. destruct s; simpl; intros ->; reflexivity. Qed.

Lemma Contains_app (before substr rest : string) :
  Contains (before +:+ substr +:+ rest) substr = true.
Proof.
  induction before as [ | c before IH ].
  - apply Contains_HasPrefix. exact (HasPrefix_app substr rest).
  - rewrite append_cons. simpl. rewrite IH. apply orb_true_r.
Qed.

Lemma lang_Cat_inv (r1 r2 : regex) (s : string) :
  lang (Cat r1 r2) s -> exists s1 s2, s = s1 +:+ s2 /\ lang r1 s1 /\ lang r2 s2.
Proof. intros Hs. inversion Hs; subst. eauto. Qed.

Lemma lang_byte_inv (n : N) (s : string) :
  lang (Class (isByte n)) s -> s = String (ascii_of_N n) "".
Proof.
  intros Hs. inversion Hs as [ | p c Hc | | | | | ]; subst.
  unfold isByte, byte in Hc. apply N.eqb_eq in Hc. subst n.
  rewrite ascii_N_embedding. reflexivity.
Qed.

Lemma emailRegex_at_and_dot (s : string) :
  MatchString form.emailRegex s = true ->
  Contains s "@" = true /\ Contains s "." = true.
Proof.
  intros Hmatch. apply MatchString_lang in Hmatch. unfold form.emailRegex in Hmatch.
  apply lang_Cat_inv in Hmatch as (local & s1 & -> & _ & Hmatch).
  apply lang_Cat_inv in Hmatch as (at_ & s2 & -> & Hat & Hmatch).
  apply lang_Cat_inv in Hmatch as (domain & s3 & -> & _ & Hmatch).
  apply lang_Cat_inv in Hmatch as (dot & tld & -> & Hdot & _).
  apply lang_byte_inv in Hat, Hdot. subst at_ dot.
  split.
  - exact (Contains_app local "@" (domain +:+ "." +:+ tld)).
  - rewrite (append_assoc local _ (domain +:+ _ +:+ tld)).
    rewrite (append_assoc (local +:+ _) domain (_ +:+ tld)).
    exact (Contains_app (((local +:+ "@") +:+ domain)) "." tld).
Qed.

(** What the standalone evaluator accepts, the request-payload evaluator
    accepts. *)
Lemma router_accepts_what_form_accepts (value : value) (rule : ValidationRule) :
  form.validateRule value rule = None -> router.validateRule value rule = None.
Proof.
  destruct (String.eqb (Type_ rule) "email") eqn:Hemail.
  { unfold form.validateRule, router.validateRule. rewrite Hemail.
    unfold form.validateEmail, router.validateEmail.
    destruct value; try discriminate.
    destruct (MatchString form.emailRegex s) eqn:Hmatch; simpl.
    - apply emailRegex_at_and_dot in Hmatch as [ -> -> ]. reflexivity.
    - destruct (negb (String.eqb (Message rule) "")); discriminate. }
  destruct (String.eqb (Type_ rule) "pattern") eqn:Hpattern.
  { intros _. unfold router.validateRule. rewrite Hemail.
    apply String.eqb_eq in Hpattern. rewrite Hpattern. reflexivity. }
  apply String.eqb_neq in Hemail, Hpattern.
  pose proof (validateRule_same_outcome_on_bounds value rule Hemail Hpattern) as Hsame.
  intros Hform. rewrite Hform in Hsame.
  destruct (router.validateRule value rule); [ discriminate Hsame | reflexivity ].
Qed.

End EmailChecks.

(** C5 at a field that is not required and carries an [email] rule, on a
    value of three spaces: validation succeeds although the rule would
    reject the value. *)
Lemma C5_empty_value_short_circuit_witness :
  spec.emptyValue (types.VString "   ")
  /\ form.validateRule (rt := refusingRuntime) (types.VString "   ")
       (spec.rule "email" types.VNil "") <> None
  /\ form.ValidateField (rt := refusingRuntime)
       (spec.field "email" types.FieldTypeEmail [spec.rule "email" types.VNil ""])
       (types.VString "   ") = None.
Proof.
  assert (Hempty : spec.emptyValue (types.VString "   ")).
  { right. left. exists "   ". split; reflexivity. }
  split; [ exact Hempty | split; [ discriminate | ] ].
  exact (C5_empty_value_short_circuit
           (spec.field "email" types.FieldTypeEmail [spec.rule "email" types.VNil ""])
           (types.VString "   ") Hempty).
Defined.

(** C10 at a rule of the misspelled kind [minlength]. *)
Lemma C10_unknown_kind_accepted_witness :
  ~ In "minlength" spec.ruleKinds
  /\ form.validateRule (rt := refusingRuntime) (types.VString "ab")
       (spec.rule "minlength" (types.VInt 5) "") = None
  /\ router.validateRule (rt := refusingRuntime) (types.VString "ab")
       (spec.rule "minlength" (types.VInt 5) "") = None.
Proof.
  assert (Hkind : ~ In "minlength" spec.ruleKinds).
  { simpl. intros [ Heq | [ Heq | [ Heq | [ Heq | [ Heq | [ Heq | [] ] ] ] ] ] ];
      discriminate Heq. }
  split; [ exact Hkind | ].
  exact (C10_unknown_kind_accepted (types.VString "ab")
           (spec.rule "minlength" (types.VInt 5) "") Hkind).
Defined.



(** ** The registry *)

Section Registry.

Import types.

(** The map that [handleFormsList] sends holds the title of each stored
    form under its name. *)
Lemma formsMap_fmap (r : router.Router) :
  router.formsMap r = FormTitle <$> router.forms r.
Proof.
  unfold router.formsMap.
  apply (map_fold_weak_ind
           (fun (acc : gmap string string) (m : gmap string Form) =>
              acc = FormTitle <$> m)).
  - symmetry. apply fmap_empty.
  - intros name form m acc _ ->. symmetry. apply fmap_insert.
Qed.

Lemma formsMap_dom (r : router.Router) :
  dom (router.formsMap r) = dom (router.forms r).
Proof. rewrite formsMap_fmap. apply dom_fmap_L. Qed.

Lemma RegisterForm_twice (r : router.Router) (form1 form2 : Form) :
  FormName form1 = FormName form2 ->
  router.RegisterForm (router.RegisterForm r form1) form2
  = router.RegisterForm r form2.
Proof.
  intros Hname. unfold router.RegisterForm. simpl.
  rewrite Hname, insert_insert_eq. reflexivity.
Qed.

(** C8.  After two forms are registered under one name, the registry holds
    the second under that name and keeps nothing of the first: a lookup by
    the name gives the second form, the registry is the one that
    registering the second form alone gives, and the listing of
    [handleFormsList] has one entry for each distinct name, the one of the
    shared name carrying the title of the second form. *)
Theorem C8_duplicate_registration_replaces
  (r : router.Router) (form1 form2 : Form) :
  FormName form1 = FormName form2 ->
  let r2 := router.RegisterForm (router.RegisterForm r form1) form2 in
  router.forms r2 !! FormName form2 = Some form2
  /\ r2 = router.RegisterForm r form2
  /\ router.formsMap r2 !! FormName form2 = Some (FormTitle form2)
  /\ dom (router.formsMap r2) = {[ FormName form2 ]} ∪ dom (router.forms r)
  /\ size (router.formsMap r2)
     = size ({[ FormName form2 ]} ∪ dom (router.forms r) : gset string)
  /\ router.Data (router.handleFormsList r2) = VStringMap (router.formsMap r2).
Proof.
  intros Hname r2. subst r2. rewrite (RegisterForm_twice r form1 form2 Hname).
  assert (Hdom : dom (router.formsMap (router.RegisterForm r form2))
                 = {[ FormName form2 ]} ∪ dom (router.forms r)).
  { rewrite formsMap_dom. unfold router.RegisterForm. simpl. apply dom_insert_L. }
  split; [ | split; [ | split; [ | split; [ | split ] ] ] ].
  - unfold router.RegisterForm. simpl. apply lookup_insert_eq.
  - reflexivity.
  - rewrite formsMap_fmap, lookup_fmap. unfold router.RegisterForm. simpl.
    rewrite lookup_insert_eq. reflexivity.
  - exact Hdom.
  - rewrite <- Hdom. symmetry. apply size_dom.
  - reflexivity.
Qed.

(** C9.  [Admin.RegisterForm] and [Admin.RegisterPage] register in the
    router and return the admin whatever the store does in [SaveRoute]:
    the router of the admin they return is the one that the registration
    of the router gives, it holds the form or the page under its name, and
    the store attached to the admin is unchanged.  The result has no error
    component. *)
Theorem C9_registration_ignores_store
  (S : Type) (a : formist.Admin S) (form : Form) (page : Page) (store : S) :
  (formist.router (formist.RegisterForm a form store).1
   = router.RegisterForm (formist.router a) form
   /\ router.forms (formist.router (formist.RegisterForm a form store).1)
        !! FormName form = Some form
   /\ formist.storage (formist.RegisterForm a form store).1 = formist.storage a)
  /\ (formist.router (formist.RegisterPage a page store).1
      = router.RegisterPage (formist.router a) page
      /\ router.pages (formist.router (formist.RegisterPage a page store).1)
           !! PageName page = Some page
      /\ formist.storage (formist.RegisterPage a page store).1 = formist.storage a).
Proof.
  split.
  - assert (Hrouter : formist.router (formist.RegisterForm a form store).1
                      = router.RegisterForm (formist.router a) form
                      /\ formist.storage (formist.RegisterForm a form store).1
                         = formist.storage a).
    { unfold formist.RegisterForm. simpl.
      destruct (formist.storage a) as [ s | ]; [ | split; reflexivity ].
      match goal with
      | |- context [storage.SaveRoute s ?route store] =>
          destruct (storage.SaveRoute s route store) as [ result store' ]
      end.
      split; reflexivity. }
    destruct Hrouter as [ Hrouter Hstorage ].
    split; [ exact Hrouter | split; [ | exact Hstorage ] ].
    rewrite Hrouter. unfold router.RegisterForm. simpl. apply lookup_insert_eq.
  - assert (Hrouter : formist.router (formist.RegisterPage a page store).1
                      = router.RegisterPage (formist.router a) page
                      /\ formist.storage (formist.RegisterPage a page store).1
                         = formist.storage a).
    { unfold formist.RegisterPage. simpl.
      destruct (formist.storage a) as [ s | ]; [ | split; reflexivity ].
      match goal with
      | |- context [storage.SaveRoute s ?route store] =>
          destruct (storage.SaveRoute s route store) as [ result store' ]
      end.
      split; reflexivity. }
    destruct Hrouter as [ Hrouter Hstorage ].
    split; [ exact Hrouter | split; [ | exact Hstorage ] ].
    rewrite Hrouter. unfold router.RegisterPage. simpl. apply lookup_insert_eq.
Qed.

End Registry.

(** ** The struct mapper *)

Section Mapper.

Import golib types gostd.
Context {rt : GoRuntime}.

(** [FromStruct] appends the fields of the mapped members, in the order of
    their declaration. *)
Lemma addStructFields_Fields (fb : form.FormBuilder)
  (members : list reflect.StructField) :
  Fields (form.form (form.addStructFields fb members))
  = (Fields (form.form fb)
     ++ List.map form.createFieldFromStructField (List.filter mapped members))%list.
Proof.
  revert fb. induction members as [ | member members IH ]; intros fb; simpl.
  - symmetry. apply app_nil_r.
  - unfold mapped at 1.
    destruct (reflect.IsExported member); simpl; [ | apply IH ].
    destruct (String.eqb (Name (form.createFieldFromStructField member)) "");
      simpl; [ apply IH | ].
    rewrite IH. simpl. rewrite <- app_assoc. reflexivity.
Qed.

Lemma createField_Name (member : reflect.StructField) :
  Name (form.createFieldFromStructField member) = form.getFieldName member.
Proof.
  unfold form.createFieldFromStructField. simpl.
  destruct (String.eqb (form.getFieldType member) FieldTypeEmail); reflexivity.
Qed.

Lemma createField_FType (member : reflect.StructField) :
  FType (form.createFieldFromStructField member) = form.getFieldType member.
Proof.
  unfold form.createFieldFromStructField. simpl.
  destruct (String.eqb (form.getFieldType member) FieldTypeEmail); reflexivity.
Qed.

(** C7.  An exported string member without form, label, type and required
    tags whose lower-cased name contains [email] is mapped to a field that
    has the lower-cased name of the member as its name, the type email and
    the default email rule as its validation; the field is among the
    fields of the form that [FromStruct] builds from the struct or from a
    pointer to it.  The member [UserEmail] gives the name [useremail] and
    the type email. *)
Theorem C7_email_member_mapped (name title : string)
  (members : list reflect.StructField) (member : reflect.StructField) :
  In member members ->
  reflect.IsExported member = true ->
  reflect.TypeKind member = reflect.String ->
  (forall key, In key ["form"; "label"; "type"; "required"] ->
               reflect.Get (reflect.Tag member) key = "") ->
  Contains (ToLower (reflect.Name member)) "email" = true ->
  let field := form.createFieldFromStructField member in
  Name field = ToLower (reflect.Name member)
  /\ FType field = FieldTypeEmail
  /\ Validation field = [defaultEmailRule]
  /\ In field (Fields (form.form
                         (form.FromStruct name title (reflect.StructOf members))))
  /\ In field (Fields (form.form
                         (form.FromStruct name title
                            (reflect.PointerTo (reflect.StructOf members)))))
  /\ form.createFieldFromStructField
       {| reflect.Name := "UserEmail"; reflect.PkgPath := "";
          reflect.TypeKind := reflect.String; reflect.Tag := [] |}
     = {| Name := "useremail"; FType := FieldTypeEmail; FLabel := "UserEmail";
          Required := false; Placeholder := ""; DefaultValue := VNil;
          Options := []; Multiple := false; Validation := [defaultEmailRule];
          Group := ""; Description := ""; FDisabled := false; Config := ∅;
          FTableConfig := None |}.
Proof.
  intros Hin Hexported Hkind Htags Hemail field.
  assert (Hform : reflect.Get (reflect.Tag member) "form" = "")
    by (apply Htags; simpl; tauto).
  assert (Htype : reflect.Get (reflect.Tag member) "type" = "")
    by (apply Htags; simpl; tauto).
  assert (HgetName : form.getFieldName member = ToLower (reflect.Name member)).
  { unfold form.getFieldName. rewrite Hform. reflexivity. }
  assert (HgetType : form.getFieldType member = FieldTypeEmail).
  { unfold form.getFieldType, form.typeOfKind. rewrite Htype, Hkind. simpl.
    rewrite Hemail. reflexivity. }
  assert (Hname : Name field = ToLower (reflect.Name member)).
  { subst field. rewrite createField_Name. exact HgetName. }
  assert (Hmapped : mapped member = true).
  { unfold mapped. rewrite Hexported. simpl. fold field. rewrite Hname.
    destruct (ToLower (reflect.Name member)); [ discriminate Hemail | reflexivity ]. }
  assert (Hfields : In field
            (Fields (form.form (form.addStructFields (form.NewForm name title) members)))).
  { rewrite addStructFields_Fields. simpl. apply in_map.
    apply List.filter_In. split; assumption. }
  split; [ exact Hname | ].
  split; [ subst field; rewrite createField_FType; exact HgetType | ].
  split.
  { subst field. unfold form.createFieldFromStructField. simpl.
    rewrite HgetType. reflexivity. }
  split; [ exact Hfields | ].
  split; [ exact Hfields | ].
  reflexivity.
Qed.

End Mapper.

(** C7 at the struct [struct { ID int; UserEmail string }]. *)
Lemma C7_email_member_mapped_witness :
  let userEmail :=
    {| reflect.Name := "UserEmail"; reflect.PkgPath := "";
       reflect.TypeKind := reflect.String; reflect.Tag := [] |} in
  let members :=
    [ {| reflect.Name := "ID"; reflect.PkgPath := "";
         reflect.TypeKind := reflect.Int; reflect.Tag := [] |};
      userEmail ] in
  golib.Contains (gostd.ToLower (rt := refusingRuntime) "UserEmail") "email" = true
  /\ types.Name (form.createFieldFromStructField (rt := refusingRuntime) userEmail)
     = "useremail"
  /\ types.FType (form.createFieldFromStructField (rt := refusingRuntime) userEmail)
     = types.FieldTypeEmail.
Proof.
  intros userEmail members.
  split; [ reflexivity | ].
  pose proof (C7_email_member_mapped (rt := refusingRuntime) "users" "Users"
                members userEmail) as Hmapped.
  simpl in Hmapped.
  destruct Hmapped as (Hname & Htype & _).
  - right. left. reflexivity.
  - reflexivity.
  - reflexivity.
  - intros key _. reflexivity.
  - reflexivity.
  - split; [ exact Hname | exact Htype ].
Defined.

(** ** The UI schema of a field *)

Section FieldUI.

Import golib types.

(** The loop over [field.Config] leaves each setting of the config under
    its key, over what the options held there, and the other options as
    they were. *)
Lemma assignAll_lookup (config options : gmap string value) (key : string) :
  schema.assignAll config options !! key
  = match config !! key with
    | Some v => Some v
    | None => options !! key
    end.
Proof.
  unfold schema.assignAll.
  apply (map_fold_weak_ind
           (fun (acc : gmap string value) (m : gmap string value) =>
              acc !! key = match m !! key with
                           | Some v => Some v
                           | None => options !! key
                           end)).
  - rewrite lookup_empty. reflexivity.
  - intros k v m acc Hfresh IH.
    destruct (decide (k = key)) as [ -> | Hne ].
    + rewrite !lookup_insert_eq. reflexivity.
    + rewrite !lookup_insert_ne by exact Hne. exact IH.
Qed.

Lemma widgetHints_options (field : Field) :
  schema.widgetHints field !! "ui:options" = None
  \/ schema.widgetHints field !! "ui:options" = Some (VMap (derivedOptions field)).
Proof.
  unfold derivedOptions.
  destruct (schema.widgetHints field !! "ui:options") as [ v | ] eqn:Hlookup;
    [ right | left; reflexivity ].
  revert Hlookup. unfold schema.widgetHints.
  repeat match goal with
         | |- context [if ?b then _ else _] => destruct b
         | |- context [match FTableConfig field with _ => _ end] =>
             destruct (FTableConfig field)
         end;
    intros Hlookup; simplify_map_eq; reflexivity.
Qed.

Lemma fieldHints_options (field : Field) (uiSchema : gmap string value) :
  schema.fieldHints field uiSchema !! "ui:options" = uiSchema !! "ui:options".
Proof.
  unfold schema.fieldHints.
  repeat match goal with
         | |- context [if ?b then _ else _] => destruct b
         end;
    simplify_map_eq; reflexivity.
Qed.

Lemma size_pos_nonempty (config : gmap string value) :
  config <> ∅ -> (0 <? size config)%nat = true.
Proof.
  intros Hne. apply Nat.ltb_lt.
  destruct (size config) eqn:Hsize; [ | lia ].
  apply map_size_empty_iff in Hsize. contradiction.
Qed.

(** C2, as amended.  For a field whose config is not empty, the hint of
    the field has an options map that holds every key of the config with
    the value the config gives it: where the projector derived an option
    under the same key, the value of the config replaces it.  The derived
    options under the other keys are kept. *)
Theorem C2_config_merged_into_options (field : Field) :
  Config field <> ∅ ->
  exists options,
    schema.generateFieldUISchema field !! "ui:options" = Some (VMap options)
    /\ (forall key v, Config field !! key = Some v -> options !! key = Some v)
    /\ (forall key, Config field !! key = None ->
                    options !! key = derivedOptions field !! key).
Proof.
  intros Hconfig. unfold schema.generateFieldUISchema, schema.mergeConfig.
  rewrite (size_pos_nonempty _ Hconfig), fieldHints_options.
  destruct (widgetHints_options field) as [ Hnone | Hsome ].
  - rewrite Hnone. exists (Config field). rewrite lookup_insert_eq.
    split; [ reflexivity | split; [ auto | ] ].
    intros key Hkey. unfold derivedOptions. rewrite Hnone, lookup_empty. exact Hkey.
  - rewrite Hsome. exists (schema.assignAll (Config field) (derivedOptions field)).
    rewrite lookup_insert_eq. split; [ reflexivity | split ].
    + intros key v Hkey. rewrite assignAll_lookup, Hkey. reflexivity.
    + intros key Hkey. rewrite assignAll_lookup, Hkey. reflexivity.
Qed.

End FieldUI.

(** C2 as stated fails on a textarea whose config sets [rows]: the
    projector derives [rows = 4], and the options of the hint hold the
    [rows = 10] of the config. *)
Lemma C2_counterexample :
  let field :=
    withConfig (spec.field "bio" types.FieldTypeTextarea [])
      (<["rows" := types.VInt 10]> ∅) in
  derivedOptions field !! "rows" = Some (types.VInt 4)
  /\ schema.generateFieldUISchema field !! "ui:options"
     = Some (types.VMap (<["rows" := types.VInt 10]> ∅)).
Proof.
  split; vm_compute; reflexivity.
Defined.

(** C2 at a select field with two options and a config that sets
    [searchable]. *)
Lemma C2_config_merged_into_options_witness :
  let field :=
    {| types.Name := "role"; types.FType := types.FieldTypeSelect;
       types.FLabel := "Role"; types.Required := false;
       types.Placeholder := ""; types.DefaultValue := types.VNil;
       types.Options :=
         [ {| types.Value := "admin"; types.Label := "Admin";
              types.Disabled := false |};
           {| types.Value := "user"; types.Label := "User";
              types.Disabled := false |} ];
       types.Multiple := false; types.Validation := []; types.Group := "";
       types.Description := ""; types.FDisabled := false;
       types.Config := <["searchable" := types.VBool true]> ∅;
       types.FTableConfig := None |} in
  types.Config field <> ∅
  /\ exists options,
      schema.generateFieldUISchema field !! "ui:options"
      = Some (types.VMap options)
      /\ options !! "searchable" = Some (types.VBool true)
      /\ options !! "enumOptions" = derivedOptions field !! "enumOptions".
Proof.
  intros field.
  assert (Hconfig : types.Config field <> ∅).
  { intros Hempty.
    assert (Hlookup : types.Config field !! "searchable" = Some (types.VBool true))
      by (vm_compute; reflexivity).
    rewrite Hempty, lookup_empty in Hlookup. discriminate Hlookup. }
  split; [ exact Hconfig | ].
  destruct (C2_config_merged_into_options field Hconfig)
    as (options & Hoptions & Hadded & Hkept).
  exists options. split; [ exact Hoptions | split ].
  - apply Hadded. vm_compute. reflexivity.
  - apply Hkept. vm_compute. reflexivity.
Defined.

(** ** The presentation schema *)

Section Projection.

Import golib types gostd.
Context {rt : GoRuntime}.

Lemma visible_true (field : Field) :
  visible field = true <-> FType field <> FieldTypeHidden.
Proof.
  unfold visible. rewrite negb_true_iff. apply String.eqb_neq.
Qed.

Lemma visible_false (field : Field) :
  visible field = false <-> FType field = FieldTypeHidden.
Proof.
  unfold visible. rewrite negb_false_iff. apply String.eqb_eq.
Qed.

Lemma projectRule_constraint (fieldSchema : gmap string value) (rule : ValidationRule) :
  schema.projectRule fieldSchema rule
  = match constraintOf rule with
    | Some (keyword, v) => <[keyword := v]> fieldSchema
    | None => fieldSchema
    end.
Proof.
  unfold schema.projectRule, constraintOf.
  destruct (String.eqb (Type_ rule) "min") eqn:Hmin.
  { destruct (RuleValue rule); try reflexivity.
    apply String.eqb_eq in Hmin. rewrite Hmin. reflexivity. }
  destruct (String.eqb (Type_ rule) "max") eqn:Hmax.
  { destruct (RuleValue rule); try reflexivity.
    apply String.eqb_eq in Hmax. rewrite Hmax. reflexivity. }
  destruct (String.eqb (Type_ rule) "minLength") eqn:HminLength.
  { destruct (RuleValue rule); try reflexivity.
    apply String.eqb_eq in HminLength. rewrite HminLength. reflexivity. }
  destruct (String.eqb (Type_ rule) "maxLength") eqn:HmaxLength.
  { destruct (RuleValue rule); try reflexivity.
    apply String.eqb_eq in HmaxLength. rewrite HmaxLength. reflexivity. }
  destruct (String.eqb (Type_ rule) "pattern"); destruct (RuleValue rule); reflexivity.
Qed.

(** The keyword that a rule writes is the one of its kind. *)
Lemma constraintOf_keyword (rule : ValidationRule) (keyword : string) (v : value) :
  constraintOf rule = Some (keyword, v) ->
  In (Type_ rule, keyword) spec.constraintKeywords.
Proof.
  unfold constraintOf, spec.constraintKeywords. simpl.
  destruct (RuleValue rule); try discriminate.
  - destruct (String.eqb_spec (Type_ rule) "pattern") as [ -> | _ ];
      [ intros [= <- _]; tauto | discriminate ].
  - destruct (String.eqb_spec (Type_ rule) "min") as [ -> | _ ];
      [ intros [= <- _]; tauto | ].
    destruct (String.eqb_spec (Type_ rule) "max") as [ -> | _ ];
      [ intros [= <- _]; tauto | ].
    destruct (String.eqb_spec (Type_ rule) "minLength") as [ -> | _ ];
      [ intros [= <- _]; tauto | ].
    destruct (String.eqb_spec (Type_ rule) "maxLength") as [ -> | _ ];
      [ intros [= <- _]; tauto | discriminate ].
Qed.

(** Each kind has one keyword and each keyword one kind. *)
Lemma constraintKeywords_functional (kind kind' keyword : string) :
  In (kind, keyword) spec.constraintKeywords ->
  In (kind', keyword) spec.constraintKeywords ->
  kind = kind'.
Proof.
  unfold spec.constraintKeywords. simpl.
  intros [ [= <- <-] | [ [= <- <-] | [ [= <- <-] | [ [= <- <-] | [ [= <- <-] | [] ] ] ] ] ];
    intros [ Heq | [ Heq | [ Heq | [ Heq | [ Heq | [] ] ] ] ] ];
    congruence.
Qed.

(** The rules that follow leave a keyword alone when none of them is of the
    kind of the keyword. *)
Lemma projectRules_untouched (rules : list ValidationRule)
  (fieldSchema : gmap string value) (kind keyword : string) :
  In (kind, keyword) spec.constraintKeywords ->
  (forall r, In r rules -> Type_ r <> kind) ->
  fold_left schema.projectRule rules fieldSchema !! keyword = fieldSchema !! keyword.
Proof.
  intros Hkeyword. revert fieldSchema.
  induction rules as [ | rule rules IH ]; intros fieldSchema Hrules; simpl;
    [ reflexivity | ].
  rewrite IH by (intros r Hr; apply Hrules; right; exact Hr).
  rewrite projectRule_constraint.
  destruct (constraintOf rule) as [ [ keyword' v ] | ] eqn:Hconstraint;
    [ | reflexivity ].
  apply lookup_insert_ne. intros ->.
  apply constraintOf_keyword in Hconstraint.
  apply (Hrules rule); [ left; reflexivity | ].
  exact (constraintKeywords_functional _ _ _ Hconstraint Hkeyword).
Qed.

(** The last rule of a kind decides the keyword of the kind. *)
Lemma projectRules_last (before after : list ValidationRule) (rule : ValidationRule)
  (fieldSchema : gmap string value) (keyword : string) (v : value) :
  constraintOf rule = Some (keyword, v) ->
  (forall r, In r after -> Type_ r <> Type_ rule) ->
  fold_left schema.projectRule (before ++ rule :: after)%list fieldSchema !! keyword
  = Some v.
Proof.
  intros Hconstraint Hafter.
  rewrite fold_left_app. simpl.
  rewrite (projectRules_untouched after _ (Type_ rule) keyword).
  - rewrite projectRule_constraint, Hconstraint. apply lookup_insert_eq.
  - exact (constraintOf_keyword _ _ _ Hconstraint).
  - exact Hafter.
Qed.

(** The schema of a field holds no constraint keyword before its rules are
    projected. *)
Lemma baseSchema_no_constraint (field : Field) (kind keyword : string) :
  In (kind, keyword) spec.constraintKeywords ->
  baseSchema field !! keyword = None.
Proof.
  unfold spec.constraintKeywords. simpl.
  assert (Htype : forall k,
             In k ["minimum"; "maximum"; "minLength"; "maxLength"; "pattern"] ->
             schema.typeSchema field !! k = None).
  { intros k Hk. unfold schema.typeSchema, schema.generateTableSchema.
    repeat match goal with
           | |- context [if ?b then _ else _] => destruct b
           | |- context [match FTableConfig field with _ => _ end] =>
               destruct (FTableConfig field)
           end;
      simpl in Hk;
      destruct Hk as [ <- | [ <- | [ <- | [ <- | [ <- | [] ] ] ] ] ];
      simplify_map_eq; reflexivity. }
  intros Hkeyword.
  assert (Hk : In keyword ["minimum"; "maximum"; "minLength"; "maxLength"; "pattern"]).
  { simpl. destruct Hkeyword as [ [= _ <-] | [ [= _ <-] | [ [= _ <-] | [ [= _ <-] | [ [= _ <-] | [] ] ] ] ] ]; tauto. }
  unfold baseSchema.
  destruct (DefaultValue field); try (apply Htype; exact Hk);
    (rewrite lookup_insert_ne;
     [ apply Htype; exact Hk
     | simpl in Hk; destruct Hk as [ <- | [ <- | [ <- | [ <- | [ <- | [] ] ] ] ] ];
       discriminate ]).
Qed.

Lemma generateFieldSchema_inl (field : Field) :
  schema.generateFieldSchema field
  = inl (fold_left schema.projectRule (Validation field) (baseSchema field)).
Proof.
  unfold schema.generateFieldSchema, baseSchema.
  destruct (DefaultValue field); reflexivity.
Qed.

(** [GenerateJSONSchema] does not fail. *)
Lemma schemaFields_inl (fields : list Field) (s : schema.JSONSchema) :
  schema.schemaFields fields s = inl (fold_left addFieldSchema fields s).
Proof.
  revert s. induction fields as [ | field fields IH ]; intros s;
    cbn [schema.schemaFields fold_left]; [ reflexivity | ].
  rewrite generateFieldSchema_inl. fold (fieldSchemaOf field).
  unfold addFieldSchema at 2, visible.
  destruct (String.eqb (FType field) FieldTypeHidden); cbn [negb]; [ apply IH | ].
  destruct (Required field); apply IH.
Qed.

Lemma addFieldSchema_Required (fields : list Field) (s : schema.JSONSchema) :
  schema.SRequired (fold_left addFieldSchema fields s)
  = (schema.SRequired s
     ++ List.map Name
          (List.filter (fun field => visible field && Required field) fields))%list.
Proof.
  revert s. induction fields as [ | field fields IH ]; intros s; simpl.
  - symmetry. apply app_nil_r.
  - rewrite IH. unfold addFieldSchema.
    destruct (visible field); simpl; [ | reflexivity ].
    destruct (Required field); simpl; [ | reflexivity ].
    rewrite <- app_assoc. reflexivity.
Qed.

Lemma addFieldSchema_Properties_other (fields : list Field) (s : schema.JSONSchema)
  (name : string) :
  (forall field, In field fields -> visible field = true -> Name field <> name) ->
  schema.Properties (fold_left addFieldSchema fields s) !! name
  = schema.Properties s !! name.
Proof.
  revert s. induction fields as [ | field fields IH ]; intros s Hother; simpl;
    [ reflexivity | ].
  rewrite IH by (intros f Hf; apply Hother; right; exact Hf).
  unfold addFieldSchema.
  destruct (visible field) eqn:Hvisible; [ | reflexivity ].
  assert (Hne : Name field <> name) by (apply Hother; [ left; reflexivity | exact Hvisible ]).
  destruct (Required field); simpl; apply lookup_insert_ne; exact Hne.
Qed.

Lemma NoDup_Name_inj (fields : list Field) (f g : Field) :
  List.NoDup (List.map Name fields) ->
  In f fields -> In g fields -> Name f = Name g -> f = g.
Proof.
  induction fields as [ | field fields IH ]; simpl; [ intros _ [] | ].
  intros Hnodup Hf Hg Hname.
  inversion Hnodup as [ | x l Hnotin Hnodup' ]; subst.
  destruct Hf as [ -> | Hf ], Hg as [ -> | Hg ].
  - reflexivity.
  - exfalso. apply Hnotin. rewrite Hname. apply in_map. exact Hg.
  - exfalso. apply Hnotin. rewrite <- Hname. apply in_map. exact Hf.
  - apply IH; assumption.
Qed.

Lemma addFieldSchema_Properties_field (fields : list Field) (s : schema.JSONSchema)
  (field : Field) :
  List.NoDup (List.map Name fields) ->
  In field fields -> visible field = true ->
  schema.Properties (fold_left addFieldSchema fields s) !! Name field
  = Some (VMap (fieldSchemaOf field)).
Proof.
  revert s. induction fields as [ | first fields IH ]; intros s Hnodup Hin Hvisible;
    simpl; [ destruct Hin | ].
  inversion Hnodup as [ | x l Hnotin Hnodup' ]; subst.
  destruct Hin as [ -> | Hin ]; [ | apply IH; assumption ].
  rewrite addFieldSchema_Properties_other.
  - unfold addFieldSchema. rewrite Hvisible.
    destruct (Required field); simpl; apply lookup_insert_eq.
  - intros g Hg _ Hname. apply Hnotin. rewrite <- Hname. apply in_map. exact Hg.
Qed.

Lemma fieldOrder_filter (fields : list Field) (order : list string) :
  schema.fieldOrder fields order
  = (order ++ List.map Name (List.filter visible fields))%list.
Proof.
  revert order. induction fields as [ | field fields IH ]; intros order; simpl.
  - symmetry. apply app_nil_r.
  - fold (visible field). destruct (visible field); simpl; rewrite IH.
    + rewrite <- app_assoc. reflexivity.
    + reflexivity.
Qed.

Lemma fieldsUI_other (fields : list Field) (uiSchema : gmap string value)
  (key : string) :
  (forall field, In field fields -> Name field <> key) ->
  schema.fieldsUI fields uiSchema !! key = uiSchema !! key.
Proof.
  revert uiSchema. induction fields as [ | field fields IH ]; intros uiSchema Hother;
    simpl; [ reflexivity | ].
  destruct (0 <? size (schema.generateFieldUISchema field))%nat;
    rewrite IH by (intros f Hf; apply Hother; right; exact Hf);
    [ | reflexivity ].
  apply lookup_insert_ne. apply Hother. left. reflexivity.
Qed.

Lemma fieldsUI_lookup (fields : list Field) (uiSchema : gmap string value)
  (key : string) (v : value) :
  schema.fieldsUI fields uiSchema !! key = Some v ->
  uiSchema !! key = Some v \/ exists hints, v = VMap hints.
Proof.
  revert uiSchema. induction fields as [ | field fields IH ]; intros uiSchema; simpl;
    [ auto | ].
  destruct (0 <? size (schema.generateFieldUISchema field))%nat; [ | apply IH ].
  intros Hlookup. apply IH in Hlookup as [ Hlookup | Hmap ]; [ | right; exact Hmap ].
  destruct (decide (Name field = key)) as [ <- | Hne ].
  - rewrite lookup_insert_eq in Hlookup. injection Hlookup as <-. right. eauto.
  - rewrite lookup_insert_ne in Hlookup by exact Hne. left. exact Hlookup.
Qed.

Lemma GenerateUISchema_order (form : Form) (order : list string) :
  schema.GenerateUISchema form !! "ui:order" = Some (VStrings order) ->
  order = List.map Name (List.filter visible (Fields form)).
Proof.
  unfold schema.GenerateUISchema.
  destruct (0 <? length (Groups form))%nat;
    [ rewrite lookup_insert_ne by discriminate | ];
    intros Hlookup; apply fieldsUI_lookup in Hlookup as [ Hlookup | [ hints Hmap ] ];
    try discriminate Hmap;
    rewrite lookup_insert_eq, fieldOrder_filter in Hlookup;
    injection Hlookup as <-; reflexivity.
Qed.

Lemma GenerateUISchema_order_present (form : Form) :
  (forall field, In field (Fields form) -> Name field <> "ui:order") ->
  schema.GenerateUISchema form !! "ui:order"
  = Some (VStrings (List.map Name (List.filter visible (Fields form)))).
Proof.
  intros Hnames. unfold schema.GenerateUISchema.
  destruct (0 <? length (Groups form))%nat;
    [ rewrite lookup_insert_ne by discriminate | ];
    rewrite fieldsUI_other by exact Hnames;
    rewrite lookup_insert_eq, fieldOrder_filter; reflexivity.
Qed.

Lemma GenerateJSONSchema_inl (form : Form) :
  exists s,
    schema.GenerateJSONSchema form = inl s
    /\ schema.SRequired s
       = List.map Name
           (List.filter (fun field => visible field && Required field) (Fields form))
    /\ (forall name,
           (forall field, In field (Fields form) -> visible field = true ->
                          Name field <> name) ->
           schema.Properties s !! name = None)
    /\ (forall field,
           List.NoDup (List.map Name (Fields form)) ->
           In field (Fields form) -> visible field = true ->
           schema.Properties s !! Name field = Some (VMap (fieldSchemaOf field))).
Proof.
  unfold schema.GenerateJSONSchema. rewrite schemaFields_inl.
  eexists. split; [ reflexivity | ]. split; [ | split ].
  - rewrite addFieldSchema_Required. reflexivity.
  - intros name Hother. rewrite addFieldSchema_Properties_other by exact Hother.
    apply lookup_empty.
  - intros field Hnodup Hin Hvisible.
    apply addFieldSchema_Properties_field; assumption.
Qed.

(** C3, as amended.  In a form whose fields have distinct names, the entry
    of a field that is not hidden holds, for each rule of the field that no
    rule of the same kind follows: [minimum] or [maximum] with the
    parameter of a [min] or [max] rule whose parameter is a float64;
    [minLength] or [maxLength] with the integer part of the parameter of a
    [minLength] or [maxLength] rule whose parameter is a float64; [pattern]
    with the parameter of a [pattern] rule whose parameter is a string.  A
    constraint keyword is absent from the entry when the field has no rule
    of the kind of the keyword: the rules of the other kinds, such as
    [email], add no constraint keyword. *)
Theorem C3_rules_projected_onto_keywords (form : Form) (field : Field) :
  List.NoDup (List.map Name (Fields form)) ->
  In field (Fields form) ->
  FType field <> FieldTypeHidden ->
  exists s fieldSchema,
    schema.GenerateJSONSchema form = inl s
    /\ schema.Properties s !! Name field = Some (VMap fieldSchema)
    /\ (forall before rule after,
           Validation field = (before ++ rule :: after)%list ->
           (forall r, In r after -> Type_ r <> Type_ rule) ->
           (forall num, Type_ rule = "min" -> RuleValue rule = VFloat64 num ->
                        fieldSchema !! "minimum" = Some (VFloat64 num))
           /\ (forall num, Type_ rule = "max" -> RuleValue rule = VFloat64 num ->
                           fieldSchema !! "maximum" = Some (VFloat64 num))
           /\ (forall num, Type_ rule = "minLength" -> RuleValue rule = VFloat64 num ->
                           fieldSchema !! "minLength" = Some (VInt (int_of_float64 num)))
           /\ (forall num, Type_ rule = "maxLength" -> RuleValue rule = VFloat64 num ->
                           fieldSchema !! "maxLength" = Some (VInt (int_of_float64 num)))
           /\ (forall pattern, Type_ rule = "pattern" ->
                               RuleValue rule = VString pattern ->
                               fieldSchema !! "pattern" = Some (VString pattern)))
    /\ (forall kind keyword,
           In (kind, keyword) spec.constraintKeywords ->
           (forall r, In r (Validation field) -> Type_ r <> kind) ->
           fieldSchema !! keyword = None).
Proof.
  intros Hnodup Hin Hvisible. apply visible_true in Hvisible.
  destruct (GenerateJSONSchema_inl form) as (s & Hs & _ & _ & Hfield).
  exists s, (fieldSchemaOf field).
  split; [ exact Hs | ].
  split; [ apply Hfield; assumption | ].
  split.
  - intros before rule after Hrules Hafter. unfold fieldSchemaOf. rewrite Hrules.
    assert (Hlast : forall keyword v,
               constraintOf rule = Some (keyword, v) ->
               fold_left schema.projectRule (before ++ rule :: after)%list
                 (baseSchema field) !! keyword = Some v).
    { intros keyword v Hconstraint. apply projectRules_last; assumption. }
    repeat split; intros x Hkind Hvalue; apply Hlast;
      unfold constraintOf; rewrite Hkind, Hvalue; reflexivity.
  - intros kind keyword Hkeyword Hrules. unfold fieldSchemaOf.
    rewrite (projectRules_untouched _ _ kind keyword Hkeyword Hrules).
    exact (baseSchema_no_constraint field kind keyword Hkeyword).
Qed.

(** C4.  The [required] list of the presentation schema is set-equal to
    the names of the fields that are required and not hidden.  In a form
    whose fields have distinct names, which the specification asks of
    every form, the name of a hidden field is neither a key of
    [properties], nor in [required], nor in the array under [ui:order] in
    the UI schema.  The same holds in any form for the name of a hidden
    field that no field other than hidden shares.  The array under
    [ui:order] is the list of the names of the fields that are not hidden,
    in the order of the form, when no field bears the name [ui:order]. *)
Theorem C4_required_and_hidden_fields (form : Form) :
  exists s,
    schema.GenerateJSONSchema form = inl s
    /\ (forall name,
           In name (schema.SRequired s)
           <-> exists field,
                 In field (Fields form) /\ Required field = true
                 /\ FType field <> FieldTypeHidden /\ Name field = name)
    /\ (List.NoDup (List.map Name (Fields form)) ->
        forall field,
          In field (Fields form) -> FType field = FieldTypeHidden ->
          schema.Properties s !! Name field = None
          /\ ~ In (Name field) (schema.SRequired s)
          /\ forall order,
              schema.GenerateUISchema form !! "ui:order" = Some (VStrings order) ->
              ~ In (Name field) order)
    /\ (forall field,
           In field (Fields form) -> FType field = FieldTypeHidden ->
           (forall g, In g (Fields form) -> Name g = Name field ->
                      FType g = FieldTypeHidden) ->
           schema.Properties s !! Name field = None
           /\ ~ In (Name field) (schema.SRequired s)
           /\ forall order,
               schema.GenerateUISchema form !! "ui:order" = Some (VStrings order) ->
               ~ In (Name field) order)
    /\ ((forall field, In field (Fields form) -> Name field <> "ui:order") ->
        schema.GenerateUISchema form !! "ui:order"
        = Some (VStrings (List.map Name (List.filter visible (Fields form))))).
Proof.
  destruct (GenerateJSONSchema_inl form) as (s & Hs & Hrequired & Hother & _).
  exists s. split; [ exact Hs | ].
  assert (Hreq : forall name,
             In name (schema.SRequired s)
             <-> exists field,
                   In field (Fields form) /\ Required field = true
                   /\ FType field <> FieldTypeHidden /\ Name field = name).
  { intros name. rewrite Hrequired, in_map_iff. split.
    - intros (field & Hname & Hfield). apply List.filter_In in Hfield as [ Hin Hboth ].
      apply andb_true_iff in Hboth as [ Hvisible Hreq ].
      exists field. repeat split; try assumption. apply visible_true. exact Hvisible.
    - intros (field & Hin & Hreq & Hvisible & Hname).
      exists field. split; [ exact Hname | ].
      apply List.filter_In. split; [ exact Hin | ].
      apply andb_true_iff. split; [ apply visible_true; exact Hvisible | exact Hreq ]. }
  split; [ exact Hreq | ].
  assert (Habsent : forall field,
             In field (Fields form) -> FType field = FieldTypeHidden ->
             (forall g, In g (Fields form) -> Name g = Name field ->
                        FType g = FieldTypeHidden) ->
             schema.Properties s !! Name field = None
             /\ ~ In (Name field) (schema.SRequired s)
             /\ forall order,
                 schema.GenerateUISchema form !! "ui:order" = Some (VStrings order) ->
                 ~ In (Name field) order).
  { intros field Hin Htype Hshared.
    assert (Hhidden : forall g, In g (Fields form) -> visible g = true ->
                                Name g <> Name field).
    { intros g Hg Hvisible Hname. apply visible_true in Hvisible.
      apply Hvisible. apply Hshared; assumption. }
    split; [ | split ].
    + apply Hother. exact Hhidden.
    + rewrite Hreq. intros (g & Hg & _ & Hvisible & Hname).
      apply (Hhidden g); try assumption. apply visible_true. exact Hvisible.
    + intros order Horder. apply GenerateUISchema_order in Horder. subst order.
      rewrite in_map_iff. intros (g & Hname & Hg).
      apply List.filter_In in Hg as [ Hg Hvisible ].
      apply (Hhidden g); assumption. }
  split; [ | split; [ exact Habsent | ] ].
  - intros Hnodup field Hin Htype. apply Habsent; [ exact Hin | exact Htype | ].
    intros g Hg Hname.
    assert (Heq : g = field) by (apply (NoDup_Name_inj (Fields form)); assumption).
    subst g. exact Htype.
  - apply GenerateUISchema_order_present.
Qed.

End Projection.

(** C3 as stated fails on a field with two [pattern] rules: the entry of
    the field carries the parameter of the second rule under [pattern], not
    the one of the first. *)
Lemma C3_counterexample :
  let first := spec.rule "pattern" (types.VString "^a") "" in
  let second := spec.rule "pattern" (types.VString "b$") "" in
  let field := spec.field "code" types.FieldTypeText [first; second] in
  keywordOf (rt := refusingRuntime) (formOf "codes" [field]) "code" "pattern"
  = Some (types.VString "b$")
  /\ Some (types.VString "b$") <> Some (types.RuleValue first).
Proof.
  split; [ vm_compute; reflexivity | discriminate ].
Defined.

(** C3 at a number field with the rules min(0), max(120) and an [email]
    rule. *)
Lemma C3_rules_projected_onto_keywords_witness :
  let zero := types.VFloat64 (golib.float64_of_int 0) in
  let bound := types.VFloat64 (golib.float64_of_int 120) in
  let age :=
    spec.field "age" types.FieldTypeNumber
      [spec.rule "min" zero ""; spec.rule "max" bound ""; spec.rule "email" types.VNil ""] in
  let form := formOf "profile" [spec.field "name" types.FieldTypeText []; age] in
  List.NoDup (List.map types.Name (types.Fields form))
  /\ In age (types.Fields form)
  /\ types.FType age <> types.FieldTypeHidden
  /\ exists s fieldSchema,
      schema.GenerateJSONSchema (rt := refusingRuntime) form = inl s
      /\ schema.Properties s !! "age" = Some (types.VMap fieldSchema)
      /\ fieldSchema !! "maximum" = Some bound
      /\ fieldSchema !! "pattern" = None.
Proof.
  intros zero bound age form.
  assert (Hnodup : List.NoDup (List.map types.Name (types.Fields form))).
  { simpl. constructor; [ simpl; intros [ Heq | [] ]; discriminate Heq | ].
    constructor; [ intros [] | constructor ]. }
  assert (Hin : In age (types.Fields form)) by (right; left; reflexivity).
  assert (Hvisible : types.FType age <> types.FieldTypeHidden) by discriminate.
  split; [ exact Hnodup | split; [ exact Hin | split; [ exact Hvisible | ] ] ].
  destruct (C3_rules_projected_onto_keywords (rt := refusingRuntime)
              form age Hnodup Hin Hvisible)
    as (s & fieldSchema & Hs & Hentry & Hlast & Habsent).
  exists s, fieldSchema.
  split; [ exact Hs | split; [ exact Hentry | split ] ].
  - destruct (Hlast [spec.rule "min" zero ""] (spec.rule "max" bound "")
                [spec.rule "email" types.VNil ""]) as (_ & Hmax & _).
    + reflexivity.
    + intros r [ <- | [] ]. discriminate.
    + apply Hmax; reflexivity.
  - apply (Habsent "pattern" "pattern").
    + simpl. tauto.
    + intros r [ <- | [ <- | [ <- | [] ] ] ]; discriminate.
Defined.

(** C4 at a form with a hidden required field, a required field and an
    optional one. *)
Lemma C4_required_and_hidden_fields_witness :
  let id := required (spec.field "id" types.FieldTypeHidden []) in
  let name := required (spec.field "name" types.FieldTypeText []) in
  let note := spec.field "note" types.FieldTypeTextarea [] in
  let form := formOf "profile" [id; name; note] in
  List.NoDup (List.map types.Name (types.Fields form))
  /\ exists s,
      schema.GenerateJSONSchema (rt := refusingRuntime) form = inl s
      /\ (In "name" (schema.SRequired s))
      /\ schema.Properties s !! "id" = None
      /\ ~ In "id" (schema.SRequired s)
      /\ schema.GenerateUISchema form !! "ui:order"
         = Some (types.VStrings ["name"; "note"]).
Proof.
  intros id name note form.
  assert (Hnodup : List.NoDup (List.map types.Name (types.Fields form))).
  { simpl. constructor; [ simpl; intros [ Heq | [ Heq | [] ] ]; discriminate Heq | ].
    constructor; [ simpl; intros [ Heq | [] ]; discriminate Heq | ].
    constructor; [ intros [] | constructor ]. }
  split; [ exact Hnodup | ].
  destruct (C4_required_and_hidden_fields (rt := refusingRuntime) form)
    as (s & Hs & Hrequired & Hhidden & _ & Horder).
  exists s. split; [ exact Hs | ].
  assert (Hid : In id (types.Fields form)) by (left; reflexivity).
  destruct (Hhidden Hnodup id Hid eq_refl) as (Hproperties & Hnotrequired & _).
  split; [ | split; [ exact Hproperties | split; [ exact Hnotrequired | ] ] ].
  - apply Hrequired. exists name. repeat split.
    + right. left. reflexivity.
    + discriminate.
  - apply Horder. intros field [ <- | [ <- | [ <- | [] ] ] ]; discriminate.
Defined.

(** C8 at an empty router and two forms named [users]. *)
Lemma C8_duplicate_registration_replaces_witness :
  let first :=
    {| types.FormName := "users"; types.FormTitle := "Users";
       types.FormDescription := ""; types.Fields := []; types.Groups := [];
       types.OnPost := None; types.OnGet := None |} in
  let second :=
    {| types.FormName := "users"; types.FormTitle := "Accounts";
       types.FormDescription := ""; types.Fields := []; types.Groups := [];
       types.OnPost := None; types.OnGet := None |} in
  let r2 := router.RegisterForm (router.RegisterForm router.NewRouter first) second in
  types.FormName first = types.FormName second
  /\ router.forms r2 !! "users" = Some second
  /\ router.formsMap r2 !! "users" = Some "Accounts".
Proof.
  intros first second r2.
  split; [ reflexivity | ].
  destruct (C8_duplicate_registration_replaces router.NewRouter first second eq_refl)
    as (Hlookup & _ & Htitle & _).
  split; [ exact Hlookup | exact Htitle ].
Defined.

(** C9 at a store whose [SaveRoute] fails: the store is called, its error
    goes nowhere, and the form is registered. *)
Lemma C9_registration_ignores_store_witness :
  let a := formist.WithStorage (formist.New nat) failingStore in
  let users := formOf "users" [] in
  let result := formist.RegisterForm a users 0 in
  result.2 = 1
  /\ router.forms (formist.router result.1) !! "users" = Some users
  /\ formist.storage result.1 = Some failingStore.
Proof.
  intros a users result.
  split; [ reflexivity | ].
  destruct (C9_registration_ignores_store nat a users
              {| types.PageName := "home"; types.PageTitle := "Home";
                 types.Content := ""; types.Handler := None |} 0)
    as ((_ & Hforms & Hstorage) & _).
  split; [ exact Hforms | exact Hstorage ].
Defined.

(** ** Further properties: the validation of a payload *)

Section PayloadValidation.

Import golib types gostd.
Context {rt : GoRuntime}.

Lemma router_applyRules_None (field : Field) (v : value) (rules : list ValidationRule) :
  router.applyRules field v rules = None
  <-> forall rule, In rule rules -> router.validateRule v rule = None.
Proof.
  induction rules as [ | rule rules IH ]; simpl.
  - split; [ intros _ r [] | reflexivity ].
  - destruct (router.validateRule v rule) as [ err | ] eqn:Hrule.
    + split; [ discriminate | ].
      intros Hall. rewrite (Hall rule) in Hrule by (left; reflexivity).
      discriminate Hrule.
    + rewrite IH. split.
      * intros Hrest r [ <- | Hin ]; [ exact Hrule | apply Hrest; exact Hin ].
      * intros Hall r Hin. apply Hall. right. exact Hin.
Qed.

Lemma router_applyRules_Some (field : Field) (v : value) (rules : list ValidationRule)
  (err : error) :
  router.applyRules field v rules = Some err ->
  exists passed failing rest inner,
    rules = (passed ++ failing :: rest)%list
    /\ (forall r, In r passed -> router.validateRule v r = None)
    /\ router.validateRule v failing = Some inner
    /\ err = ruleError field inner.
Proof.
  induction rules as [ | rule rules IH ]; simpl; [ discriminate | ].
  destruct (router.validateRule v rule) as [ inner | ] eqn:Hrule.
  - intros [= <-]. exists [], rule, rules, inner.
    repeat split; [ intros r [] | exact Hrule ].
  - intros Hrest. apply IH in Hrest as (passed & failing & rest & inner & -> & Hp & Hf & ->).
    exists (rule :: passed), failing, rest, inner.
    repeat split; [ | exact Hf ].
    intros r [ <- | Hin ]; [ exact Hrule | apply Hp; exact Hin ].
Qed.

(** One turn of the loop of [validateFormData]. *)
Lemma validateFields_cons (field : Field) (fields : list Field)
  (data : gmap string value) :
  router.validateFields (field :: fields) data
  = if Required field && missing data field then Some (requiredError field)
    else if missing data field then router.validateFields fields data
    else match router.applyRules field (submitted data field) (Validation field) with
         | Some err => Some err
         | None => router.validateFields fields data
         end.
Proof. reflexivity. Qed.

Lemma fieldAccepted_dec (data : gmap string value) (field : Field) :
  fieldAccepted data field
  <-> (Required field && missing data field = false)
      /\ (missing data field = false ->
          router.applyRules field (submitted data field) (Validation field) = None).
Proof.
  unfold fieldAccepted. destruct (missing data field).
  - rewrite andb_true_r. split; [ intros ->; split; [ reflexivity | discriminate ] | ].
    intros [ Hreq _ ]. exact Hreq.
  - rewrite andb_false_r. split.
    + intros Hrules. split; [ reflexivity | ].
      intros _. apply router_applyRules_None. exact Hrules.
    + intros [ _ Hrules ]. apply (router_applyRules_None field). apply Hrules.
      reflexivity.
Qed.

Lemma validateFormData_None (form : Form) (data : gmap string value) :
  router.validateFormData form data = None
  <-> forall field, In field (Fields form) -> fieldAccepted data field.
Proof.
  unfold router.validateFormData.
  induction (Fields form) as [ | field fields IH ].
  - split; [ intros _ f [] | reflexivity ].
  - rewrite validateFields_cons. split.
    + intros Hnone f [ <- | Hin ].
      * apply fieldAccepted_dec.
        destruct (Required field && missing data field); [ discriminate | ].
        split; [ reflexivity | ]. intros Hmissing. rewrite Hmissing in Hnone.
        destruct (router.applyRules _ _ _); [ discriminate | reflexivity ].
      * apply IH; [ | exact Hin ].
        destruct (Required field && missing data field); [ discriminate | ].
        destruct (missing data field); [ exact Hnone | ].
        destruct (router.applyRules _ _ _); [ discriminate | exact Hnone ].
    + intros Hall.
      assert (Hfield : fieldAccepted data field) by (apply Hall; left; reflexivity).
      apply fieldAccepted_dec in Hfield as [ Hreq Hrules ].
      rewrite Hreq.
      assert (Hrest : router.validateFields fields data = None).
      { apply IH. intros f Hin. apply Hall. right. exact Hin. }
      destruct (missing data field); [ exact Hrest | ].
      rewrite Hrules by reflexivity. exact Hrest.
Qed.

(** X1.  A payload passes [validateFormData] exactly when every field of
    the form passes: a field whose key is absent or whose value is empty
    must not be required, and its rules are not looked at; every rule of a
    field that has a value must accept the value. *)
Theorem X1_payload_accepted_iff (form : Form) (data : gmap string value) :
  router.validateFormData form data = None
  <-> forall field, In field (Fields form) -> fieldAccepted data field.
Proof. apply validateFormData_None. Qed.

(** X2.  The error of [validateFormData] is the one of the first field, in
    the order of the form, that does not pass.  It names the label of that
    field: for a required field without a value it is the required error,
    otherwise it wraps the error of the first rule of the field that
    rejects the value. *)
Theorem X2_payload_error_first_field (form : Form) (data : gmap string value)
  (err : error) :
  router.validateFormData form data = Some err ->
  exists before field after,
    Fields form = (before ++ field :: after)%list
    /\ (forall f, In f before -> fieldAccepted data f)
    /\ ((Required field = true /\ missing data field = true
         /\ err = requiredError field)
        \/ (missing data field = false
            /\ exists passed failing rest inner,
                 Validation field = (passed ++ failing :: rest)%list
                 /\ (forall r, In r passed ->
                                router.validateRule (submitted data field) r = None)
                 /\ router.validateRule (submitted data field) failing = Some inner
                 /\ err = ruleError field inner)).
Proof.
  unfold router.validateFormData.
  induction (Fields form) as [ | field fields IH ]; [ discriminate | ].
  rewrite validateFields_cons.
  assert (Hnext : router.validateFields fields data = Some err ->
                  fieldAccepted data field ->
                  exists before f after,
                    (field :: fields) = (before ++ f :: after)%list
                    /\ (forall g, In g before -> fieldAccepted data g)
                    /\ ((Required f = true /\ missing data f = true
                         /\ err = requiredError f)
                        \/ (missing data f = false
                            /\ exists passed failing rest inner,
                                 Validation f = (passed ++ failing :: rest)%list
                                 /\ (forall r, In r passed ->
                                        router.validateRule (submitted data f) r = None)
                                 /\ router.validateRule (submitted data f) failing
                                    = Some inner
                                 /\ err = ruleError f inner))).
  { intros Hrest Hfield.
    apply IH in Hrest as (before & f & after & -> & Hbefore & Hf).
    exists (field :: before), f, after. split; [ reflexivity | ].
    split; [ | exact Hf ].
    intros g [ <- | Hg ]; [ exact Hfield | apply Hbefore; exact Hg ]. }
  destruct (Required field) eqn:Hreq, (missing data field) eqn:Hmissing; simpl.
  - intros [= <-]. exists [], field, fields.
    split; [ reflexivity | split; [ intros f [] | left; auto ] ].
  - destruct (router.applyRules field (submitted data field) (Validation field))
      as [ e | ] eqn:Hrules.
    + intros [= ->]. exists [], field, fields.
      split; [ reflexivity | split; [ intros f [] | right ] ].
      split; [ exact Hmissing | ]. apply router_applyRules_Some. exact Hrules.
    + intros Hrest. apply Hnext; [ exact Hrest | ].
      apply fieldAccepted_dec. rewrite Hmissing, andb_false_r. auto.
  - intros Hrest. apply Hnext; [ exact Hrest | ].
    apply fieldAccepted_dec. rewrite Hreq. split; [ reflexivity | ].
    rewrite Hmissing. discriminate.
  - destruct (router.applyRules field (submitted data field) (Validation field))
      as [ e | ] eqn:Hrules.
    + intros [= ->]. exists [], field, fields.
      split; [ reflexivity | split; [ intros f [] | right ] ].
      split; [ exact Hmissing | ]. apply router_applyRules_Some. exact Hrules.
    + intros Hrest. apply Hnext; [ exact Hrest | ].
      apply fieldAccepted_dec. rewrite Hmissing, Hreq. auto.
Qed.

(** X3.  [validateFormData] reads the payload under the names of the
    fields of the form only: two payloads that agree on these names have
    the same result, so that keys that name no field are ignored. *)
Theorem X3_payload_other_keys_ignored (form : Form) (data data' : gmap string value) :
  (forall field, In field (Fields form) -> data !! Name field = data' !! Name field) ->
  router.validateFormData form data = router.validateFormData form data'.
Proof.
  unfold router.validateFormData.
  induction (Fields form) as [ | field fields IH ]; intros Hagree; [ reflexivity | ].
  rewrite !validateFields_cons. unfold missing, submitted.
  rewrite <- (Hagree field) by (left; reflexivity).
  rewrite IH by (intros f Hf; apply Hagree; right; exact Hf).
  reflexivity.
Qed.

(** X4.  A payload each of whose fields passes the standalone validation
    [ValidateField], on its value or on nil when the key is absent, passes
    [validateFormData]. *)
Theorem X4_standalone_accepts_payload_accepts (form : Form)
  (data : gmap string value) :
  (forall field, In field (Fields form) ->
                 form.ValidateField field (submitted data field) = None) ->
  router.validateFormData form data = None.
Proof.
  intros Hall. apply validateFormData_None. intros field Hin.
  specialize (Hall field Hin). unfold form.ValidateField in Hall.
  assert (Hmissing : missing data field = form.isEmpty (submitted data field)).
  { unfold missing, submitted. destruct (data !! Name field); reflexivity. }
  unfold fieldAccepted. rewrite Hmissing.
  destruct (form.isEmpty (submitted data field)).
  - rewrite andb_true_r in Hall. destruct (Required field); [ discriminate | reflexivity ].
  - rewrite andb_false_r in Hall. intros rule Hrule.
    apply router_accepts_what_form_accepts.
    apply (proj1 (applyRules_None _ _) Hall). exact Hrule.
Qed.

End PayloadValidation.

Section NotANumber.

Import golib types gostd.
Context {rt : GoRuntime}.

Lemma float64_lt_nan_l (b : float64) : float64_lt SpecFloat.S754_nan b = false.
Proof. destruct b; reflexivity. Qed.

Lemma float64_lt_nan_r (a : float64) : float64_lt a SpecFloat.S754_nan = false.
Proof. destruct a as [ | | | [ | ] ? ? ]; reflexivity. Qed.

(** X5.  A value that coerces to NaN passes every [min] and every [max]
    rule whose bound coerces to a number, and a bound that coerces to NaN
    lets every number pass, in both evaluators: the comparisons [num < min]
    and [num > max] are false on NaN. *)
Theorem X5_nan_passes_min_and_max (v bound : value) (message : string)
  (a b : float64) :
  form.toFloat64 v = inl a -> form.toFloat64 bound = inl b ->
  a = SpecFloat.S754_nan \/ b = SpecFloat.S754_nan ->
  form.validateMin v bound message = None
  /\ form.validateMax v bound message = None
  /\ router.validateMin v bound message = None
  /\ router.validateMax v bound message = None.
Proof.
  intros Hv Hbound Hnan.
  unfold form.validateMin, form.validateMax, router.validateMin, router.validateMax.
  change (@router.toFloat64 rt) with (@form.toFloat64 rt).
  rewrite Hv, Hbound.
  destruct Hnan as [ -> | -> ];
    rewrite ?float64_lt_nan_l, ?float64_lt_nan_r; repeat split; reflexivity.
Qed.

End NotANumber.

(** X2 at a form with a required field and the empty payload. *)
Lemma X2_payload_error_first_field_witness :
  let name := required (spec.field "name" types.FieldTypeText []) in
  let form := formOf "profile" [spec.field "note" types.FieldTypeText []; name] in
  router.validateFormData (rt := refusingRuntime) form ∅ = Some (requiredError name)
  /\ exists before field after,
      types.Fields form = (before ++ field :: after)%list
      /\ (forall f, In f before -> fieldAccepted (rt := refusingRuntime) ∅ f).
Proof.
  intros name form.
  assert (Herr : router.validateFormData (rt := refusingRuntime) form ∅
                 = Some (requiredError name)) by reflexivity.
  split; [ exact Herr | ].
  destruct (X2_payload_error_first_field (rt := refusingRuntime) form ∅ _ Herr)
    as (before & field & after & Hfields & Hbefore & _).
  exists before, field, after. split; [ exact Hfields | exact Hbefore ].
Defined.

(** X3 at a payload with a key that names no field. *)
Lemma X3_payload_other_keys_ignored_witness :
  let form := formOf "profile" [required (spec.field "name" types.FieldTypeText [])] in
  let data : gmap string types.value := <["name" := types.VString "Ann"]> ∅ in
  let data' : gmap string types.value :=
    <["admin" := types.VBool true]> (<["name" := types.VString "Ann"]> ∅) in
  (forall field, In field (types.Fields form) ->
                 data !! types.Name field = data' !! types.Name field)
  /\ router.validateFormData (rt := refusingRuntime) form data
     = router.validateFormData (rt := refusingRuntime) form data'.
Proof.
  intros form data data'.
  assert (Hagree : forall field, In field (types.Fields form) ->
                     data !! types.Name field = data' !! types.Name field).
  { intros field [ <- | [] ]. vm_compute. reflexivity. }
  split; [ exact Hagree | ].
  exact (X3_payload_other_keys_ignored (rt := refusingRuntime) form data data' Hagree).
Defined.

(** X4 at a form with an email field and a payload with an address. *)
Lemma X4_standalone_accepts_payload_accepts_witness :
  let email :=
    required (spec.field "email" types.FieldTypeEmail [spec.rule "email" types.VNil ""]) in
  let form := formOf "profile" [email] in
  let data : gmap string types.value := <["email" := types.VString "ann@example.org"]> ∅ in
  form.ValidateField (rt := refusingRuntime) email (submitted data email) = None
  /\ router.validateFormData (rt := refusingRuntime) form data = None.
Proof.
  intros email form data.
  assert (Hfield : form.ValidateField (rt := refusingRuntime) email
                     (submitted data email) = None) by (vm_compute; reflexivity).
  split; [ exact Hfield | ].
  apply (X4_standalone_accepts_payload_accepts (rt := refusingRuntime) form data).
  intros field [ <- | [] ]. exact Hfield.
Defined.

(** X5 at the value NaN and the bound 0. *)
Lemma X5_nan_passes_min_and_max_witness :
  form.toFloat64 (rt := refusingRuntime) (types.VFloat64 SpecFloat.S754_nan)
  = inl SpecFloat.S754_nan
  /\ form.validateMin (rt := refusingRuntime) (types.VFloat64 SpecFloat.S754_nan)
       (types.VInt 0) "" = None
  /\ router.validateMax (rt := refusingRuntime) (types.VFloat64 SpecFloat.S754_nan)
       (types.VInt 0) "" = None.
Proof.
  split; [ reflexivity | ].
  destruct (X5_nan_passes_min_and_max (rt := refusingRuntime)
              (types.VFloat64 SpecFloat.S754_nan) (types.VInt 0) ""
              SpecFloat.S754_nan (golib.float64_of_int 0) eq_refl eq_refl
              (or_introl eq_refl))
    as (Hmin & _ & _ & Hmax).
  split; [ exact Hmin | exact Hmax ].
Defined.

(** ** Further properties: the struct mapper and the builders *)

Section MapperAndBuilders.

Import golib types gostd.
Context {rt : GoRuntime}.

(** X6.  [FromStruct] on a type that is neither a struct nor a pointer to
    a struct gives the empty form with the name and the title it was
    given; a pointer to a pointer to a struct is such a type, since one
    pointer only is followed. *)
Theorem X6_FromStruct_not_a_struct (name title : string) (t : reflect.rtype) :
  (forall members, t <> reflect.StructOf members) ->
  (forall members, t <> reflect.PointerTo (reflect.StructOf members)) ->
  form.FromStruct name title t = form.NewForm name title.
Proof.
  intros Hstruct Hpointer. unfold form.FromStruct.
  destruct t as [ members | [ members | elem | k ] | k ]; try reflexivity.
  - exfalso. apply (Hstruct members). reflexivity.
  - exfalso. apply (Hpointer members). reflexivity.
Qed.

(** X7.  The form that [FromStruct] builds from a struct, or from a
    pointer to it, has the name and the title given, no group, and one
    field for each exported member whose field has a name, in the order of
    the members; an unexported member gives no field. *)
Theorem X7_FromStruct_fields (name title : string)
  (members : list reflect.StructField) :
  let f := form.form (form.FromStruct name title (reflect.StructOf members)) in
  FormName f = name /\ FormTitle f = title /\ Groups f = []
  /\ Fields f = List.map form.createFieldFromStructField (List.filter mapped members)
  /\ (forall field, In field (Fields f) ->
         exists member, In member members /\ reflect.IsExported member = true
                        /\ field = form.createFieldFromStructField member
                        /\ Name field <> "")
  /\ form.FromStruct name title (reflect.PointerTo (reflect.StructOf members))
     = form.FromStruct name title (reflect.StructOf members).
Proof.
  intros f. subst f. unfold form.FromStruct.
  assert (Hkept : forall fb,
             FormName (form.form (form.addStructFields fb members))
             = FormName (form.form fb)
             /\ FormTitle (form.form (form.addStructFields fb members))
                = FormTitle (form.form fb)
             /\ Groups (form.form (form.addStructFields fb members))
                = Groups (form.form fb)).
  { induction members as [ | member members IH ]; intros fb; simpl;
      [ repeat split | ].
    destruct (negb (reflect.IsExported member)); [ apply IH | ].
    destruct (negb (String.eqb (Name (form.createFieldFromStructField member)) ""));
      [ | apply IH ].
    destruct (IH (form.AddField fb (form.createFieldFromStructField member)))
      as (Hn & Ht & Hg).
    rewrite Hn, Ht, Hg. repeat split. }
  destruct (Hkept (form.NewForm name title)) as (Hn & Ht & Hg).
  split; [ exact Hn | split; [ exact Ht | split; [ exact Hg | ] ] ].
  rewrite addStructFields_Fields. simpl.
  split; [ reflexivity | split; [ | reflexivity ] ].
  intros field Hin. apply in_map_iff in Hin as (member & <- & Hmember).
  apply List.filter_In in Hmember as [ Hmember Hmapped ].
  unfold mapped in Hmapped. apply andb_true_iff in Hmapped as [ Hexported Hnamed ].
  exists member. repeat split; try assumption.
  apply negb_true_iff, String.eqb_neq in Hnamed. exact Hnamed.
Qed.

(** X8.  The field of a member carries the default email rule exactly when
    its type is email, whether the type comes from the [type] tag or from
    the name of a string member, and no other rule; a [type] tag of
    [email] gives the type email on a member of any Go type. *)
Theorem X8_email_rule_iff_email_type (member : reflect.StructField) :
  let field := form.createFieldFromStructField member in
  FType field = form.getFieldType member
  /\ Validation field
     = (if String.eqb (FType field) FieldTypeEmail then [defaultEmailRule] else [])
  /\ (reflect.Get (reflect.Tag member) "type" = "email" ->
      FType field = FieldTypeEmail /\ Validation field = [defaultEmailRule]).
Proof.
  intros field. subst field.
  assert (Htype : FType (form.createFieldFromStructField member)
                  = form.getFieldType member) by apply createField_FType.
  assert (Hrules : Validation (form.createFieldFromStructField member)
                   = if String.eqb (form.getFieldType member) FieldTypeEmail
                     then [defaultEmailRule] else []).
  { unfold form.createFieldFromStructField. simpl.
    destruct (String.eqb (form.getFieldType member) FieldTypeEmail); reflexivity. }
  split; [ exact Htype | ]. rewrite Htype. split; [ exact Hrules | ].
  intros Htag. rewrite Hrules. unfold form.getFieldType. rewrite Htag.
  split; reflexivity.
Qed.

(** X9.  A [type] tag whose value is none of the eleven that
    [getFieldType] knows (for example [text] or [table], or no tag) does
    not decide the type: the type is the one inferred from the Go type and
    the name of the member. *)
Theorem X9_unknown_type_tag_ignored (member : reflect.StructField) :
  ~ In (reflect.Get (reflect.Tag member) "type") typeTags ->
  form.getFieldType member = form.typeOfKind member.
Proof.
  intros Htag. unfold form.getFieldType, form.typeOfTag.
  assert (Hne : forall t, In t typeTags ->
                  String.eqb (reflect.Get (reflect.Tag member) "type") t = false).
  { intros t Ht. apply String.eqb_neq. intros Heq. apply Htag. rewrite Heq. exact Ht. }
  rewrite !Hne by (unfold typeTags; simpl; tauto). reflexivity.
Qed.

(** X10.  Fields added one after the other with [AddField] are the fields
    of the form that [Build] returns, after the ones that the builder had,
    in the order of the calls; the name, the title, the description, the
    groups and the handlers of the form are as they were. *)
Theorem X10_AddField_keeps_order (fb : form.FormBuilder) (fields : list Field) :
  let f := builder.Build (fold_left form.AddField fields fb) in
  Fields f = (Fields (form.form fb) ++ fields)%list
  /\ FormName f = FormName (form.form fb)
  /\ FormTitle f = FormTitle (form.form fb)
  /\ FormDescription f = FormDescription (form.form fb)
  /\ Groups f = Groups (form.form fb)
  /\ OnPost f = OnPost (form.form fb) /\ OnGet f = OnGet (form.form fb).
Proof.
  unfold builder.Build. revert fb.
  induction fields as [ | field fields IH ]; intros fb; simpl.
  - rewrite app_nil_r. repeat split.
  - destruct (IH (form.AddField fb field)) as (Hf & Hn & Ht & Hd & Hg & Hp & Hget).
    rewrite Hf, Hn, Ht, Hd, Hg, Hp, Hget. simpl. rewrite <- app_assoc.
    repeat split.
Qed.

(** X11.  The field that [AddEmailField] appends has the name given, and
    the standalone validation accepts a value for it exactly when the
    value is empty or is a string that matches the pattern of
    [validateEmail]. *)
Theorem X11_AddEmailField_validation (fb : form.FormBuilder) (name label : string)
  (v : value) :
  exists field,
    Fields (form.form (builder.AddEmailField fb name label))
    = (Fields (form.form fb) ++ [field])%list
    /\ Name field = name /\ FType field = FieldTypeEmail
    /\ (form.ValidateField field v = None
        <-> form.isEmpty v = true
            \/ exists s, v = VString s /\ MatchString form.emailRegex s = true).
Proof.
  eexists. split; [ reflexivity | ]. split; [ reflexivity | ].
  split; [ reflexivity | ].
  unfold form.ValidateField. simpl.
  destruct (form.isEmpty v) eqn:Hempty; [ tauto | ].
  unfold form.validateRule, form.validateEmail. simpl.
  destruct v; simpl;
    try (split; [ discriminate | intros [ Hf | (s' & Hs & _) ]; discriminate ]).
  destruct (MatchString form.emailRegex s) eqn:Hmatch; simpl.
  - split; [ intros _; right; eauto | reflexivity ].
  - split; [ discriminate | ].
    intros [ Hf | (s' & [= <-] & Hs) ]; [ discriminate | congruence ].
Qed.

Lemma alter_last (change : TableColumn -> TableColumn)
  (init : list TableColumn) (last : TableColumn) :
  alter change (length (init ++ [last]) - 1)%nat (init ++ [last])%list
  = (init ++ [change last])%list.
Proof.
  rewrite length_app. simpl. replace (length init + 1 - 1)%nat with (length init) by lia.
  induction init as [ | c init IH ]; simpl; [ reflexivity | ].
  f_equal. exact IH.
Qed.

Lemma changeLast_empty (change : TableColumn -> TableColumn)
  (tfb : builder.TableFieldBuilder) :
  Columns (builder.config tfb) = [] -> builder.changeLast change tfb = tfb.
Proof. intros Hempty. unfold builder.changeLast. rewrite Hempty. reflexivity. Qed.

Lemma changeLast_last (change : TableColumn -> TableColumn)
  (tfb : builder.TableFieldBuilder) (init : list TableColumn) (last : TableColumn) :
  Columns (builder.config tfb) = (init ++ [last])%list ->
  builder.changeLast change tfb
  = builder.setColumns tfb (init ++ [change last]).
Proof.
  intros Hcolumns. unfold builder.changeLast. rewrite Hcolumns.
  rewrite alter_last.
  destruct init; reflexivity.
Qed.

(** X12.  The column modifiers of the table builder ([WithSortable],
    [WithFilterable], [WithWidth], [WithAlign]) do nothing on a table
    without columns; on a table with columns they change the one member of
    the last column and leave the other columns, their number and the rest
    of the table as they are. *)
Theorem X12_column_modifiers_change_last (tfb : builder.TableFieldBuilder)
  (width align : string) :
  (Columns (builder.config tfb) = [] ->
   builder.WithSortable tfb = tfb /\ builder.WithFilterable tfb = tfb
   /\ builder.WithWidth tfb width = tfb /\ builder.WithAlign tfb align = tfb)
  /\ (forall init last,
         Columns (builder.config tfb) = (init ++ [last])%list ->
         builder.WithSortable tfb = builder.setColumns tfb (init ++ [sortable last])
         /\ builder.WithFilterable tfb
            = builder.setColumns tfb (init ++ [filterable last])
         /\ builder.WithWidth tfb width
            = builder.setColumns tfb (init ++ [withWidth last width])
         /\ builder.WithAlign tfb align
            = builder.setColumns tfb (init ++ [withAlign last align])).
Proof.
  split.
  - intros Hempty. split; [ | split; [ | split ] ].
    + exact (changeLast_empty sortable tfb Hempty).
    + exact (changeLast_empty filterable tfb Hempty).
    + exact (changeLast_empty (fun c => withWidth c width) tfb Hempty).
    + exact (changeLast_empty (fun c => withAlign c align) tfb Hempty).
  - intros init last Hcolumns. split; [ | split; [ | split ] ].
    + exact (changeLast_last sortable tfb init last Hcolumns).
    + exact (changeLast_last filterable tfb init last Hcolumns).
    + exact (changeLast_last (fun c => withWidth c width) tfb init last Hcolumns).
    + exact (changeLast_last (fun c => withAlign c align) tfb init last Hcolumns).
Qed.

End MapperAndBuilders.

(** ** Further properties: the presentation schema *)

Section SchemaEntries.

Import golib types gostd.
Context {rt : GoRuntime}.

(** The rules write under the constraint keywords only. *)
Lemma projectRules_other_key (rules : list ValidationRule)
  (fieldSchema : gmap string value) (key : string) :
  ~ In key (List.map snd spec.constraintKeywords) ->
  fold_left schema.projectRule rules fieldSchema !! key = fieldSchema !! key.
Proof.
  intros Hkey. revert fieldSchema.
  induction rules as [ | rule rules IH ]; intros fieldSchema; simpl; [ reflexivity | ].
  rewrite IH, projectRule_constraint.
  destruct (constraintOf rule) as [ [ keyword v ] | ] eqn:Hconstraint; [ | reflexivity ].
  apply lookup_insert_ne. intros ->. apply Hkey.
  apply constraintOf_keyword in Hconstraint.
  apply in_map_iff. exists (Type_ rule, key). split; [ reflexivity | exact Hconstraint ].
Qed.

Lemma typeSchema_no_default (field : Field) :
  schema.typeSchema field !! "default" = None.
Proof.
  unfold schema.typeSchema, schema.generateTableSchema.
  repeat match goal with
         | |- context [if ?b then _ else _] => destruct b
         | |- context [match FTableConfig field with _ => _ end] =>
             destruct (FTableConfig field)
         end;
    simplify_map_eq; reflexivity.
Qed.

Lemma fieldSchemaOf_other_key (field : Field) (key : string) :
  ~ In key (List.map snd spec.constraintKeywords) -> key <> "default" ->
  fieldSchemaOf field !! key = schema.typeSchema field !! key.
Proof.
  intros Hkey Hdefault. unfold fieldSchemaOf.
  rewrite projectRules_other_key by exact Hkey.
  unfold baseSchema.
  destruct (DefaultValue field); try reflexivity;
    apply lookup_insert_ne; congruence.
Qed.

Lemma not_constraint_keyword (key : string) :
  key <> "minimum" -> key <> "maximum" -> key <> "minLength" ->
  key <> "maxLength" -> key <> "pattern" ->
  ~ In key (List.map snd spec.constraintKeywords).
Proof.
  intros H1 H2 H3 H4 H5. simpl.
  intros [ Heq | [ Heq | [ Heq | [ Heq | [ Heq | [] ] ] ] ] ]; congruence.
Qed.

(** The types of the JSON values that an entry of the schema may have. *)
Lemma typeSchema_type (field : Field) :
  exists t, schema.typeSchema field !! "type" = Some (VString t)
            /\ In t ["string"; "number"; "boolean"; "array"; "object"].
Proof.
  unfold schema.typeSchema, schema.generateTableSchema.
  repeat match goal with
         | |- context [if ?b then _ else _] => destruct b
         | |- context [match FTableConfig field with _ => _ end] =>
             destruct (FTableConfig field)
         end;
    eexists; (split; [ simplify_map_eq; reflexivity | simpl; tauto ]).
Qed.

(** X13.  The entry of every field has a [type], which is one of string,
    number, boolean, array and object, whatever the rules and the default
    value of the field; a field whose type is none of the thirteen field
    types has the type string. *)
Theorem X13_entry_has_type (field : Field) :
  exists fieldSchema t,
    schema.generateFieldSchema field = inl fieldSchema
    /\ fieldSchema !! "type" = Some (VString t)
    /\ In t ["string"; "number"; "boolean"; "array"; "object"]
    /\ (~ In (FType field)
          [FieldTypeText; FieldTypeEmail; FieldTypePassword; FieldTypeNumber;
           FieldTypeTextarea; FieldTypeSelect; FieldTypeRadio; FieldTypeCheckbox;
           FieldTypeDate; FieldTypeTime; FieldTypeFile; FieldTypeHidden;
           FieldTypeTable] ->
        t = "string").
Proof.
  destruct (typeSchema_type field) as (t & Htype & Hin).
  exists (fieldSchemaOf field), t.
  split; [ apply generateFieldSchema_inl | ].
  assert (Hentry : fieldSchemaOf field !! "type" = Some (VString t)).
  { rewrite fieldSchemaOf_other_key; [ exact Htype | | discriminate ].
    apply not_constraint_keyword; discriminate. }
  split; [ exact Hentry | split; [ exact Hin | ] ].
  intros Hunknown.
  assert (Hne : forall k, In k [FieldTypeText; FieldTypeEmail; FieldTypePassword;
                               FieldTypeNumber; FieldTypeTextarea; FieldTypeSelect;
                               FieldTypeRadio; FieldTypeCheckbox; FieldTypeDate;
                               FieldTypeTime; FieldTypeFile; FieldTypeHidden;
                               FieldTypeTable] ->
                  String.eqb (FType field) k = false).
  { intros k Hk. apply String.eqb_neq. intros Heq. apply Hunknown. rewrite Heq. exact Hk. }
  revert Htype. unfold schema.typeSchema.
  rewrite !Hne by (simpl; tauto). simpl.
  rewrite lookup_insert_eq. intros [= <-]. reflexivity.
Qed.

(** X14.  The default value of a field is copied into its entry under
    [default] when it is not nil, and the entry has no [default] when it
    is nil; no rule changes it. *)
Theorem X14_default_copied (field : Field) :
  exists fieldSchema,
    schema.generateFieldSchema field = inl fieldSchema
    /\ fieldSchema !! "default"
       = match DefaultValue field with
         | VNil => None
         | v => Some v
         end.
Proof.
  exists (fieldSchemaOf field). split; [ apply generateFieldSchema_inl | ].
  unfold fieldSchemaOf.
  rewrite projectRules_other_key
    by (apply not_constraint_keyword; discriminate).
  unfold baseSchema.
  destruct (DefaultValue field); try apply lookup_insert_eq.
  apply typeSchema_no_default.
Qed.

(** X15.  The entry of a table field that has a configuration is the
    schema of the data of a table: its type is object, its title is the
    fixed one and not the label of the field, it has no description, and
    its properties are [columns], [rows], [total], [page] and [limit],
    whatever the columns and the switches of the configuration. *)
Theorem X15_table_entry (field : Field) (config : TableConfig) :
  FType field = FieldTypeTable -> FTableConfig field = Some config ->
  exists fieldSchema properties,
    schema.generateFieldSchema field = inl fieldSchema
    /\ fieldSchema !! "type" = Some (VString "object")
    /\ fieldSchema !! "title" = Some (VString "Таблица")
    /\ fieldSchema !! "description" = None
    /\ fieldSchema !! "properties" = Some (VMap properties)
    /\ dom properties = ({[ "columns"; "rows"; "total"; "page"; "limit" ]} : gset string)
    /\ forall config', schema.generateTableSchema config'
                       = schema.generateTableSchema config.
Proof.
  intros Htype Hconfig.
  assert (Hbase : schema.typeSchema field = schema.generateTableSchema config).
  { unfold schema.typeSchema. rewrite Htype, Hconfig. reflexivity. }
  exists (fieldSchemaOf field). eexists.
  split; [ apply generateFieldSchema_inl | ].
  assert (Hkey : forall key,
             In key ["type"; "title"; "description"; "properties"] ->
             fieldSchemaOf field !! key = schema.generateTableSchema config !! key).
  { intros key Hin. rewrite <- Hbase. apply fieldSchemaOf_other_key.
    - apply not_constraint_keyword;
        simpl in Hin; destruct Hin as [ <- | [ <- | [ <- | [ <- | [] ] ] ] ];
        discriminate.
    - simpl in Hin. destruct Hin as [ <- | [ <- | [ <- | [ <- | [] ] ] ] ];
        discriminate. }
  rewrite !Hkey by (simpl; tauto).
  split; [ reflexivity | split; [ reflexivity | split; [ reflexivity | ] ] ].
  split; [ reflexivity | split; [ | reflexivity ] ].
  rewrite !dom_insert_L, dom_empty_L. set_solver.
Qed.

Lemma addFieldSchema_header (fields : list Field) (s : schema.JSONSchema) :
  let s' := fold_left addFieldSchema fields s in
  schema.Schema s' = schema.Schema s /\ schema.SType s' = schema.SType s
  /\ schema.Title s' = schema.Title s
  /\ schema.SDescription s' = schema.SDescription s
  /\ schema.Definitions s' = schema.Definitions s.
Proof.
  revert s. induction fields as [ | field fields IH ]; intros s; simpl;
    [ repeat split | ].
  destruct (IH (addFieldSchema s field)) as (H1 & H2 & H3 & H4 & H5).
  rewrite H1, H2, H3, H4, H5. unfold addFieldSchema.
  destruct (visible field); [ | repeat split ].
  destruct (Required field); repeat split.
Qed.

(** X16.  [GenerateJSONSchema] returns a schema for every form, never an
    error.  The schema is an object schema of the draft 2020-12 with the
    title and the description of the form and no definitions, and its
    [required] lists the names of the required fields that are not hidden
    in the order of the form, a name once for each such field. *)
Theorem X16_GenerateJSONSchema_total (form : Form) :
  exists s,
    schema.GenerateJSONSchema form = inl s
    /\ schema.Schema s = "https://json-schema.org/draft/2020-12/schema"
    /\ schema.SType s = "object"
    /\ schema.Title s = FormTitle form
    /\ schema.SDescription s = FormDescription form
    /\ schema.Definitions s = ∅
    /\ schema.SRequired s
       = List.map Name
           (List.filter (fun field => visible field && Required field) (Fields form)).
Proof.
  unfold schema.GenerateJSONSchema. rewrite schemaFields_inl.
  eexists. split; [ reflexivity | ].
  match goal with
  | |- context [fold_left addFieldSchema ?fields ?s0] =>
      destruct (addFieldSchema_header fields s0) as (H1 & H2 & H3 & H4 & H5)
  end.
  rewrite H1, H2, H3, H4, H5, addFieldSchema_Required. repeat split.
Qed.

Lemma addFieldSchema_dom (fields : list Field) (s : schema.JSONSchema) :
  dom (schema.Properties (fold_left addFieldSchema fields s))
  = dom (schema.Properties s)
    ∪ (list_to_set (List.map Name (List.filter visible fields)) : gset string).
Proof.
  revert s. induction fields as [ | field fields IH ]; intros s; simpl.
  - set_solver.
  - rewrite IH. unfold addFieldSchema.
    destruct (visible field); simpl; [ | reflexivity ].
    destruct (Required field); simpl; rewrite dom_insert_L; set_solver.
Qed.

(** X17.  The keys of [properties] are the names of the fields that are
    not hidden.  Where several such fields bear one name, the entry under
    the name is the one of the last of them in the order of the form. *)
Theorem X17_properties_last_field_wins (form : Form) :
  exists s,
    schema.GenerateJSONSchema form = inl s
    /\ dom (schema.Properties s)
       = (list_to_set (List.map Name (List.filter visible (Fields form)))
          : gset string)
    /\ forall before field after fieldSchema,
        Fields form = (before ++ field :: after)%list ->
        FType field <> FieldTypeHidden ->
        (forall g, In g after -> FType g <> FieldTypeHidden ->
                   Name g <> Name field) ->
        schema.generateFieldSchema field = inl fieldSchema ->
        schema.Properties s !! Name field = Some (VMap fieldSchema).
Proof.
  unfold schema.GenerateJSONSchema. rewrite schemaFields_inl.
  eexists. split; [ reflexivity | ]. split.
  - rewrite addFieldSchema_dom. simpl. rewrite dom_empty_L. set_solver.
  - intros before field after fieldSchema Hfields Hvisible Hafter Hschema.
    rewrite generateFieldSchema_inl in Hschema. injection Hschema as <-.
    rewrite Hfields, fold_left_app. simpl.
    rewrite addFieldSchema_Properties_other.
    + unfold addFieldSchema at 1.
      apply visible_true in Hvisible. rewrite Hvisible.
      destruct (Required field); simpl; apply lookup_insert_eq.
    + intros g Hg Hgvisible. apply Hafter; [ exact Hg | ].
      apply visible_true. exact Hgvisible.
Qed.

(** X18.  The options of a select or radio field reach both schemas in
    the same order: the values that the presentation schema lists under
    [enum] are the values of the [enumOptions] of the UI schema, one for
    one.  An enum option holds the value and the label of the option and
    nothing else, so that the disabled switch of an option is not passed
    on. *)
Theorem X18_enum_options_agree (options : list SelectOption) :
  List.map (fun enumOption : gmap string value => enumOption !! "value")
    (schema.convertOptionsToEnumOptions options)
  = List.map (fun v => Some (VString v)) (schema.getOptionValues options)
  /\ List.map (fun enumOption : gmap string value => enumOption !! "label")
       (schema.convertOptionsToEnumOptions options)
     = List.map (fun option => Some (VString (Label option))) options
  /\ length (schema.convertOptionsToEnumOptions options) = length options
  /\ forall enumOption,
      In enumOption (schema.convertOptionsToEnumOptions options) ->
      dom enumOption = ({[ "value"; "label" ]} : gset string).
Proof.
  unfold schema.convertOptionsToEnumOptions, schema.getOptionValues.
  split; [ | split; [ | split ] ].
  - rewrite !List.map_map. apply List.map_ext. intros option.
    rewrite lookup_insert_ne by discriminate. apply lookup_insert_eq.
  - rewrite !List.map_map. apply List.map_ext. intros option.
    apply lookup_insert_eq.
  - apply List.length_map.
  - intros enumOption Hin. apply in_map_iff in Hin as (option & <- & _).
    rewrite !dom_insert_L, dom_empty_L. set_solver.
Qed.

End SchemaEntries.

(** ** Further properties: the UI schema *)

Section UIHints.

Import golib types gostd.
Context {rt : GoRuntime}.

Lemma mergeConfig_other_key (field : Field) (uiSchema : gmap string value)
  (key : string) :
  key <> "ui:options" ->
  schema.mergeConfig field uiSchema !! key = uiSchema !! key.
Proof.
  intros Hkey. unfold schema.mergeConfig.
  destruct (0 <? size (Config field))%nat; [ | reflexivity ].
  destruct (uiSchema !! "ui:options") as [ [ ] | ];
    try reflexivity; apply lookup_insert_ne; congruence.
Qed.

Lemma mergeConfig_empty (field : Field) (uiSchema : gmap string value) :
  schema.mergeConfig field uiSchema = ∅
  <-> uiSchema = ∅ /\ size (Config field) = 0%nat.
Proof.
  unfold schema.mergeConfig.
  destruct (0 <? size (Config field))%nat eqn:Hsize.
  - apply Nat.ltb_lt in Hsize. split.
    + intros Hempty. exfalso.
      destruct (uiSchema !! "ui:options") as [ uiOptions | ] eqn:Hoptions.
      * destruct uiOptions;
          try (subst uiSchema; rewrite lookup_empty in Hoptions; discriminate Hoptions).
        exact (insert_non_empty _ _ _ Hempty).
      * exact (insert_non_empty _ _ _ Hempty).
    + intros [ _ Hzero ]. rewrite Hzero in Hsize. inversion Hsize.
  - apply Nat.ltb_ge in Hsize. split.
    + intros ->. split; [ reflexivity | ]. inversion Hsize. reflexivity.
    + intros [ -> _ ]. reflexivity.
Qed.

Lemma fieldHints_empty (field : Field) (uiSchema : gmap string value) :
  schema.fieldHints field uiSchema = ∅
  <-> uiSchema = ∅ /\ Placeholder field = "" /\ FDisabled field = false
      /\ Group field = "".
Proof.
  unfold schema.fieldHints.
  destruct (String.eqb_spec (Placeholder field) "") as [ Hplaceholder | Hplaceholder ];
    destruct (FDisabled field);
    destruct (String.eqb_spec (Group field) "") as [ Hgroup | Hgroup ]; simpl;
    (split;
     [ intros Hempty;
       first [ exfalso; exact (insert_non_empty _ _ _ Hempty)
             | repeat split; assumption ]
     | intros (Hschema & Hp & Hd & Hg);
       first [ exact Hschema | congruence ] ]).
Qed.

Lemma widgetHints_empty (field : Field) :
  schema.widgetHints field = ∅
  <-> forallb (fun t => negb (String.eqb (FType field) t))
        [FieldTypePassword; FieldTypeTextarea; FieldTypeFile; FieldTypeCheckbox;
         FieldTypeRadio; FieldTypeSelect; FieldTypeTable; FieldTypeHidden] = true.
Proof.
  unfold schema.widgetHints. simpl forallb.
  repeat match goal with
         | |- context [String.eqb (FType field) ?t] =>
             destruct (String.eqb (FType field) t)
         end; simpl;
    try (split; [ reflexivity | reflexivity ]);
    (split; [ intros Hempty; exfalso | discriminate ]);
    repeat match goal with
           | H : context [if ?b then _ else _] |- _ => destruct b
           | H : context [match FTableConfig field with _ => _ end] |- _ =>
               destruct (FTableConfig field)
           end;
    exact (insert_non_empty _ _ _ Hempty).
Qed.

Lemma generateFieldUISchema_empty (field : Field) :
  schema.generateFieldUISchema field = ∅ <-> plain field = true.
Proof.
  unfold schema.generateFieldUISchema, plain.
  rewrite mergeConfig_empty, fieldHints_empty, widgetHints_empty.
  rewrite !andb_true_iff, negb_true_iff, Nat.eqb_eq.
  split.
  - intros ((Hwidget & Hp & Hd & Hg) & Hconfig).
    rewrite Hp, Hg. repeat split; assumption.
  - intros ((((Hwidget & Hp) & Hd) & Hg) & Hconfig).
    apply String.eqb_eq in Hp, Hg. repeat split; assumption.
Qed.

Lemma size_pos_not_empty (hints : gmap string value) :
  (0 <? size hints)%nat = negb (bool_decide (hints = ∅)).
Proof.
  destruct (decide (hints = ∅)) as [ -> | Hne ].
  - rewrite bool_decide_eq_true_2 by reflexivity. reflexivity.
  - rewrite bool_decide_eq_false_2 by exact Hne. simpl.
    apply Nat.ltb_lt. destruct (size hints) eqn:Hsize; [ | lia ].
    apply map_size_empty_iff in Hsize. contradiction.
Qed.

(** X19.  The settings of a field in [Config] reach its hints under
    [ui:options] and nowhere else: the widget, the placeholder, the
    disabled switch and the group of the hints are the same whatever the
    settings are. *)
Theorem X19_config_changes_options_only (field : Field)
  (config : gmap string value) (key : string) :
  key <> "ui:options" ->
  schema.generateFieldUISchema (withConfig field config) !! key
  = schema.generateFieldUISchema field !! key.
Proof.
  intros Hkey. unfold schema.generateFieldUISchema.
  rewrite !mergeConfig_other_key by exact Hkey. reflexivity.
Qed.

(** X20.  A field has no hints at all exactly when it is plain: its type
    is none of password, textarea, file, checkbox, radio, select, table
    and hidden, and it has no placeholder, is not disabled, is in no group
    and has no settings. *)
Theorem X20_no_hints_iff_plain (field : Field) :
  schema.generateFieldUISchema field = ∅ <-> plain field = true.
Proof.
  apply generateFieldUISchema_empty.
Qed.

Lemma fieldsUI_plain_name (fields : list Field) (uiSchema : gmap string value)
  (name : string) :
  (forall g, In g fields -> Name g = name -> plain g = true) ->
  schema.fieldsUI fields uiSchema !! name = uiSchema !! name.
Proof.
  revert uiSchema. induction fields as [ | g fields IH ]; intros uiSchema Hplain;
    simpl; [ reflexivity | ].
  rewrite size_pos_not_empty.
  destruct (decide (schema.generateFieldUISchema g = ∅)) as [ Hempty | Hne ].
  - rewrite bool_decide_eq_true_2 by exact Hempty. simpl.
    apply IH. intros g' Hg'. apply Hplain. right. exact Hg'.
  - rewrite bool_decide_eq_false_2 by exact Hne. simpl.
    rewrite IH by (intros g' Hg'; apply Hplain; right; exact Hg').
    apply lookup_insert_ne. intros Hname. apply Hne.
    apply generateFieldUISchema_empty.
    apply Hplain; [ left; reflexivity | exact Hname ].
Qed.

Lemma fieldsUI_last (before after : list Field) (field : Field)
  (uiSchema : gmap string value) :
  schema.generateFieldUISchema field <> ∅ ->
  (forall g, In g after -> Name g = Name field -> plain g = true) ->
  schema.fieldsUI (before ++ field :: after) uiSchema !! Name field
  = Some (VMap (schema.generateFieldUISchema field)).
Proof.
  intros Hhints Hafter.
  revert uiSchema. induction before as [ | f before IH ]; intros uiSchema; simpl.
  - rewrite size_pos_not_empty, bool_decide_eq_false_2 by exact Hhints. simpl.
    rewrite fieldsUI_plain_name by exact Hafter. apply lookup_insert_eq.
  - destruct (0 <? size (schema.generateFieldUISchema f))%nat; apply IH.
Qed.

(** X21.  A field that is not plain has its hints in the UI schema under
    its name, unless a later field of the same name that is not plain
    replaces them or the form has groups and the name is [ui:groups].
    This holds for a hidden field too, which the order leaves out, and for
    a field of the name [ui:order], whose hints then stand where the order
    should. *)
Theorem X21_hints_under_field_name (form : Form) (before after : list Field)
  (field : Field) :
  Fields form = (before ++ field :: after)%list ->
  plain field = false ->
  (forall g, In g after -> Name g = Name field -> plain g = true) ->
  Name field <> "ui:groups" \/ Groups form = [] ->
  schema.GenerateUISchema form !! Name field
  = Some (VMap (schema.generateFieldUISchema field)).
Proof.
  intros Hfields Hplain Hafter Hgroups.
  assert (Hhints : schema.generateFieldUISchema field <> ∅).
  { intros Hempty. apply generateFieldUISchema_empty in Hempty. congruence. }
  unfold schema.GenerateUISchema. rewrite Hfields.
  destruct Hgroups as [ Hname | Hnone ].
  - destruct (0 <? length (Groups form))%nat;
      [ rewrite lookup_insert_ne by congruence | ];
      apply fieldsUI_last; assumption.
  - rewrite Hnone. simpl. apply fieldsUI_last; assumption.
Qed.

(** X22.  A name that only plain fields bear, and that is neither
    [ui:order] nor [ui:groups], has no entry in the UI schema. *)
Theorem X22_plain_fields_have_no_entry (form : Form) (name : string) :
  (forall field, In field (Fields form) -> Name field = name ->
                 plain field = true) ->
  name <> "ui:order" -> name <> "ui:groups" ->
  schema.GenerateUISchema form !! name = None.
Proof.
  intros Hplain Horder Hgroups. unfold schema.GenerateUISchema.
  destruct (0 <? length (Groups form))%nat;
    [ rewrite lookup_insert_ne by congruence | ];
    rewrite fieldsUI_plain_name by exact Hplain;
    rewrite lookup_insert_ne by congruence; apply lookup_empty.
Qed.

(** X23.  The groups of a form that has some are listed under
    [ui:groups] in the order of the form, each with its title, its
    description and the names of its fields and nothing else; a field of
    the name [ui:groups] does not stand in their way.  A form with no
    group has no [ui:groups] unless a field that is not plain bears that
    name. *)
Theorem X23_groups_listed_in_order (form : Form) :
  (Groups form <> [] ->
   exists groups,
     schema.GenerateUISchema form !! "ui:groups" = Some (VMaps groups)
     /\ List.map (fun group : gmap string value => group !! "ui:title") groups
        = List.map (fun group => Some (VString (GroupTitle group))) (Groups form)
     /\ List.map (fun group : gmap string value => group !! "ui:description") groups
        = List.map (fun group => Some (VString (GroupDescription group)))
            (Groups form)
     /\ List.map (fun group : gmap string value => group !! "ui:fields") groups
        = List.map (fun group => Some (VStrings (GroupFields group))) (Groups form)
     /\ forall group, In group groups ->
          dom group = ({[ "ui:title"; "ui:description"; "ui:fields" ]} : gset string))
  /\ (Groups form = [] ->
      (forall field, In field (Fields form) -> Name field = "ui:groups" ->
                     plain field = true) ->
      schema.GenerateUISchema form !! "ui:groups" = None).
Proof.
  split.
  - intros Hgroups. exists (List.map schema.groupUI (Groups form)).
    unfold schema.GenerateUISchema.
    destruct (Groups form) as [ | group groups ] eqn:Heq; [ congruence | ].
    change (0 <? length (group :: groups))%nat with true. cbv iota.
    split; [ apply lookup_insert_eq | ].
    split; [ | split; [ | split ] ].
    + rewrite List.map_map. apply List.map_ext. intros g. unfold schema.groupUI.
      rewrite !lookup_insert_ne by discriminate. apply lookup_insert_eq.
    + rewrite List.map_map. apply List.map_ext. intros g. unfold schema.groupUI.
      rewrite lookup_insert_ne by discriminate. apply lookup_insert_eq.
    + rewrite List.map_map. apply List.map_ext. intros g. unfold schema.groupUI.
      apply lookup_insert_eq.
    + intros g Hin. apply in_map_iff in Hin as (g0 & <- & _).
      unfold schema.groupUI. rewrite !dom_insert_L, dom_empty_L. set_solver.
  - intros Hnone Hplain. unfold schema.GenerateUISchema. rewrite Hnone. simpl.
    rewrite fieldsUI_plain_name by exact Hplain.
    rewrite lookup_insert_ne by discriminate. apply lookup_empty.
Qed.

End UIHints.

(** ** Further properties: tables, from the builder to the hints *)

Section TableHints.

Import golib types gostd.
Context {rt : GoRuntime}.

Lemma AddColumn_fold (columns : list TableColumn) (tfb : builder.TableFieldBuilder) :
  fold_left builder.AddColumn columns tfb
  = builder.setColumns tfb (Columns (builder.config tfb) ++ columns)%list.
Proof.
  revert tfb. induction columns as [ | c columns IH ]; intros tfb; simpl.
  - rewrite app_nil_r. destruct tfb as [ f [ ] ]. reflexivity.
  - rewrite IH. unfold builder.AddColumn, builder.setColumns. simpl.
    rewrite <- app_assoc. reflexivity.
Qed.

(** X24.  A table field that is started with [AddTableField], given
    columns with [AddColumn] and finished with [Build] is the last field
    of the form.  Its hints have the widget table and, as options, the
    columns in the order of the calls with pagination by ten rows, sorting
    and filtering switched on and selection and editing switched off; its
    entry in the presentation schema is an object. *)
Theorem X24_table_from_builder_to_hints (fb : form.FormBuilder)
  (name label : string) (columns : list TableColumn) :
  let tfb := fold_left builder.AddColumn columns (builder.AddTableField fb name label) in
  let table := builder.tableField tfb in
  Fields (builder.Build (builder.BuildTable tfb fb))
  = (Fields (builder.Build fb) ++ [table])%list
  /\ Name table = name /\ FLabel table = label
  /\ FTableConfig table = Some (defaultTable columns)
  /\ schema.generateFieldUISchema table !! "ui:widget" = Some (VString "table")
  /\ schema.generateFieldUISchema table !! "ui:options"
     = Some (VMap (schema.generateTableUIOptions (defaultTable columns)))
  /\ exists fieldSchema,
       schema.generateFieldSchema table = inl fieldSchema
       /\ fieldSchema !! "type" = Some (VString "object").
Proof.
  intros tfb table. subst table tfb. rewrite AddColumn_fold. simpl.
  split; [ reflexivity | ]. split; [ reflexivity | ]. split; [ reflexivity | ].
  split; [ reflexivity | ].
  split; [ reflexivity | ]. split; [ reflexivity | ].
  match goal with
  | |- exists _, schema.generateFieldSchema ?f = _ /\ _ => exists (fieldSchemaOf f)
  end.
  split; [ apply generateFieldSchema_inl | ].
  rewrite fieldSchemaOf_other_key;
    [ reflexivity | apply not_constraint_keyword; discriminate | discriminate ].
Qed.

End TableHints.

(** ** Further properties: the router and its handlers *)

Section Serving.

Import golib types gostd.
Context {rt : GoRuntime}.

Lemma run_cons (c : call) (calls : list call) (r : serving.Router) :
  run (c :: calls) r = run calls (applyCall r c).
Proof. reflexivity. Qed.

Lemma setupMiddleware_Routes (s : router.Router) (m : serving.Mux) :
  serving.Routes (serving.setupMiddleware s m) = serving.Routes m.
Proof.
  unfold serving.setupMiddleware.
  assert (Hfold : forall mws m',
             serving.Routes
               (fold_left (fun m mw => serving.use m (serving.Custom mw)) mws m')
             = serving.Routes m').
  { induction mws as [ | mw mws IH ]; intros m'; simpl; [ reflexivity | ].
    rewrite IH. reflexivity. }
  rewrite Hfold. destruct (router.corsEnabled s); reflexivity.
Qed.

Lemma setupMiddleware_Uses (s : router.Router) (m : serving.Mux) :
  serving.Uses (serving.setupMiddleware s m)
  = (serving.Uses m
     ++ [serving.Logger; serving.Recoverer; serving.RequestID]
     ++ (if router.corsEnabled s then [serving.CORS (router.corsOrigins s)] else [])
     ++ List.map serving.Custom (router.middlewares s))%list.
Proof.
  unfold serving.setupMiddleware.
  assert (Hfold : forall mws m',
             serving.Uses
               (fold_left (fun m mw => serving.use m (serving.Custom mw)) mws m')
             = (serving.Uses m' ++ List.map serving.Custom mws)%list).
  { induction mws as [ | mw mws IH ]; intros m'; simpl.
    - symmetry. apply app_nil_r.
    - rewrite IH. simpl. rewrite <- app_assoc. reflexivity. }
  rewrite Hfold. destruct (router.corsEnabled s); simpl;
    rewrite <- !app_assoc; reflexivity.
Qed.

Lemma setupRoutes_Uses (s : router.Router) (m : serving.Mux) :
  serving.Uses (serving.setupRoutes s m) = serving.Uses m.
Proof.
  unfold serving.setupRoutes. destruct (router.authEnabled s); reflexivity.
Qed.

Lemma setupRoutes_login (s : router.Router) (m : serving.Mux) :
  serving.Routes m = [] ->
  servesLogin (serving.setupRoutes s m) <-> router.authEnabled s = true.
Proof.
  intros Hnone. unfold servesLogin, serving.setupRoutes.
  destruct (router.authEnabled s); simpl; rewrite Hnone; simpl.
  - split; [ reflexivity | ]. intros _. eexists. split.
    + do 5 right. left. reflexivity.
    + left. reflexivity.
  - split; [ | discriminate ].
    intros (route & Hin & Hhandler).
    repeat (destruct Hin as [ <- | Hin ];
            [ simpl in Hhandler; destruct Hhandler; discriminate | ]).
    destruct Hin.
Qed.

(** X25.  The mux of a router is built by [NewRouter] and by [EnableCORS]
    and by nothing else: calls of [SetTitle], [EnableAuth],
    [AddMiddleware], [RegisterForm] and [RegisterPage] leave it as it
    was.  So, after [NewRouter] and such calls only, the mux has the three
    basic middlewares and neither the login nor the logout route, even
    when [EnableAuth] switched the authorization on and [AddMiddleware]
    added a middleware. *)
Theorem X25_mux_kept_without_EnableCORS (calls : list call) (r : serving.Router) :
  (forall c, In c calls -> rebuilds c = false) ->
  serving.mux (run calls r) = serving.mux r
  /\ (r = serving.NewRouter ->
      serving.Uses (serving.mux (run calls r))
      = [serving.Logger; serving.Recoverer; serving.RequestID]
      /\ ~ servesLogin (serving.mux (run calls r))).
Proof.
  intros Hcalls.
  assert (Hmux : serving.mux (run calls r) = serving.mux r).
  { revert r. induction calls as [ | c calls IH ]; intros r; [ reflexivity | ].
    rewrite run_cons, IH by (intros c' Hc'; apply Hcalls; right; exact Hc').
    specialize (Hcalls c (or_introl eq_refl)).
    destruct c; try reflexivity. discriminate Hcalls. }
  split; [ exact Hmux | ].
  intros ->. rewrite Hmux. split; [ reflexivity | ].
  unfold serving.NewRouter. simpl serving.mux.
  rewrite setupRoutes_login by reflexivity. discriminate.
Qed.

Lemma setupRoutes_serves (s : router.Router) (m : serving.Mux) :
  serving.Routes m = [] ->
  (serves (serving.setupRoutes s m) serving.HandleLogin
   <-> router.authEnabled s = true)
  /\ (serves (serving.setupRoutes s m) serving.HandleLogout
      <-> router.authEnabled s = true).
Proof.
  intros Hnone. unfold serves, serving.setupRoutes.
  destruct (router.authEnabled s); simpl; rewrite Hnone; simpl.
  - split; (split; [ reflexivity | ]); intros _; eexists.
    + split; [ do 5 right; left; reflexivity | reflexivity ].
    + split; [ do 6 right; left; reflexivity | reflexivity ].
  - split; (split; [ | discriminate ]);
      intros (route & Hin & Hhandler);
      repeat (destruct Hin as [ <- | Hin ]; [ discriminate Hhandler | ]);
      destruct Hin.
Qed.

(** X26.  [EnableCORS] builds the mux anew from the state of the router
    at the call: the login route and the logout route are both served when
    the authorization is switched on then, and neither of them is served
    when it is switched off; the middlewares are the
    three basic ones, the CORS handler when it is switched on, with the
    origins given or, when none is given, the ones kept, and the
    middlewares added so far in the order of their addition. *)
Theorem X26_EnableCORS_rebuilds_mux (r : serving.Router) (enabled : bool)
  (origins : list string) :
  let r' := serving.EnableCORS r enabled origins in
  let kept := match origins with
              | [] => router.corsOrigins (serving.state r)
              | _ => origins
              end in
  (serves (serving.mux r') serving.HandleLogin
   <-> router.authEnabled (serving.state r) = true)
  /\ (serves (serving.mux r') serving.HandleLogout
      <-> router.authEnabled (serving.state r) = true)
  /\ (servesLogin (serving.mux r') <-> router.authEnabled (serving.state r) = true)
  /\ serving.Uses (serving.mux r')
     = ([serving.Logger; serving.Recoverer; serving.RequestID]
        ++ (if enabled then [serving.CORS kept] else [])
        ++ List.map serving.Custom (router.middlewares (serving.state r)))%list
  /\ router.forms (serving.state r') = router.forms (serving.state r)
  /\ router.pages (serving.state r') = router.pages (serving.state r).
Proof.
  intros r' kept. subst r' kept. unfold serving.EnableCORS. simpl serving.mux.
  match goal with
  | |- context [serving.setupRoutes ?s (serving.setupMiddleware ?s serving.newMux)] =>
      destruct (setupRoutes_serves s (serving.setupMiddleware s serving.newMux))
        as [ Hlogin Hlogout ]; [ rewrite setupMiddleware_Routes; reflexivity | ]
  end.
  split; [ exact Hlogin | ]. split; [ exact Hlogout | ].
  split; [ | split; [ | split; reflexivity ] ].
  - rewrite setupRoutes_login by (rewrite setupMiddleware_Routes; reflexivity).
    reflexivity.
  - rewrite setupRoutes_Uses, setupMiddleware_Uses. simpl.
    destruct origins; reflexivity.
Qed.

(** X27.  The handler of a form is run on a payload only when every field
    of the form accepts it.  When some field does not, the reply to the
    POST is an error with the status 405 or 400, and it is the same
    whatever the handler would do. *)
Theorem X27_post_handler_guarded
  (callPost callPost' : FuncRef -> gmap string value -> value + error)
  (r : router.Router) (name : string) (form : Form) (data : gmap string value) :
  router.forms r !! name = Some form ->
  ~ (forall field, In field (Fields form) -> fieldAccepted data field) ->
  serving.handleFormPost callPost' r name (Some data)
  = serving.handleFormPost callPost r name (Some data)
  /\ exists status message,
       serving.handleFormPost callPost r name (Some data)
       = serving.sendError status message
       /\ (status = 405 \/ status = 400)%Z.
Proof.
  intros Hform Hrefused. unfold serving.handleFormPost. rewrite Hform.
  destruct (OnPost form) as [ onPost | ].
  - destruct (router.validateFormData form data) as [ err | ] eqn:Hvalid.
    + split; [ reflexivity | ]. do 2 eexists. split; [ reflexivity | right; reflexivity ].
    + exfalso. apply Hrefused. apply validateFormData_None. exact Hvalid.
  - split; [ reflexivity | ]. do 2 eexists. split; [ reflexivity | left; reflexivity ].
Qed.

(** X28.  The reply to the GET of a form never reports a failure of the
    generation of the schema.  For a registered form with no [OnGet] the
    reply is the schema of the form and its UI schema with no data; the
    schema bears the title of the form. *)
Theorem X28_form_get_schema_never_fails (callGet : FuncRef -> value + error)
  (r : router.Router) (name : string) :
  (forall err,
      serving.handleFormGet callGet r name
      <> serving.sendError 500
           (serving.Sprintf "Ошибка генерации схемы: %v" [inr err]))
  /\ (forall form,
         router.forms r !! name = Some form -> OnGet form = None ->
         exists jsonSchema,
           serving.handleFormGet callGet r name
           = serving.sendData
               (serving.DataForm
                  {| serving.FSchema := jsonSchema;
                     serving.FUISchema := schema.GenerateUISchema form;
                     serving.FData := VNil |})
           /\ schema.GenerateJSONSchema form = inl jsonSchema
           /\ schema.Title jsonSchema = FormTitle form).
Proof.
  split.
  - intros err. unfold serving.handleFormGet.
    destruct (router.forms r !! name) as [ form | ]; [ | discriminate ].
    unfold schema.GenerateJSONSchema. rewrite schemaFields_inl.
    destruct (OnGet form) as [ onGet | ]; [ | discriminate ].
    destruct (callGet onGet); discriminate.
  - intros form Hform Hget. unfold serving.handleFormGet. rewrite Hform.
    unfold schema.GenerateJSONSchema. rewrite schemaFields_inl, Hget.
    eexists. split; [ reflexivity | ]. split; [ reflexivity | ].
    match goal with
    | |- context [fold_left addFieldSchema ?fields ?s0] =>
        destruct (addFieldSchema_header fields s0) as (_ & _ & Htitle & _)
    end.
    exact Htitle.
Qed.

Lemma pagesMap_fmap (r : router.Router) :
  serving.pagesMap r = PageTitle <$> router.pages r.
Proof.
  unfold serving.pagesMap.
  induction (router.pages r) as [ | name page pages Hfresh Hfold IH ]
    using map_first_key_ind.
  - rewrite map_fold_empty, fmap_empty. reflexivity.
  - rewrite map_fold_insert_first_key by assumption.
    rewrite IH, fmap_insert. reflexivity.
Qed.

(** X29.  The configuration that the router reports lists every
    registered form and every registered page under its name with its
    title, and nothing else.  After the registration of a page the page is
    listed under its name, the pages of other names and the forms are
    listed as before, and a GET of the page, when it has no handler of its
    own, is answered with its title and its content. *)
Theorem X29_config_lists_registrations (r : router.Router) (page : Page) :
  let r' := router.RegisterPage r page in
  (exists config,
      serving.handleConfig r = serving.sendData (serving.DataConfig config)
      /\ serving.CTitle config = router.title r
      /\ serving.CForms config = FormTitle <$> router.forms r
      /\ serving.CPages config = PageTitle <$> router.pages r)
  /\ (exists config',
         serving.handleConfig r' = serving.sendData (serving.DataConfig config')
         /\ serving.CPages config' !! PageName page = Some (PageTitle page)
         /\ (forall name, name <> PageName page ->
                          serving.CPages config' !! name
                          = PageTitle <$> (router.pages r !! name))
         /\ serving.CForms config' = FormTitle <$> router.forms r)
  /\ (Handler page = None ->
      serving.handlePageGet r' (PageName page)
      = serving.sendData
          (serving.DataValue
             (VMap (<["content" := VString (Content page)]>
                      (<["title" := VString (PageTitle page)]> ∅))))).
Proof.
  intros r'. subst r'. split; [ | split ].
  - eexists. split; [ reflexivity | ]. simpl.
    split; [ reflexivity | ]. split; [ apply formsMap_fmap | apply pagesMap_fmap ].
  - eexists. split; [ reflexivity | ]. simpl.
    rewrite pagesMap_fmap, formsMap_fmap. unfold router.RegisterPage. simpl.
    split; [ | split; [ | reflexivity ] ].
    + rewrite lookup_fmap, lookup_insert_eq. reflexivity.
    + intros name Hname. rewrite lookup_fmap, lookup_insert_ne by congruence.
      reflexivity.
  - intros Hhandler. unfold serving.handlePageGet, router.RegisterPage. simpl.
    rewrite lookup_insert_eq, Hhandler. reflexivity.
Qed.

(** X30.  Every handler that the router looks up for the routes under
    [/api/routes] is one that [Admin.Handler] provides when the admin has
    a store: the request is then passed on to a handler of the admin.
    When the admin has no store and the router was given no handlers, all
    these routes answer 501. *)
Theorem X30_api_routes_have_handlers (S : Type) (a : formist.Admin S)
  (s : router.Router) (route : serving.Route) (key : string) :
  In route (serving.Routes (serving.setupRoutes s serving.newMux)) ->
  serving.RouteHandler route = serving.Api key ->
  (formist.storage a <> None ->
   exists handler,
     serving.apiRoute (formist.router (admin.Handler a)) key
     = serving.Delegated handler)
  /\ (formist.storage a = None ->
      router.storageHandlers (formist.router a) = None ->
      serving.apiRoute (formist.router (admin.Handler a)) key
      = serving.Plain 501 "Storage not configured").
Proof.
  intros Hin Hhandler. split.
  - intros Hstore. unfold admin.Handler.
    destruct (formist.storage a) as [ store | ]; [ | congruence ].
    unfold serving.apiRoute, serving.SetStorageHandlers. simpl.
    unfold serving.setupRoutes in Hin.
    destruct (router.authEnabled s); simpl in Hin;
      repeat (destruct Hin as [ <- | Hin ];
              [ simpl in Hhandler;
                first [ discriminate Hhandler
                      | injection Hhandler as <-; eexists; reflexivity ] | ]);
      destruct Hin.
  - intros Hnone Hhandlers. unfold admin.Handler. rewrite Hnone.
    unfold serving.apiRoute. rewrite Hhandlers. reflexivity.
Qed.

End Serving.

(** ** Closed examples of the further properties *)

(** X6 at the type of a pointer to a pointer to a struct with one
    member. *)
Lemma X6_FromStruct_not_a_struct_witness :
  let member := {| reflect.Name := "Email"; reflect.PkgPath := "";
                   reflect.TypeKind := reflect.String; reflect.Tag := [] |} in
  form.FromStruct (rt := refusingRuntime) "user" "User"
    (reflect.PointerTo (reflect.PointerTo (reflect.StructOf [member])))
  = form.NewForm "user" "User".
Proof.
  intros member.
  apply (X6_FromStruct_not_a_struct (rt := refusingRuntime));
    intros members; discriminate.
Defined.

(** X8 at a member of type string that is tagged as an email. *)
Lemma X8_email_rule_iff_email_type_witness :
  let member := {| reflect.Name := "Contact"; reflect.PkgPath := "";
                   reflect.TypeKind := reflect.String;
                   reflect.Tag := [("type", "email")] |} in
  types.Validation (form.createFieldFromStructField (rt := refusingRuntime) member)
  = [defaultEmailRule].
Proof.
  intros member.
  destruct (X8_email_rule_iff_email_type (rt := refusingRuntime) member)
    as (_ & _ & Hemail).
  destruct (Hemail eq_refl) as [ _ Hrules ]. exact Hrules.
Defined.

(** X9 at a member of type int whose type tag is [text], which is no
    case of the switch. *)
Lemma X9_unknown_type_tag_ignored_witness :
  let member := {| reflect.Name := "Age"; reflect.PkgPath := "";
                   reflect.TypeKind := reflect.Int;
                   reflect.Tag := [("type", "text")] |} in
  ~ In (reflect.Get (reflect.Tag member) "type") typeTags
  /\ form.getFieldType (rt := refusingRuntime) member = types.FieldTypeNumber.
Proof.
  intros member.
  assert (Htag : ~ In (reflect.Get (reflect.Tag member) "type") typeTags).
  { simpl. intros Hin.
    repeat (destruct Hin as [ Heq | Hin ]; [ discriminate Heq | ]).
    exact Hin. }
  split; [ exact Htag | ].
  rewrite (X9_unknown_type_tag_ignored (rt := refusingRuntime) member Htag).
  reflexivity.
Defined.

(** X12 at a table with one column. *)
Lemma X12_column_modifiers_change_last_witness :
  let tfb :=
    builder.AddTextColumn
      (builder.AddTableField (form.NewForm "users" "Users") "rows" "Rows")
      "name" "Name" in
  builder.WithSortable tfb
  = builder.setColumns tfb
      [sortable (builder.column "name" "Name" types.FieldTypeText [] false)].
Proof.
  intros tfb.
  destruct (X12_column_modifiers_change_last tfb "" "") as [ _ Hlast ].
  destruct (Hlast [] (builder.column "name" "Name" types.FieldTypeText [] false)
              eq_refl) as [ Hsortable _ ].
  exact Hsortable.
Defined.

(** X15 at the table field that [AddTableField] starts. *)
Lemma X15_table_entry_witness :
  let table :=
    builder.tableField
      (builder.AddTableField (form.NewForm "users" "Users") "rows" "Rows") in
  exists fieldSchema,
    schema.generateFieldSchema (rt := refusingRuntime) table = inl fieldSchema
    /\ fieldSchema !! "title" = Some (types.VString "Таблица").
Proof.
  intros table.
  destruct (X15_table_entry (rt := refusingRuntime) table (defaultTable [])
              eq_refl eq_refl)
    as (fieldSchema & properties & Hschema & _ & Htitle & _).
  exists fieldSchema. split; [ exact Hschema | exact Htitle ].
Defined.

(** X17 at a form with two fields of one name. *)
Lemma X17_properties_last_field_wins_witness :
  let first := spec.field "contact" types.FieldTypeText [] in
  let second := spec.field "contact" types.FieldTypeNumber [] in
  exists s fieldSchema,
    schema.GenerateJSONSchema (rt := refusingRuntime) (formOf "f" [first; second])
    = inl s
    /\ schema.generateFieldSchema (rt := refusingRuntime) second = inl fieldSchema
    /\ schema.Properties s !! "contact" = Some (types.VMap fieldSchema).
Proof.
  intros first second.
  destruct (X17_properties_last_field_wins (rt := refusingRuntime)
              (formOf "f" [first; second]))
    as (s & Hschema & _ & Hlast).
  exists s. eexists. split; [ exact Hschema | ].
  split; [ reflexivity | ].
  apply (Hlast [first] second []);
    [ reflexivity | discriminate | intros g [] | reflexivity ].
Defined.

(** X19 at a textarea with a setting, for the widget. *)
Lemma X19_config_changes_options_only_witness :
  let field := spec.field "bio" types.FieldTypeTextarea [] in
  schema.generateFieldUISchema
    (withConfig field (<["rows" := types.VInt 12]> ∅)) !! "ui:widget"
  = schema.generateFieldUISchema field !! "ui:widget".
Proof.
  intros field. apply X19_config_changes_options_only. discriminate.
Defined.

(** X21 at a form whose only field is hidden. *)
Lemma X21_hints_under_field_name_witness :
  let token := spec.field "token" types.FieldTypeHidden [] in
  plain token = false
  /\ schema.GenerateUISchema (formOf "f" [token]) !! "token"
     = Some (types.VMap (schema.generateFieldUISchema token)).
Proof.
  intros token.
  assert (Hplain : plain token = false) by (vm_compute; reflexivity).
  split; [ exact Hplain | ].
  apply (X21_hints_under_field_name (formOf "f" [token]) [] [] token);
    [ reflexivity | exact Hplain | intros g [] | left; discriminate ].
Defined.

(** X22 at a form whose only field is a plain text field. *)
Lemma X22_plain_fields_have_no_entry_witness :
  let name := spec.field "name" types.FieldTypeText [] in
  schema.GenerateUISchema (formOf "f" [name]) !! "name" = None.
Proof.
  intros name.
  apply (X22_plain_fields_have_no_entry (formOf "f" [name]) "name");
    [ | discriminate | discriminate ].
  intros field [ <- | [] ] _. vm_compute. reflexivity.
Defined.

(** X25 at a router on which the authorization is switched on and a
    middleware is added after [NewRouter]. *)
Lemma X25_mux_kept_without_EnableCORS_witness :
  let calls := [CallEnableAuth true; CallAddMiddleware "audit"] in
  router.authEnabled (serving.state (run calls serving.NewRouter)) = true
  /\ ~ servesLogin (serving.mux (run calls serving.NewRouter)).
Proof.
  intros calls. split; [ reflexivity | ].
  assert (Hcalls : forall c, In c calls -> rebuilds c = false).
  { intros c [ <- | [ <- | [] ] ]; reflexivity. }
  destruct (X25_mux_kept_without_EnableCORS calls serving.NewRouter Hcalls)
    as [ _ Hnew ].
  destruct (Hnew eq_refl) as [ _ Hlogin ]. exact Hlogin.
Defined.

(** X27 at a form with a required field and the empty payload, for a
    handler that succeeds and one that fails. *)
Lemma X27_post_handler_guarded_witness :
  let email := required (spec.field "email" types.FieldTypeEmail []) in
  let form :=
    builder.Build
      (builder.OnPost {| form.form := formOf "profile" [email] |} (Some "save")) in
  let r := router.RegisterForm router.NewRouter form in
  serving.handleFormPost (rt := refusingRuntime)
    (fun _ _ => inr (types.errors_New "сбой")) r "profile" (Some ∅)
  = serving.handleFormPost (rt := refusingRuntime)
      (fun _ _ => inl types.VNil) r "profile" (Some ∅).
Proof.
  intros email form r.
  assert (Hform : router.forms r !! "profile" = Some form)
    by (vm_compute; reflexivity).
  assert (Hrefused : ~ (forall field, In field (types.Fields form) ->
                                      fieldAccepted (rt := refusingRuntime) ∅ field)).
  { intros Hall. specialize (Hall email (or_introl eq_refl)).
    vm_compute in Hall. discriminate Hall. }
  destruct (X27_post_handler_guarded (rt := refusingRuntime)
              (fun _ _ => inl types.VNil)
              (fun _ _ => inr (types.errors_New "сбой"))
              r "profile" form ∅ Hform Hrefused) as [ Hsame _ ].
  exact Hsame.
Defined.

(** X30 at an admin with a store, for the route that lists the routes. *)
Lemma X30_api_routes_have_handlers_witness :
  let a := formist.WithStorage (formist.New nat) failingStore in
  exists handler,
    serving.apiRoute (formist.router (admin.Handler a)) "getRoutes"
    = serving.Delegated handler.
Proof.
  intros a.
  destruct (X30_api_routes_have_handlers nat a router.NewRouter
              {| serving.Method := "GET"; serving.Pattern := "/api/routes/";
                 serving.RouteHandler := serving.Api "getRoutes" |}
              "getRoutes") as [ Hstore _ ].
  - simpl. do 5 right. left. reflexivity.
  - reflexivity.
  - apply Hstore. discriminate.
Defined.

(** X23 at a form with one group and no field. *)
Lemma X23_groups_listed_in_order_witness :
  let group := {| types.GroupName := "main"; types.GroupTitle := "Main";
                  types.GroupDescription := ""; types.GroupFields := ["name"] |} in
  let form := {| types.FormName := "f"; types.FormTitle := "";
                 types.FormDescription := ""; types.Fields := [];
                 types.Groups := [group]; types.OnPost := None;
                 types.OnGet := None |} in
  exists groups,
    schema.GenerateUISchema form !! "ui:groups" = Some (types.VMaps groups)
    /\ List.map (fun g : gmap string types.value => g !! "ui:title") groups
       = [Some (types.VString "Main")].
Proof.
  intros group form.
  destruct (X23_groups_listed_in_order form) as [ Hsome _ ].
  destruct Hsome as (groups & Hlookup & Htitles & _); [ discriminate | ].
  exists groups. split; [ exact Hlookup | exact Htitles ].
Defined.
